(** * A shallow embedding of [vacuum.c]: scrub-and-defragment copy of a
      single-file B-tree database.

    The C program copies a database page by page, zeroing unused byte ranges
    and renumbering the pages densely.  This development embeds the integer
    codecs, the page-number allocator, the error channel, the overflow
    copier, the B-tree page rewriter and the driver, and states the
    properties of the design document about them.

    Conventions of the embedding.
    - [u8], [u32], [int] and [sqlite3_int64] values are integers of [Z]; every
      C operation that can wrap is followed by its wrap ([u32], [s32],
      [s64]).
    - A page buffer is a [list byte].  A pointer into a buffer is a buffer
      together with an offset.  An [int] page number is represented by its
      32-bit pattern read as unsigned: the program compares it with 0, with 1
      and, converted to unsigned, with [nDestPage].  Reading past the end
      of a buffer yields 0 and writing past the end does nothing; the C
      program has undefined behaviour there.
    - The source file, the destination file, the memory allocator and the SQL
      engine are an environment [Env] of result codes and contents.
    - [sqlite3_mprintf] and [sqlite3_vmprintf] succeed wherever the program
      does not test their result.
    - [assert] is compiled out (NDEBUG).  Division by zero follows [Z]
      ([x / 0 = 0], [Z.rem x 0 = x]); the C program has undefined behaviour
      there, which happens only for a page size of 0 or a usable size of 4. *)

From Stdlib Require Import ZArith Lia Bool String.
From Stdlib Require Import Sorting.Sorted Sorting.Permutation.
From Stdlib Require Init.Byte Strings.Byte.
From stdpp Require Import base list.

Local Open Scope Z_scope.

Abbreviation byte := Init.Byte.byte.

(** ** Machine integers *)

Definition u32 (x : Z) : Z := x mod 2 ^ 32.

(** Conversion of a [u32] to [int] (two's complement). *)
Definition s32 (x : Z) : Z := (x + 2 ^ 31) mod 2 ^ 32 - 2 ^ 31.

(** Wrap-around of [sqlite3_int64] arithmetic. *)
Definition s64 (x : Z) : Z := (x + 2 ^ 63) mod 2 ^ 64 - 2 ^ 63.

(** ** Bytes and buffers *)

#[global] Instance byte_inhabited : Inhabited byte := populate Byte.x00.

Definition byte_to_Z (b : byte) : Z := Z.of_N (Byte.to_N b).

(** Storing an integer expression into a [u8] keeps its low eight bits. *)
Definition byte_of_Z (z : Z) : byte :=
  match Byte.of_N (Z.to_N (z mod 256)) with
  | Some b => b
  | None => Byte.x00
  end.

(** [peek a i] is the C expression [a[i]]. *)
Definition peek (a : list byte) (i : Z) : Z := byte_to_Z (a !!! Z.to_nat i).

(** [poke a i v] is the C statement [a[i] = v]. *)
Definition poke (a : list byte) (i : Z) (v : Z) : list byte :=
  <[Z.to_nat i := byte_of_Z v]> a.

(** [memset a off n] is the C statement [memset(a+off, 0, n)]. *)
Definition memset (a : list byte) (off n : Z) : list byte :=
  list_inserts (Z.to_nat off) (replicate (Z.to_nat n) Byte.x00) a.

(** ** Integer codecs *)

(** Read a 32-bit big-endian integer at [a+off]. *)
Definition scrubDefragInt32 (a : list byte) (off : Z) : Z :=
  let v := peek a (off + 3) in
  let v := u32 (v + u32 (Z.shiftl (peek a (off + 2)) 8)) in
  let v := u32 (v + u32 (Z.shiftl (peek a (off + 1)) 16)) in
  let v := u32 (v + u32 (Z.shiftl (peek a off) 24)) in
  v.

Definition scrubDefragWriteInt32 (a : list byte) (off : Z) (v : Z) : list byte :=
  let a := poke a off (Z.land (Z.shiftr v 24) 255) in
  let a := poke a (off + 1) (Z.land (Z.shiftr v 16) 255) in
  let a := poke a (off + 2) (Z.land (Z.shiftr v 8) 255) in
  let a := poke a (off + 3) (Z.land v 255) in
  a.

(** Read a 16-bit big-endian integer at [a+off]. *)
Definition scrubDefragInt16 (a : list byte) (off : Z) : Z :=
  Z.shiftl (peek a off) 8 + peek a (off + 1).

(** The [for] loop of [scrubDefragVarint]: [n] iterations remain, [i] is the
    loop index and [v] the accumulator.  When the loop runs out ([i = 8]) the
    ninth byte contributes eight bits.  The result is the pair of the byte
    count returned and of the value stored in [*pVal]. *)
Fixpoint varint_loop (n : nat) (z : list byte) (off i v : Z) : Z * Z :=
  match n with
  | O => (9, s64 (s64 (Z.shiftl v 8) + Z.land (peek z (off + i)) 255))
  | S n' =>
      let v := s64 (s64 (Z.shiftl v 7) + Z.land (peek z (off + i)) 127) in
      if Z.land (peek z (off + i)) 128 =? 0 then (i + 1, v)
      else varint_loop n' z off (i + 1) v
  end.

Definition scrubDefragVarint (z : list byte) (off : Z) : Z * Z :=
  varint_loop 8 z off 0 0.

Fixpoint varint_size_loop (n : nat) (z : list byte) (off i : Z) : Z :=
  match n with
  | O => 9
  | S n' =>
      if Z.land (peek z (off + i)) 128 =? 0 then i + 1
      else varint_size_loop n' z off (i + 1)
  end.

(** Return the number of bytes in a varint. *)
Definition scrubDefragVarintSize (z : list byte) (off : Z) : Z :=
  varint_size_loop 8 z off 0.

(** ** State of a scrub-and-defrag operation *)

(** Result codes of [sqlite3.h], a header outside the repository. *)
Definition SQLITE_OK : Z := 0.
Definition SQLITE_ERROR : Z := 1.
Definition SQLITE_NOMEM : Z := 7.
Definition SQLITE_IOERR : Z := 10.
Definition SQLITE_CORRUPT : Z := 11.

(** The formatted error messages: one constructor per format string, carrying
    the arguments that the program formats into it. *)
Inductive ErrMsg : Type :=
  | ErrReadFailed (pgno : Z)
  | ErrInternalLogic
  | ErrWriteFailed (pgno : Z)
  | ErrSql (zSql : string)
  | ErrText (text : string)
  | ErrDestNotEmpty (nPage : Z)
  | ErrTooDeep (pgno : Z)
  | ErrCorruptPage (pgno ln : Z).

(** The fields of [struct ScrubDefragState] that the algorithm uses, followed
    by the two pieces of the outside world that it changes: the log of the
    pages written to the destination file (latest first, each with its
    page number) and the number of page buffers requested so far. *)
Record ScrubDefragState : Type := mkState {
  rcErr : Z;
  zErr : option ErrMsg;
  szPage : Z;
  szUsable : Z;
  nDestPage : Z;
  nSrcPage : Z;
  nFreePage : Z;
  page1 : list byte;
  iDestPageNo : Z;
  iLock : Z;
  destFile : list (Z * list byte);
  nAlloc : nat
}.

Definition set_rcErr (v : Z) (p : ScrubDefragState) : ScrubDefragState :=
  mkState v (zErr p) (szPage p) (szUsable p) (nDestPage p) (nSrcPage p)
    (nFreePage p) (page1 p) (iDestPageNo p) (iLock p) (destFile p) (nAlloc p).
Definition set_zErr (v : option ErrMsg) (p : ScrubDefragState) : ScrubDefragState :=
  mkState (rcErr p) v (szPage p) (szUsable p) (nDestPage p) (nSrcPage p)
    (nFreePage p) (page1 p) (iDestPageNo p) (iLock p) (destFile p) (nAlloc p).
Definition set_szPage (v : Z) (p : ScrubDefragState) : ScrubDefragState :=
  mkState (rcErr p) (zErr p) v (szUsable p) (nDestPage p) (nSrcPage p)
    (nFreePage p) (page1 p) (iDestPageNo p) (iLock p) (destFile p) (nAlloc p).
Definition set_szUsable (v : Z) (p : ScrubDefragState) : ScrubDefragState :=
  mkState (rcErr p) (zErr p) (szPage p) v (nDestPage p) (nSrcPage p)
    (nFreePage p) (page1 p) (iDestPageNo p) (iLock p) (destFile p) (nAlloc p).
Definition set_nDestPage (v : Z) (p : ScrubDefragState) : ScrubDefragState :=
  mkState (rcErr p) (zErr p) (szPage p) (szUsable p) v (nSrcPage p)
    (nFreePage p) (page1 p) (iDestPageNo p) (iLock p) (destFile p) (nAlloc p).
Definition set_nSrcPage (v : Z) (p : ScrubDefragState) : ScrubDefragState :=
  mkState (rcErr p) (zErr p) (szPage p) (szUsable p) (nDestPage p) v
    (nFreePage p) (page1 p) (iDestPageNo p) (iLock p) (destFile p) (nAlloc p).
Definition set_nFreePage (v : Z) (p : ScrubDefragState) : ScrubDefragState :=
  mkState (rcErr p) (zErr p) (szPage p) (szUsable p) (nDestPage p) (nSrcPage p)
    v (page1 p) (iDestPageNo p) (iLock p) (destFile p) (nAlloc p).
Definition set_page1 (v : list byte) (p : ScrubDefragState) : ScrubDefragState :=
  mkState (rcErr p) (zErr p) (szPage p) (szUsable p) (nDestPage p) (nSrcPage p)
    (nFreePage p) v (iDestPageNo p) (iLock p) (destFile p) (nAlloc p).
Definition set_iDestPageNo (v : Z) (p : ScrubDefragState) : ScrubDefragState :=
  mkState (rcErr p) (zErr p) (szPage p) (szUsable p) (nDestPage p) (nSrcPage p)
    (nFreePage p) (page1 p) v (iLock p) (destFile p) (nAlloc p).
Definition set_iLock (v : Z) (p : ScrubDefragState) : ScrubDefragState :=
  mkState (rcErr p) (zErr p) (szPage p) (szUsable p) (nDestPage p) (nSrcPage p)
    (nFreePage p) (page1 p) (iDestPageNo p) v (destFile p) (nAlloc p).
Definition set_destFile (v : list (Z * list byte)) (p : ScrubDefragState)
  : ScrubDefragState :=
  mkState (rcErr p) (zErr p) (szPage p) (szUsable p) (nDestPage p) (nSrcPage p)
    (nFreePage p) (page1 p) (iDestPageNo p) (iLock p) v (nAlloc p).
Definition set_nAlloc (v : nat) (p : ScrubDefragState) : ScrubDefragState :=
  mkState (rcErr p) (zErr p) (szPage p) (szUsable p) (nDestPage p) (nSrcPage p)
    (nFreePage p) (page1 p) (iDestPageNo p) (iLock p) (destFile p) v.

(** The state after [memset(&s, 0, sizeof(s))]. *)
Definition zero_state : ScrubDefragState :=
  mkState 0 None 0 0 0 0 0 [] 0 0 [] 0.

(** ** The page-number allocator *)

Definition scrubDefragIncDestPageNo (p : ScrubDefragState) : ScrubDefragState :=
  let p := set_iDestPageNo (u32 (iDestPageNo p + 1)) p in
  if iDestPageNo p =? iLock p
  then set_iDestPageNo (u32 (iDestPageNo p + 1)) p
  else p.

(** ** The error channel *)

(** Store an error message: the previous message is freed and replaced; the
    code is set only when none is recorded yet. *)
Definition scrubDefragErr (p : ScrubDefragState) (msg : ErrMsg) : ScrubDefragState :=
  let p := set_zErr (Some msg) p in
  if rcErr p =? 0 then set_rcErr SQLITE_ERROR p else p.

(** ** The environment *)

(** A row of the schema catalog [sqlite_master]: [rootpage] may be NULL. *)
Record CatalogRow : Type := mkRow {
  row_rootpage : option Z;
  row_name : string;
  row_type : string
}.

(** What the program obtains from outside: the pages of the source file
    ([None] when [xRead] does not return [SQLITE_OK]), the result code of
    [xWrite] for a page, whether the n-th request of a page buffer succeeds,
    and the result codes and results of the calls into the SQL engine, in the
    order in which the program makes them.  [src_pragma] gives, for a pragma
    of the source, the result code of its preparation, the value of its row if
    it has one, and the result code of its finalization.  [catalog] is the
    content of [sqlite_master] and [catalog_steps] the number of times that
    [sqlite3_step] can return [SQLITE_ROW] for the catalog query. *)
Record Env : Type := mkEnv {
  xRead : Z -> option (list byte);
  xWrite : Z -> list byte -> Z;
  malloc_ok : nat -> bool;
  src_open_rc : Z;
  src_begin_rc : Z;
  src_checkpoint_rc : Z;
  src_pragma : string -> Z * option Z * Z;
  src_handle : bool;
  dest_open_rc : Z;
  dest_mprintf_ok : bool;
  dest_page_size_rc : Z;
  dest_begin_rc : Z;
  dest_count_prepare_rc : Z;
  dest_count_row : option Z;
  dest_handle : bool;
  catalog_prepare_rc : Z;
  catalog : list CatalogRow;
  catalog_steps : nat;
  catalog_finalize_rc : Z;
  script_mprintf_ok : bool;
  dest_reopen_rc : Z;
  script_exec_rc : Z
}.

(** Outcome of a scan of a page: it went through, or a corruption test at
    source line [ln] jumped to [btree_corrupt]. *)
Inductive Scan (A : Type) : Type :=
  | Good (x : A)
  | Corrupt (ln : Z) (x : A).
Arguments Good {A} x.
Arguments Corrupt {A} ln x.

(** What the rewriter does with the payload of one cell. *)
Inductive PayloadPlan : Type :=
  | PlanLocal
  | PlanCorrupt (ln : Z)
  | PlanOverflow (ptr iChild nByte : Z).

Section Program.

Variable env : Env.

(** ** Page input and output *)

(** Allocate memory to hold a single page of content.  The content of the
    new buffer is never read before [xRead] fills it, so only the success of
    the request is returned. *)
Definition scrubDefragAllocPage (p : ScrubDefragState) : ScrubDefragState * bool :=
  if negb (rcErr p =? 0) then (p, false)
  else
    let ok := malloc_ok env (nAlloc p) in
    let p := set_nAlloc (S (nAlloc p)) p in
    if ok then (p, true) else (set_rcErr SQLITE_NOMEM p, false).

(** Read a page from the source database into memory; [hasBuf] tells whether
    the caller provides the buffer ([pBuf != NULL]). *)
Definition scrubDefragRead (p : ScrubDefragState) (pgno : Z) (hasBuf : bool)
  : ScrubDefragState * option (list byte) :=
  if negb (rcErr p =? 0) then (p, None)
  else
    let '(p, ok) := if hasBuf then (p, true) else scrubDefragAllocPage p in
    if negb ok then (p, None)
    else
      match xRead env pgno with
      | Some data => (p, Some data)
      | None =>
          (set_rcErr SQLITE_IOERR (scrubDefragErr p (ErrReadFailed pgno)), None)
      end.

(** Write a page to the destination database. *)
Definition scrubDefragWrite (p : ScrubDefragState) (pgno : Z) (pData : list byte)
  : ScrubDefragState :=
  if negb (rcErr p =? 0) then p
  else if nDestPage p <? pgno then
    set_rcErr SQLITE_CORRUPT (scrubDefragErr p ErrInternalLogic)
  else if xWrite env pgno pData =? SQLITE_OK then
    set_destFile ((pgno, pData) :: destFile p) p
  else
    set_rcErr SQLITE_IOERR (scrubDefragErr p (ErrWriteFailed pgno)).

(** ** The overflow copier *)

(** The body of the loop between the read and the write: either the page is
    full of payload and the byte count is reduced, or the unused tail of the
    page is zeroed and the byte count becomes 0. *)
Definition overflow_trim (U : Z) (a : list byte) (nByte : Z) : list byte * Z :=
  if u32 (U - 4) <=? nByte
  then (a, u32 (nByte - u32 (U - 4)))
  else
    let x := u32 (u32 (U - 4) - nByte) in
    let i := u32 (U - x) in
    (memset a i x, 0).

(** The [while] loop of [scrubDefragOverflow].  [fuel] bounds the number of
    iterations; [overflow_fuel] below is enough whenever the usable size is
    not 4. *)
Fixpoint overflow_loop (fuel : nat) (p : ScrubDefragState) (pgno nByte : Z)
  : ScrubDefragState :=
  match fuel with
  | O => p
  | S fuel' =>
      if (0 <? nByte) && negb (pgno =? 0) then
        match scrubDefragRead p pgno true with
        | (p, None) => p
        | (p, Some a) =>
            let '(a, nByte) := overflow_trim (szUsable p) a nByte in
            let pgno := scrubDefragInt32 a 0 in
            let iCurrentPageNo := iDestPageNo p in
            let '(p, a) :=
              if negb (pgno =? 0) then
                let p := scrubDefragIncDestPageNo p in
                (p, scrubDefragWriteInt32 a 0 (iDestPageNo p))
              else (p, a) in
            let p := scrubDefragWrite p iCurrentPageNo a in
            overflow_loop fuel' p pgno nByte
        end
      else p
  end.

Definition overflow_fuel (p : ScrubDefragState) (nByte : Z) : nat :=
  S (Z.to_nat (nByte / u32 (szUsable p - 4))).

(** Copy an overflow chain from source to destination.  Zero out any unused
    tail at the end of the overflow chain. *)
Definition scrubDefragOverflow (p : ScrubDefragState) (pgno nByte : Z)
  : ScrubDefragState :=
  match scrubDefragAllocPage p with
  | (p, false) => p
  | (p, true) => overflow_loop (overflow_fuel p nByte) p pgno nByte
  end.

(** ** The B-tree page rewriter *)

(** The buffer [a] of a call of [scrubDefragBtree] is [p->page1] itself when
    [pgno] is 1 and a buffer of its own otherwise.  A frame is the state
    together with the private buffer; [frame_buf] reads the buffer of the
    call and [frame_upd] changes it in place. *)
Definition frame_buf (pgno : Z) (p : ScrubDefragState) (a : list byte) : list byte :=
  if pgno =? 1 then page1 p else a.

Definition frame_upd (pgno : Z) (f : list byte -> list byte)
    (p : ScrubDefragState) (a : list byte) : ScrubDefragState * list byte :=
  if pgno =? 1 then (set_page1 (f (page1 p)) p, a) else (p, f a).

Definition btree_nPrefix (pgno : Z) : Z := if pgno =? 1 then 100 else 0.

Definition is_interior (kind : Z) : bool := (kind =? 5) || (kind =? 2).

Definition btree_szHdr (a : list byte) (nPrefix : Z) : Z :=
  8 + 4 * (if (peek a nPrefix =? 2) || (peek a nPrefix =? 5) then 1 else 0).

(** The loop that zeroes the free blocks, from the block at [pc] on. *)
Fixpoint freeblock_loop (fuel : nat) (U : Z) (a : list byte) (pc : Z)
  : Scan (list byte) :=
  match fuel with
  | O => Good a
  | S fuel' =>
      if pc =? 0 then Good a
      else if u32 (U - 4) <? pc then Corrupt 415 a
      else
        let n := scrubDefragInt16 a (pc + 2) in
        if U <? u32 (pc + n) then Corrupt 417 a
        else
          let a := if 4 <? n then memset a (pc + 4) (n - 4) else a in
          let x := scrubDefragInt16 a pc in
          if (x <? u32 (pc + 4)) && (0 <? x) then Corrupt 420 a
          else freeblock_loop fuel' U a x
  end.

(** The offsets of a free-block chain grow by at least 4 and stay below
    65536, which bounds the number of iterations. *)
Definition freeblock_fuel (pc : Z) : nat := Z.to_nat (65536 - pc).

(** The start of [scrubDefragBtree] once the page is in memory: the header is
    parsed, the gap between the cell index and the cell content area is
    zeroed, and the free blocks are zeroed. *)
Definition btree_header (U pgno : Z) (a : list byte) : Scan (list byte) :=
  let nPrefix := btree_nPrefix pgno in
  let szHdr := btree_szHdr a nPrefix in
  let nCell := scrubDefragInt16 a (nPrefix + 3) in
  let x := scrubDefragInt16 a (nPrefix + 5) in
  if U <? x then Corrupt 406 a
  else
    let y := u32 (szHdr + nPrefix + nCell * 2) in
    if x <? y then Corrupt 408 a
    else
      let a := if y <? x then memset a y (x - y) else a in
      let pc := scrubDefragInt16 a (nPrefix + 1) in
      if (0 <? pc) && (pc <? x) then Corrupt 413 a
      else freeblock_loop (freeblock_fuel pc) U a pc.

(** The overflow thresholds, in the [u32] and [sqlite3_int64] arithmetic of
    the program.  [kind] is the page kind [aTop[0]], [U] the usable size and
    [P] the payload size. *)
Definition payload_X (kind U : Z) : Z :=
  if kind =? 13 then u32 (U - 35)
  else u32 (u32 (u32 (U - 12) * 64) / 255 - 23).

Definition payload_M (U : Z) : Z := u32 (u32 (u32 (U - 12) * 32) / 255 - 23).

Definition payload_K (U P : Z) : Z :=
  u32 (s64 (payload_M U + Z.rem (s64 (P - payload_M U)) (u32 (U - 4)))).

Definition payload_nLocal (kind U P : Z) : Z :=
  if payload_K U P <=? payload_X kind U then payload_K U P else payload_M U.

(** The payload part of one cell, from the varint of the payload size at
    [pc] on, as far as the decision: nothing to do, corruption, or an
    overflow chain whose head page number [iChild] is stored at [ptr] and
    which carries [nByte] bytes. *)
Definition payload_plan (U kind : Z) (a : list byte) (pc : Z) : PayloadPlan :=
  let '(n, P) := scrubDefragVarint a pc in
  let pc := u32 (pc + n) in
  if U <=? pc then PlanCorrupt 442
  else if P <=? payload_X kind U then PlanLocal
  else
    let pcOk :=
      if kind =? 13 then
        let pc := u32 (pc + scrubDefragVarintSize a pc) in
        if u32 (U - 4) <? pc then None else Some pc
      else Some pc in
    match pcOk with
    | None => PlanCorrupt 456
    | Some pc =>
        let nLocal := payload_nLocal kind U P in
        if u32 (U - 4) <? u32 (pc + nLocal) then PlanCorrupt 459
        else
          PlanOverflow (u32 (pc + nLocal))
            (scrubDefragInt32 a (u32 (pc + nLocal)))
            (u32 (s64 (P - nLocal)))
    end.

Definition btree_payload (pgno nPrefix pc : Z) (p : ScrubDefragState)
    (a : list byte) : Scan (ScrubDefragState * list byte) :=
  let buf := frame_buf pgno p a in
  match payload_plan (szUsable p) (peek buf nPrefix) buf pc with
  | PlanLocal => Good (p, a)
  | PlanCorrupt ln => Corrupt ln (p, a)
  | PlanOverflow ptr iChild nByte =>
      let p := scrubDefragIncDestPageNo p in
      let '(p, a) :=
        frame_upd pgno (fun b => scrubDefragWriteInt32 b ptr (iDestPageNo p)) p a in
      Good (scrubDefragOverflow p iChild nByte, a)
  end.

(** One iteration of the loop over the cells; [child p iChild] is the
    recursive call [scrubDefragBtree(p, iChild, iDepth+1, 0)]. *)
Definition btree_cell (child : ScrubDefragState -> Z -> ScrubDefragState)
    (pgno nPrefix szHdr i : Z) (p : ScrubDefragState) (a : list byte)
  : Scan (ScrubDefragState * list byte) :=
  let buf := frame_buf pgno p a in
  let pc := scrubDefragInt16 buf (nPrefix + szHdr + i * 2) in
  if pc <=? szHdr then Corrupt 429 (p, a)
  else if u32 (szUsable p - 3) <? pc then Corrupt 430 (p, a)
  else if is_interior (peek buf nPrefix) then
    if szUsable p <? u32 (pc + 4) then Corrupt 432 (p, a)
    else
      let iChild := scrubDefragInt32 buf pc in
      let p := scrubDefragIncDestPageNo p in
      let '(p, a) :=
        frame_upd pgno (fun b => scrubDefragWriteInt32 b pc (iDestPageNo p)) p a in
      let pc := u32 (pc + 4) in
      let p := child p iChild in
      if peek (frame_buf pgno p a) nPrefix =? 5 then Good (p, a)
      else btree_payload pgno nPrefix pc p a
  else btree_payload pgno nPrefix pc p a.

(** The loop [for(i=0; i<nCell; i++)], with [n] iterations left. *)
Fixpoint btree_cells (child : ScrubDefragState -> Z -> ScrubDefragState)
    (pgno nPrefix szHdr : Z) (n : nat) (i : Z) (p : ScrubDefragState)
    (a : list byte) : Scan (ScrubDefragState * list byte) :=
  match n with
  | O => Good (p, a)
  | S n' =>
      match btree_cell child pgno nPrefix szHdr i p a with
      | Good (p, a) => btree_cells child pgno nPrefix szHdr n' (u32 (i + 1)) p a
      | Corrupt ln pa => Corrupt ln pa
      end
  end.

(** Walk the right-most tree of an interior page. *)
Definition btree_rightmost (child : ScrubDefragState -> Z -> ScrubDefragState)
    (pgno nPrefix : Z) (p : ScrubDefragState) (a : list byte)
  : ScrubDefragState * list byte :=
  let buf := frame_buf pgno p a in
  if is_interior (peek buf nPrefix) then
    let iChild := scrubDefragInt32 buf (nPrefix + 8) in
    let p := scrubDefragIncDestPageNo p in
    let '(p, a) :=
      frame_upd pgno
        (fun b => scrubDefragWriteInt32 b (nPrefix + 8) (iDestPageNo p)) p a in
    (child p iChild, a)
  else (p, a).

(** Copy B-tree page [pgno], and all of its children, from source to
    destination.  [fuel] bounds the nesting of the recursive calls; the test
    [iDepth > 50] stops the recursion first when [51 - iDepth <= fuel]. *)
Fixpoint scrubDefragBtree_fuel (fuel : nat) (p : ScrubDefragState)
    (pgno iDepth : Z) (bRoot : bool) : ScrubDefragState :=
  let iCurrentPageNo := iDestPageNo p in
  if negb (rcErr p =? 0) then p
  else if 50 <? iDepth then scrubDefragErr p (ErrTooDeep pgno)
  else
    match fuel with
    | O => p
    | S fuel' =>
        let child := fun q iChild =>
          scrubDefragBtree_fuel fuel' q iChild (iDepth + 1) false in
        match (if pgno =? 1 then (p, Some (page1 p))
               else scrubDefragRead p pgno false) with
        | (p, None) => p
        | (p, Some a) =>
            let nPrefix := btree_nPrefix pgno in
            let szHdr := btree_szHdr a nPrefix in
            let nCell := scrubDefragInt16 a (nPrefix + 3) in
            match btree_header (szUsable p) pgno a with
            | Corrupt ln a =>
                let '(p, _) := frame_upd pgno (fun _ => a) p a in
                scrubDefragErr p (ErrCorruptPage pgno ln)
            | Good a =>
                let '(p, a) := frame_upd pgno (fun _ => a) p a in
                match btree_cells child pgno nPrefix szHdr (Z.to_nat nCell) 0 p a with
                | Corrupt ln (p, _) => scrubDefragErr p (ErrCorruptPage pgno ln)
                | Good (p, a) =>
                    let '(p, a) := btree_rightmost child pgno nPrefix p a in
                    let p := if bRoot then scrubDefragIncDestPageNo p else p in
                    scrubDefragWrite p iCurrentPageNo (frame_buf pgno p a)
                end
            end
        end
    end.

(** The driver calls the rewriter with [iDepth = 0]; the test [iDepth > 50]
    then allows at most 51 nested calls. *)
Definition btree_depth_fuel : nat := 52.

Definition scrubDefragBtree (p : ScrubDefragState) (pgno iDepth : Z)
    (bRoot : bool) : ScrubDefragState :=
  scrubDefragBtree_fuel btree_depth_fuel p pgno iDepth bRoot.

(** ** The SQL statements *)

(** Prepare a statement; [rc] is the result code of [sqlite3_prepare_v2].
    The boolean tells whether a statement is returned. *)
Definition scrubDefragPrepare (p : ScrubDefragState) (rc : Z) (zSql : string)
  : ScrubDefragState * bool :=
  if negb (rcErr p =? 0) then (p, false)
  else
    let p := set_rcErr rc p in
    if negb (rcErr p =? 0) then (scrubDefragErr p (ErrSql zSql), false)
    else (p, true).

(** Execute an SQL statement of the source database and return an int value:
    [Some v] when [*pRes] is assigned [v], [None] when it is left alone. *)
Definition scrubDefragDbInt (p : ScrubDefragState) (zSql : string) (zErrText : string)
  : ScrubDefragState * option Z :=
  if negb (rcErr p =? 0) then (p, None)
  else
    let '(rcPrepare, row, rcFinalize) := src_pragma env zSql in
    match scrubDefragPrepare p rcPrepare zSql with
    | (p, false) => (p, None)
    | (p, true) =>
        let p := set_rcErr rcFinalize p in
        let p := if negb (rcErr p =? 0) then scrubDefragErr p (ErrText zErrText)
                 else p in
        (p, row)
    end.

Definition assign (v : option Z) (set : Z -> ScrubDefragState -> ScrubDefragState)
    (p : ScrubDefragState) : ScrubDefragState :=
  match v with
  | Some x => set (u32 x) p
  | None => p
  end.

(** Open the source database file. *)
Definition scrubDefragOpenSrc (p : ScrubDefragState) : ScrubDefragState :=
  let p := set_rcErr (src_open_rc env) p in
  if negb (rcErr p =? 0) then
    scrubDefragErr p (ErrText "cannot open source database")
  else
    let p := set_rcErr (src_begin_rc env) p in
    if negb (rcErr p =? 0) then
      scrubDefragErr p
        (ErrText "cannot start a read transaction on the source database")
    else if negb (src_checkpoint_rc env =? 0) then
      scrubDefragErr p (ErrText "cannot checkpoint the source database")
    else
      let '(p, v) := scrubDefragDbInt p "PRAGMA page_size"
                       "unable to determine the page size" in
      let p := assign v set_szPage p in
      if negb (rcErr p =? 0) then p
      else
        let '(p, v) := scrubDefragDbInt p "PRAGMA page_count"
                         "unable to determine the size of the source database" in
        let p := assign v set_nSrcPage p in
        if negb (rcErr p =? 0) then p
        else
          let '(p, v) := scrubDefragDbInt p "PRAGMA freelist_count"
            "unable to determine the free-list size of the source database" in
          let p := assign v set_nFreePage p in
          if negb (rcErr p =? 0) then p
          else if src_handle env then p
          else
            set_rcErr SQLITE_ERROR
              (scrubDefragErr p (ErrText "cannot get the source file handle")).

(** Create and open the destination file. *)
Definition scrubDefragOpenDest (p : ScrubDefragState) : ScrubDefragState :=
  if negb (rcErr p =? 0) then p
  else
    let p := set_rcErr (dest_open_rc env) p in
    if negb (rcErr p =? 0) then
      scrubDefragErr p (ErrText "cannot open destination database")
    else if negb (dest_mprintf_ok env) then set_rcErr SQLITE_NOMEM p
    else
      let p := set_rcErr (dest_page_size_rc env) p in
      if negb (rcErr p =? 0) then
        scrubDefragErr p
          (ErrText "cannot set the page size on the destination database")
      else
        let p := set_rcErr (dest_begin_rc env) p in
        if negb (rcErr p =? 0) then
          scrubDefragErr p
            (ErrText "cannot start a write transaction on the destination database")
        else
          match scrubDefragPrepare p (dest_count_prepare_rc env)
                  "PRAGMA page_count;" with
          | (p, false) => p
          | (p, true) =>
              let p :=
                match dest_count_row env with
                | None =>
                    scrubDefragErr p
                      (ErrText "cannot measure the size of the destination")
                | Some n =>
                    if 1 <? s32 n then scrubDefragErr p (ErrDestNotEmpty (s32 n))
                    else p
                end in
              if dest_handle env then p
              else
                set_rcErr SQLITE_ERROR
                  (scrubDefragErr p
                     (ErrText "cannot get the destination file handle"))
          end.

(** ** The driver *)

(** The rank that the [ORDER BY] clause of the catalog query gives to a row:
    [CASE type WHEN 'table' THEN 2 WHEN 'index' THEN 1 ELSE 0 END]. *)
Definition type_rank (type : string) : Z :=
  if String.eqb type "table" then 2
  else if String.eqb type "index" then 1
  else 0.

(** [coalesce(rootpage,0)]. *)
Definition row_root (r : CatalogRow) : Z :=
  match row_rootpage r with
  | Some n => n
  | None => 0
  end.

(** The order of [ORDER BY CASE ... END, rootpage]. *)
Definition row_leb (r1 r2 : CatalogRow) : bool :=
  (type_rank (row_type r1) <? type_rank (row_type r2))
  || ((type_rank (row_type r1) =? type_rank (row_type r2))
      && (row_root r1 <=? row_root r2)).

Fixpoint insert_row (r : CatalogRow) (rows : list CatalogRow) : list CatalogRow :=
  match rows with
  | [] => [r]
  | r' :: rows' =>
      if row_leb r r' then r :: rows else r' :: insert_row r rows'
  end.

Fixpoint sort_rows (rows : list CatalogRow) : list CatalogRow :=
  match rows with
  | [] => []
  | r :: rows' => insert_row r (sort_rows rows')
  end.

(** The rows that the statement
    [SELECT rootpage,name,type FROM sqlite_master WHERE coalesce(rootpage,0)>0
     ORDER BY CASE type WHEN 'table' THEN 2 WHEN 'index' THEN 1 ELSE 0 END,
     rootpage]
    delivers, in the order of delivery.  Rows that the [ORDER BY] clause does
    not tell apart are kept in the order of the catalog. *)
Definition catalog_query (rows : list CatalogRow) : list CatalogRow :=
  sort_rows (List.filter (fun r => 0 <? row_root r) rows).

(** One [UPDATE SQLITE_MASTER SET rootpage=newRoot WHERE rootpage=oldRoot AND
    name=.. AND type=..] statement of the catalog-update script. *)
Record RootUpdate : Type := mkUpdate {
  upd_newRoot : Z;
  upd_oldRoot : Z;
  upd_name : string;
  upd_type : string
}.

(** One iteration of the loop over the rows of the catalog query: the
    statement is appended to the script with the current value of
    [s.iDestPageNo], then the tree is copied. *)
Definition relocate_row (s : ScrubDefragState) (zSql : list RootUpdate)
    (r : CatalogRow) : ScrubDefragState * list RootUpdate :=
  let i := u32 (s32 (row_root r)) in
  let zSql := zSql ++ [mkUpdate (iDestPageNo s) (s32 (row_root r))
                         (row_name r) (row_type r)] in
  (scrubDefragBtree s i 0 true, zSql).

Fixpoint relocate_rows (s : ScrubDefragState) (zSql : list RootUpdate)
    (rows : list CatalogRow) : ScrubDefragState * list RootUpdate :=
  match rows with
  | [] => (s, zSql)
  | r :: rows' =>
      let '(s, zSql) := relocate_row s zSql r in
      relocate_rows s zSql rows'
  end.

(** The part of [sqlite3_scrub_and_defrag] that fixes the header of page 1
    in memory, after page 1 has been read. *)
Definition fix_header (s : ScrubDefragState) : ScrubDefragState :=
  let s := set_nDestPage (u32 (nSrcPage s - nFreePage s)) s in
  let s := if (iLock s <=? nSrcPage s) && (nDestPage s <? iLock s)
           then set_nDestPage (u32 (nDestPage s - 1)) s else s in
  let s := set_page1 (scrubDefragWriteInt32 (page1 s) 28 (nDestPage s)) s in
  let s := set_page1 (scrubDefragWriteInt32 (page1 s) 32 0) s in
  let s := set_page1 (scrubDefragWriteInt32 (page1 s) 36 0) s in
  let s := set_page1 (scrubDefragWriteInt32 (page1 s) 52 0) s in
  set_szUsable (u32 (szPage s - peek (page1 s) 20)) s.

(** What a run leaves behind: the value returned, the message stored in
    [*pzErr], the final state and, when the run got as far as executing it,
    the catalog-update script. *)
Record Outcome : Type := mkOutcome {
  out_rc : Z;
  out_zErr : option ErrMsg;
  out_state : ScrubDefragState;
  out_script : option (list RootUpdate)
}.

(** The label [scrub_abort]. *)
Definition scrub_abort (s : ScrubDefragState) (script : option (list RootUpdate))
  : Outcome :=
  mkOutcome (rcErr s) (zErr s) s script.

Definition catalog_sql : string :=
  "SELECT rootpage,name,type FROM sqlite_master WHERE coalesce(rootpage,0)>0   ORDER BY CASE type WHEN 'table' THEN 2                       WHEN 'index' THEN 1                       ELSE 0 END, rootpage".

Definition sqlite3_scrub_and_defrag : Outcome :=
  let s := set_iDestPageNo 1 zero_state in
  let s := scrubDefragOpenSrc s in
  let s := scrubDefragOpenDest s in
  if negb (rcErr s =? 0) then scrub_abort s None
  else
    let s := set_iLock (u32 (1073742335 / szPage s + 1)) s in
    match scrubDefragRead s 1 false with
    | (s, None) => scrub_abort s None
    | (s, Some a) =>
        let s := set_page1 a s in
        let s := fix_header s in
        let s := scrubDefragBtree s 1 0 true in
        match scrubDefragPrepare s (catalog_prepare_rc env) catalog_sql with
        | (s, false) => scrub_abort s None
        | (s, true) =>
            let rows := firstn (catalog_steps env) (catalog_query (catalog env)) in
            let '(s, zSql) := relocate_rows s [] rows in
            let s := set_rcErr (catalog_finalize_rc env) s in
            if negb (rcErr s =? 0) then scrub_abort s None
            else if negb (script_mprintf_ok env) then
              scrub_abort (set_rcErr SQLITE_NOMEM s) None
            else
              let s := set_rcErr (dest_reopen_rc env) s in
              if negb (rcErr s =? 0) then
                scrub_abort
                  (scrubDefragErr s
                     (ErrText "Error occurred while reopen destination database"))
                  None
              else
                let s := set_rcErr (script_exec_rc env) s in
                if negb (rcErr s =? 0) then
                  scrub_abort
                    (scrubDefragErr s
                       (ErrText "Error occurred while update root page"))
                    (Some zSql)
                else scrub_abort s (Some zSql)
        end
    end.

End Program.

(** * Definitions used by the statements *)

Arguments u32 : simpl never.
Arguments s32 : simpl never.
Arguments s64 : simpl never.
Arguments peek : simpl never.
Arguments poke : simpl never.
Arguments memset : simpl never.
Arguments scrubDefragInt16 : simpl never.
Arguments scrubDefragInt32 : simpl never.
Arguments scrubDefragWriteInt32 : simpl never.
Arguments scrubDefragBtree : simpl never.

(** ** The allocator as a sequence *)

(** The page numbers that [n] successive allocations hand out: the value of
    the counter, then the counter is advanced. *)
Fixpoint alloc_run (n : nat) (p : ScrubDefragState) : list Z :=
  match n with
  | O => []
  | S n' => iDestPageNo p :: alloc_run n' (scrubDefragIncDestPageNo p)
  end.

(** The state of the allocator when the driver has set [iLock]. *)
Definition alloc_start (pageSize : Z) : ScrubDefragState :=
  set_iLock (u32 (1073742335 / pageSize + 1))
    (set_szPage pageSize (set_iDestPageNo 1 zero_state)).

(** ** The overflow thresholds of the design document *)

(** The thresholds as the design document writes them, over the integers:
    [X], [M], [K] and [nLocal] for a page of kind [kind], usable size [U] and
    a payload of [P] bytes, with truncating division. *)
Module Thresholds.

Definition X (kind U : Z) : Z :=
  if kind =? 13 then U - 35 else (U - 12) * 64 / 255 - 23.

Definition M (U : Z) : Z := (U - 12) * 32 / 255 - 23.

Definition K (U P : Z) : Z := M U + (P - M U) mod (U - 4).

Definition nLocal (kind U P : Z) : Z :=
  if K U P <=? X kind U then K U P else M U.

End Thresholds.

(** ** Projections of a scan *)

Definition scan_val {A : Type} (r : Scan A) : A :=
  match r with
  | Good x => x
  | Corrupt _ x => x
  end.

(** ** The gap of a B-tree page *)

(** The three header values that delimit the gap of the page held in [a]:
    the end of the cell-pointer array and the start of the cell content
    area, the latter as the header stores it. *)
Definition gap_start (pgno : Z) (a : list byte) : Z :=
  btree_nPrefix pgno + btree_szHdr a (btree_nPrefix pgno)
  + 2 * scrubDefragInt16 a (btree_nPrefix pgno + 3).

Definition cell_start (pgno : Z) (a : list byte) : Z :=
  scrubDefragInt16 a (btree_nPrefix pgno + 5).

(** The page that a call of [scrubDefragBtree] for [pgno] works on. *)
Definition btree_loads (env : Env) (p : ScrubDefragState) (pgno : Z)
    (a : list byte) : Prop :=
  if pgno =? 1 then page1 p = a else xRead env pgno = Some a.

(** ** Overflow chains of the source *)

(** [overflow_chain env U pgno nByte nLast]: in the source file, the chain of
    overflow pages that starts at page [pgno] and carries [nByte] bytes of
    payload on pages of usable size [U] is as long as the payload requires.
    Every page of it can be read, each page before the last names a next
    page, and the last page, which carries the remaining [nLast] bytes, has a
    next-page field of zero. *)
Inductive overflow_chain (env : Env) (U : Z) : Z -> Z -> Z -> Prop :=
  | chain_last (pgno nByte : Z) (a : list byte) :
      pgno <> 0 -> xRead env pgno = Some a ->
      0 < nByte <= U - 4 ->
      scrubDefragInt32 a 0 = 0 ->
      overflow_chain env U pgno nByte nByte
  | chain_link (pgno nByte nLast : Z) (a : list byte) :
      pgno <> 0 -> xRead env pgno = Some a ->
      U - 4 < nByte ->
      scrubDefragInt32 a 0 <> 0 ->
      overflow_chain env U (scrubDefragInt32 a 0) (nByte - (U - 4)) nLast ->
      overflow_chain env U pgno nByte nLast.

(** ** Orders on the rows of the catalog *)



(** What a statement of the script says about its row. *)
Definition update_key (u : RootUpdate) : Z * string * string :=
  (upd_oldRoot u, upd_name u, upd_type u).

Definition row_key (r : CatalogRow) : Z * string * string :=
  (s32 (row_root r), row_name r, row_type r).

(** The end of the gap as the design document delimits it:
    [nPrefix + cellStart]. *)
Definition prose_gap_end (pgno : Z) (a : list byte) : Z :=
  btree_nPrefix pgno + cell_start pgno a.

(** ** What a call for a root page writes *)

(** The lengths of page 1 in memory and of the private buffer of a call. *)
Definition frame_lengths (n1 n : nat) (pa : ScrubDefragState * list byte)
  : Prop :=
  length (page1 (fst pa)) = n1 /\ length (snd pa) = n.

(** [root_page_copied env p pgno r]: the call
    [scrubDefragBtree(p, pgno, 0, 1)] made in state [p] has ended in state
    [r] after these steps.  It has loaded the page [a] of number [pgno],
    which is page 1 in memory for [pgno = 1] and the page read from the
    source otherwise; the header scan has passed and left [a']; the loop over
    the cells and the walk of the right-most child have been run on the
    buffer that holds [a'], with the calls for the children one level down;
    the allocator has been advanced once more; and then the buffer [w] of the
    call, which has the length of the page loaded, has been written under
    the number that the allocator showed on entry, as the newest entry of
    the destination. *)
Definition root_page_copied (env : Env) (p : ScrubDefragState) (pgno : Z)
    (r : ScrubDefragState) : Prop :=
  exists a a' q q1 b1 q2 b2 q3 b3,
    let child := fun s iChild =>
      scrubDefragBtree_fuel env 51 s iChild (0 + 1) false in
    let w := frame_buf pgno (scrubDefragIncDestPageNo q3) b3 in
    btree_loads env p pgno a
    /\ (if pgno =? 1 then (p, Some (page1 p))
        else scrubDefragRead env p pgno false) = (q, Some a)
    /\ btree_header (szUsable p) pgno a = Good a'
    /\ frame_upd pgno (fun _ => a') q a' = (q1, b1)
    /\ btree_cells env child pgno (btree_nPrefix pgno)
         (btree_szHdr a (btree_nPrefix pgno))
         (Z.to_nat (scrubDefragInt16 a (btree_nPrefix pgno + 3))) 0 q1 b1
       = Good (q2, b2)
    /\ btree_rightmost child pgno (btree_nPrefix pgno) q2 b2 = (q3, b3)
    /\ r = scrubDefragWrite env (scrubDefragIncDestPageNo q3) (iDestPageNo p) w
    /\ destFile r = (iDestPageNo p, w) :: destFile q3
    /\ length w = length a.

(** * Example data *)

Definition varint_example : list byte :=
  [Byte.x81; Byte.x80; Byte.x7f; Byte.x00; Byte.x00; Byte.x00; Byte.x00;
   Byte.x00; Byte.x00].


(** ** A small database *)

Definition bytes (l : list Z) : list byte := map byte_of_Z l.

(** A page of 512 bytes, zero except for the given runs of bytes. *)
Definition page_with (runs : list (nat * list Z)) : list byte :=
  fold_left (fun a run => list_inserts (fst run) (bytes (snd run)) a) runs
    (replicate 512 Byte.x00).

(** Page 1: the database header (page size 512, no reserved tail, 5 pages,
    freelist of one page starting at page 5) and, at offset 100, a table leaf
    with one cell at offset 400 whose payload of 20 bytes is local.  Two
    stale bytes lie in the gap at offset 200. *)
Definition db_page1 : list byte :=
  page_with
    [(16%nat, [2; 0]); (20%nat, [0]);
     (28%nat, [0; 0; 0; 5]); (32%nat, [0; 0; 0; 5]); (36%nat, [0; 0; 0; 1]);
     (100%nat, [13; 0; 0; 0; 1; 1; 144; 0]); (108%nat, [1; 144]);
     (200%nat, [170; 187]);
     (400%nat, [20; 1; 7; 7; 7; 7; 7; 7; 7; 7; 7; 7; 7; 7; 7; 7; 7; 7; 7; 7;
                7; 7])].

(** Page 2: a table leaf with one cell at offset 400: payload size 1000
    (varint 0x87 0x68), row id 1, 39 local bytes, and at offset 442 the
    number 3 of the first overflow page.  One stale byte lies in the gap. *)
Definition db_page2 : list byte :=
  page_with
    [(0%nat, [13; 0; 0; 0; 1; 1; 144; 0]); (8%nat, [1; 144]);
     (100%nat, [99]);
     (400%nat, [135; 104; 1]); (403%nat, List.repeat 5 39);
     (442%nat, [0; 0; 0; 3])].

(** Page 3: an overflow page full of payload, followed by page 4. *)
Definition db_page3 : list byte :=
  page_with [(0%nat, [0; 0; 0; 4]); (4%nat, List.repeat 1 508)].

(** Page 4: the last overflow page, with the last 453 bytes of the payload
    and stale bytes after them. *)
Definition db_page4 : list byte :=
  page_with [(4%nat, List.repeat 2 453); (457%nat, List.repeat 9 55)].

Definition db_read (pages : list (list byte)) (pgno : Z) : option (list byte) :=
  if (1 <=? pgno) then pages !! Z.to_nat (pgno - 1) else None.

Definition db_pragma (zSql : string) : Z * option Z * Z :=
  if String.eqb zSql "PRAGMA page_size" then (0, Some 512, 0)
  else if String.eqb zSql "PRAGMA page_count" then (0, Some 5, 0)
  else if String.eqb zSql "PRAGMA freelist_count" then (0, Some 1, 0)
  else (1, None, 0).

(** An environment in which every call into the engine, every allocation and
    every write succeeds, over the given pages and catalog. *)
Definition healthy_env (pages : list (list byte)) (rows : list CatalogRow)
  : Env :=
  mkEnv (db_read pages) (fun _ _ => 0) (fun _ => true)
    0 0 0 db_pragma true
    0 true 0 0 0 (Some 1) true
    0 rows (length rows) 0 true 0 0.

Definition db_catalog : list CatalogRow := [mkRow (Some 2) "t" "table"].

Definition db_env : Env :=
  healthy_env [db_page1; db_page2; db_page3; db_page4; page_with []]
    db_catalog.

(** The state of the driver of [db_env] after page 1 has been read. *)
Definition db_state0 : ScrubDefragState :=
  mkState 0 None 512 0 0 5 1 db_page1 1 2097153 [] 1.

(** The same state once the header is fixed and page 1 is copied: the state
    in which the loop over the roots starts. *)
Definition db_state1 : ScrubDefragState :=
  scrubDefragBtree db_env (fix_header db_state0) 1 0 true.


Definition db_row : CatalogRow := mkRow (Some 2) "t" "table".

(** ** A database with a damaged tree *)

(** Page 2 as an interior table page with three cells and right child 4.
    The cell at offset 400 has left child 9, a page beyond the end of the
    file; the cell at offset 410 has left child 3; the third cell pointer is
    5, which lies inside the page header. *)
Definition bad_page2 : list byte :=
  page_with
    [(0%nat, [5; 0; 0; 0; 3; 1; 144; 0; 0; 0; 0; 4]);
     (12%nat, [1; 144; 1; 154; 0; 5]);
     (400%nat, [0; 0; 0; 9; 1]); (410%nat, [0; 0; 0; 3; 2])].

Definition bad_env : Env :=
  healthy_env [db_page1; bad_page2; db_page3; db_page4; page_with []]
    db_catalog.

(** The state of the driver of [bad_env] when the loop over the roots
    starts. *)
Definition bad_state1 : ScrubDefragState :=
  scrubDefragBtree bad_env (fix_header db_state0) 1 0 true.

(** Page 1 of [db_env] in memory once the header is fixed: the page that the
    rewriter loads for page 1. *)
Definition db_page1_fixed : list byte := page1 (fix_header db_state0).

(** The page that the copy of page 1 of [db_env] writes to the destination. *)
Definition db_page1_written : list byte :=
  match destFile db_state1 with
  | (_, w) :: _ => w
  | [] => []
  end.

(** ** A payload size beyond 32 bits *)

(** Page 2 as a table leaf whose only cell, at offset 400, declares a payload
    of [2^32 + 1000] bytes (varint 0x90 0x80 0x80 0x87 0x68): row id 1, 39
    local bytes, and at offset 445 the number 3 of the first overflow
    page. *)
Definition wide_page2 : list byte :=
  page_with
    [(0%nat, [13; 0; 0; 0; 1; 1; 144; 0]); (8%nat, [1; 144]);
     (400%nat, [144; 128; 128; 135; 104; 1]); (406%nat, List.repeat 5 39);
     (445%nat, [0; 0; 0; 3])].

Definition wide_env : Env :=
  healthy_env [db_page1; wide_page2; db_page3; db_page4; page_with []]
    db_catalog.

(** ** An overflow chain longer than its payload *)

(** Page 2 as a table leaf whose only cell, at offset 400, has a payload of
    500 bytes (varint 0x83 0x74): row id 1, 39 local bytes, and at offset
    442 the number 3 of the first overflow page.  The 461 bytes that are
    left fit into page 3, whose next-page field names page 4 all the
    same. *)
Definition short_page2 : list byte :=
  page_with
    [(0%nat, [13; 0; 0; 0; 1; 1; 144; 0]); (8%nat, [1; 144]);
     (400%nat, [131; 116; 1]); (403%nat, List.repeat 5 39);
     (442%nat, [0; 0; 0; 3])].

Definition long_chain_env : Env :=
  healthy_env [db_page1; short_page2; db_page3; db_page4; page_with []]
    db_catalog.

(** * The stand-alone program *)

(** Result codes of [sqlite3.h] that the log callback tells apart. *)
Definition SQLITE_NOTICE : Z := 27.
Definition SQLITE_WARNING : Z := 28.

(** Error and warning log: the line that the callback prints to [stderr]
    for a log entry with code [iErr] and text [zMsg]. *)
Definition errorLogCallback (iErr : Z) (zMsg : string) : string :=
  let zType :=
    if Z.land iErr 255 =? SQLITE_WARNING then "WARNING"%string
    else if Z.land iErr 255 =? SQLITE_NOTICE then "NOTICE"%string
    else "ERROR"%string in
  (zType ++ ": " ++ zMsg ++ String (Ascii.ascii_of_nat 10) EmptyString)%string.

(** What [main] prints to [stderr] before it exits with status 1. *)
Inductive MainReport : Type :=
  | ReportUsage
  | ReportOutOfMemory
  | ReportMessage (m : ErrMsg).

(** The [main] routine when the utility is run as a stand-alone program
    with [argc] arguments: the exit status and what is printed. *)
Definition main (env : Env) (argc : Z) : Z * option MainReport :=
  if negb (argc =? 3) then (1, Some ReportUsage)
  else
    let out := sqlite3_scrub_and_defrag env in
    if out_rc out =? SQLITE_NOMEM then (1, Some ReportOutOfMemory)
    else
      match out_zErr out with
      | Some m => (1, Some (ReportMessage m))
      | None => (0, None)
      end.

(** * Definitions used by the further properties *)

(** ** Varints *)

(** The number that the low seven bits of the [n] bytes at [z+off] spell in
    base 128, most significant byte first, after the digits [acc]. *)
Fixpoint varint_digits (n : nat) (z : list byte) (off acc : Z) : Z :=
  match n with
  | O => acc
  | S n' => varint_digits n' z (off + 1) (acc * 128 + peek z off mod 128)
  end.

(** ** The geometry of a copy *)

(** The fields that describe the source and the layout of the copy: page
    size, usable size, page counts, freelist count and lock page. *)
Definition geometry (p : ScrubDefragState) : Z * Z * Z * Z * Z * Z :=
  (szPage p, szUsable p, nDestPage p, nSrcPage p, nFreePage p, iLock p).

(** Every page in the log of the destination has a number of at most [n]. *)
Definition written_within (n : Z) (p : ScrubDefragState) : Prop :=
  Forall (fun e => fst e <= n) (destFile p).

(** ** The phases of a run *)

(** The state when both databases have been opened. *)
Definition run_opened (env : Env) : ScrubDefragState :=
  scrubDefragOpenDest env
    (scrubDefragOpenSrc env (set_iDestPageNo 1 zero_state)).

(** The same state once the lock page is known: the state in which page 1
    is read. *)
Definition run_locked (env : Env) : ScrubDefragState :=
  set_iLock (u32 (1073742335 / szPage (run_opened env) + 1)) (run_opened env).

(** The rows that the loop over the roots visits. *)
Definition run_rows (env : Env) : list CatalogRow :=
  firstn (catalog_steps env) (catalog_query (catalog env)).

(** The end of a run, from the finalization of the catalog statement on,
    for the state [s] and the script [zSql] that the loop over the roots
    leaves. *)
Definition run_finish (env : Env) (s : ScrubDefragState)
    (zSql : list RootUpdate) : Outcome :=
  let s := set_rcErr (catalog_finalize_rc env) s in
  if negb (rcErr s =? 0) then scrub_abort s None
  else if negb (script_mprintf_ok env) then
    scrub_abort (set_rcErr SQLITE_NOMEM s) None
  else
    let s := set_rcErr (dest_reopen_rc env) s in
    if negb (rcErr s =? 0) then
      scrub_abort
        (scrubDefragErr s
           (ErrText "Error occurred while reopen destination database"))
        None
    else
      let s := set_rcErr (script_exec_rc env) s in
      if negb (rcErr s =? 0) then
        scrub_abort
          (scrubDefragErr s (ErrText "Error occurred while update root page"))
          (Some zSql)
      else scrub_abort s (Some zSql).

(** ** Further example data *)

(** The environment of the small database with a source that cannot be
    opened (result code 14). *)
Definition closed_src_env : Env :=
  mkEnv (xRead db_env) (xWrite db_env) (malloc_ok db_env)
    14 0 0 db_pragma true
    0 true 0 0 0 (Some 1) true
    0 db_catalog 1 0 true 0 0.

(** The environment of the small database with a destination that already
    holds 3 pages. *)
Definition used_dest_env : Env :=
  mkEnv (xRead db_env) (xWrite db_env) (malloc_ok db_env)
    0 0 0 db_pragma true
    0 true 0 0 0 (Some 3) true
    0 db_catalog 1 0 true 0 0.

(** The environment of the small database with a catalog statement whose
    finalization fails (result code 5). *)
Definition busy_env : Env :=
  mkEnv (xRead db_env) (xWrite db_env) (malloc_ok db_env)
    0 0 0 db_pragma true
    0 true 0 0 0 (Some 1) true
    0 db_catalog 1 5 true 0 0.

(** ** The pages of an overflow chain *)

(** [chain_pages env U pgno nByte srcs]: like [overflow_chain], and [srcs]
    are the pages of the chain in the source file, first page first. *)
Inductive chain_pages (env : Env) (U : Z) : Z -> Z -> list (list byte) -> Prop :=
  | pages_last (pgno nByte : Z) (a : list byte) :
      pgno <> 0 -> xRead env pgno = Some a ->
      0 < nByte <= U - 4 ->
      scrubDefragInt32 a 0 = 0 ->
      chain_pages env U pgno nByte [a]
  | pages_link (pgno nByte : Z) (a : list byte) (rest : list (list byte)) :
      pgno <> 0 -> xRead env pgno = Some a ->
      U - 4 < nByte ->
      scrubDefragInt32 a 0 <> 0 ->
      chain_pages env U (scrubDefragInt32 a 0) (nByte - (U - 4)) rest ->
      chain_pages env U pgno nByte (a :: rest).

(** The state in which the copy of the overflow chain of page 2 of the
    small database starts: the allocator stands at 3. *)
Definition db_overflow_state : ScrubDefragState :=
  set_iDestPageNo 3 (fix_header db_state0).

(** ** The free blocks of a B-tree page *)

(** The free blocks that [freeblock_loop] visits from the block at [pc] on,
    as pairs of the offset and the size of a block, in the order of the
    scan.  The size and the link of a block are read as the loop reads
    them: from the buffer in which the blocks before it have been zeroed. *)
Fixpoint freeblock_list (fuel : nat) (U : Z) (a : list byte) (pc : Z)
  : list (Z * Z) :=
  match fuel with
  | O => []
  | S fuel' =>
      if pc =? 0 then []
      else if u32 (U - 4) <? pc then []
      else
        let n := scrubDefragInt16 a (pc + 2) in
        if U <? u32 (pc + n) then []
        else
          let a := if 4 <? n then memset a (pc + 4) (n - 4) else a in
          let x := scrubDefragInt16 a pc in
          if (x <? u32 (pc + 4)) && (0 <? x) then [(pc, n)]
          else (pc, n) :: freeblock_list fuel' U a x
  end.

(** The free blocks of the page held in [a], from the first-freeblock field
    of its header on. *)
Definition page_freeblocks (U pgno : Z) (a : list byte) : list (Z * Z) :=
  let pc := scrubDefragInt16 a (btree_nPrefix pgno + 1) in
  freeblock_list (freeblock_fuel pc) U a pc.

(** Offset [k] lies in the body of one of the blocks, that is, behind the
    four bytes of its link and size. *)
Definition in_freeblock_body (blocks : list (Z * Z)) (k : Z) : Prop :=
  Exists (fun b => fst b + 4 <= k < fst b + snd b) blocks.

(** A table leaf of 512 bytes with one cell at offset 400 and one free
    block of 20 bytes at offset 300 that still holds stale bytes. *)
Definition fb_page : list byte :=
  page_with
    [(0%nat, [13; 1; 44; 0; 1; 1; 44; 0]); (8%nat, [1; 144]);
     (300%nat, [0; 0; 0; 20; 9; 9; 9; 9; 9; 9; 9; 9; 9; 9; 9; 9; 9; 9; 9; 9]);
     (400%nat, [20; 1; 7; 7; 7; 7; 7; 7; 7; 7; 7; 7; 7; 7; 7; 7; 7; 7; 7; 7;
                7; 7])].

(** ** A page that names itself as its child *)

(** An interior table page without cells whose right-child pointer is 2. *)
Definition loop_page : list byte :=
  page_with [(0%nat, [5; 0; 0; 0; 0; 1; 144; 0; 0; 0; 0; 2])].

(** A source whose page 2 is [loop_page]: the page is its own right child. *)
Definition loop_env : Env :=
  healthy_env [db_page1; loop_page] db_catalog.

(** ** A small tree *)

(** A table leaf of 512 bytes without cells. *)
Definition empty_leaf : list byte :=
  page_with [(0%nat, [13; 0; 0; 0; 0; 2; 0; 0])].

(** Page 2 as an interior table page with one cell at offset 400, whose
    left child is page 3, and with right child 4. *)
Definition tree_page2 : list byte :=
  page_with
    [(0%nat, [5; 0; 0; 0; 1; 1; 144; 0; 0; 0; 0; 4]); (12%nat, [1; 144]);
     (400%nat, [0; 0; 0; 3; 1])].

(** A source whose table has the root page 2 and the leaves 3 and 4. *)
Definition tree_env : Env :=
  healthy_env [db_page1; tree_page2; empty_leaf; empty_leaf; page_with []]
    db_catalog.

(** A page whose header places the cell content area behind the usable
    area. *)
Definition corrupt_leaf : list byte :=
  page_with [(0%nat, [13; 0; 0; 0; 0; 2; 1; 0])].

Definition corrupt_env : Env :=
  healthy_env [db_page1; corrupt_leaf] db_catalog.

(** * Properties *)

(** ** Integers, bytes and buffers *)

Lemma u32_small (x : Z) : 0 <= x < 2 ^ 32 -> u32 x = x.
Proof. intros H. unfold u32. apply Z.mod_small. exact H. Qed.

Lemma u32_range (x : Z) : 0 <= u32 x < 2 ^ 32.
Proof. unfold u32. apply Z.mod_pos_bound. lia. Qed.

Lemma s64_small (x : Z) : - 2 ^ 63 <= x < 2 ^ 63 -> s64 x = x.
Proof. intros H. unfold s64. rewrite Z.mod_small; lia. Qed.

Lemma byte_to_Z_range (b : byte) : 0 <= byte_to_Z b < 256.
Proof.
  unfold byte_to_Z. pose proof (Byte.to_N_bounded b) as H. lia.
Qed.

Lemma byte_to_of_Z (z : Z) : byte_to_Z (byte_of_Z z) = z mod 256.
Proof.
  unfold byte_to_Z, byte_of_Z.
  pose proof (Z.mod_pos_bound z 256 ltac:(lia)) as Hr.
  destruct (Byte.of_N (Z.to_N (z mod 256))) as [b|] eqn:E.
  - apply Byte.to_of_N in E. rewrite E. lia.
  - apply Byte.of_N_None_iff in E. lia.
Qed.

Lemma peek_range (a : list byte) (i : Z) : 0 <= peek a i < 256.
Proof. apply byte_to_Z_range. Qed.

Lemma peek_outside (a : list byte) (i : Z) :
  (length a <= Z.to_nat i)%nat -> peek a i = 0.
Proof.
  intros H. unfold peek. rewrite list_lookup_total_alt.
  rewrite (proj2 (lookup_ge_None a (Z.to_nat i))) by exact H. reflexivity.
Qed.

Lemma length_poke (a : list byte) (i v : Z) : length (poke a i v) = length a.
Proof. apply length_insert. Qed.

Lemma peek_poke_eq (a : list byte) (i v : Z) :
  (Z.to_nat i < length a)%nat -> peek (poke a i v) i = v mod 256.
Proof.
  intros H. unfold peek, poke.
  rewrite list_lookup_total_insert_eq by exact H. apply byte_to_of_Z.
Qed.

Lemma peek_poke_ne (a : list byte) (i j v : Z) :
  Z.to_nat i <> Z.to_nat j -> peek (poke a i v) j = peek a j.
Proof.
  intros H. unfold peek, poke.
  rewrite list_lookup_total_insert_ne by exact H. reflexivity.
Qed.

Lemma peek_poke_ne_Z (a : list byte) (i j v : Z) :
  0 <= i -> 0 <= j -> i <> j -> peek (poke a i v) j = peek a j.
Proof. intros Hi Hj H. apply peek_poke_ne. lia. Qed.

Lemma length_memset (a : list byte) (off n : Z) :
  length (memset a off n) = length a.
Proof. apply length_inserts. Qed.

Lemma peek_memset_in (a : list byte) (off n i : Z) :
  0 <= off -> off <= i < off + n -> peek (memset a off n) i = 0.
Proof.
  intros Hoff Hi.
  destruct (Nat.lt_ge_cases (Z.to_nat i) (length a)) as [Hlt | Hge].
  - unfold peek, memset.
    rewrite list_lookup_total_inserts
      by (rewrite ?length_replicate; lia).
    rewrite lookup_total_replicate_2 by lia. reflexivity.
  - apply peek_outside. rewrite length_memset. exact Hge.
Qed.

Lemma peek_memset_out (a : list byte) (off n i : Z) :
  0 <= off -> 0 <= i -> i < off \/ off + n <= i ->
  peek (memset a off n) i = peek a i.
Proof.
  intros Hoff Hi H. unfold peek, memset.
  destruct (Z.lt_ge_cases i off) as [Hlt | Hge].
  - rewrite list_lookup_total_inserts_lt by lia. reflexivity.
  - rewrite list_lookup_total_inserts_ge
      by (rewrite length_replicate; lia). reflexivity.
Qed.

Lemma scrubDefragInt16_range (a : list byte) (off : Z) :
  0 <= scrubDefragInt16 a off < 65536.
Proof.
  unfold scrubDefragInt16. rewrite Z.shiftl_mul_pow2 by lia.
  pose proof (peek_range a off). pose proof (peek_range a (off + 1)). lia.
Qed.

Lemma scrubDefragInt32_spec (a : list byte) (off : Z) :
  scrubDefragInt32 a off =
  peek a off * 2 ^ 24 + peek a (off + 1) * 2 ^ 16
  + peek a (off + 2) * 2 ^ 8 + peek a (off + 3).
Proof.
  unfold scrubDefragInt32. rewrite !Z.shiftl_mul_pow2 by lia.
  pose proof (peek_range a off). pose proof (peek_range a (off + 1)).
  pose proof (peek_range a (off + 2)). pose proof (peek_range a (off + 3)).
  change (2 ^ 8) with 256. change (2 ^ 16) with 65536.
  change (2 ^ 24) with 16777216.
  rewrite (u32_small (peek a (off + 2) * 256)) by lia.
  rewrite (u32_small (peek a (off + 3) + _)) by lia.
  rewrite (u32_small (peek a (off + 1) * 65536)) by lia.
  rewrite (u32_small (peek a (off + 3) + _ + _)) by lia.
  rewrite (u32_small (peek a off * 16777216)) by lia.
  rewrite u32_small by lia. lia.
Qed.

Lemma scrubDefragInt32_range (a : list byte) (off : Z) :
  0 <= scrubDefragInt32 a off < 2 ^ 32.
Proof.
  rewrite scrubDefragInt32_spec.
  pose proof (peek_range a off). pose proof (peek_range a (off + 1)).
  pose proof (peek_range a (off + 2)). pose proof (peek_range a (off + 3)).
  lia.
Qed.

Lemma length_scrubDefragWriteInt32 (a : list byte) (off v : Z) :
  length (scrubDefragWriteInt32 a off v) = length a.
Proof. unfold scrubDefragWriteInt32. rewrite !length_poke. reflexivity. Qed.

(** Bytes outside the four bytes of the field are left alone. *)
Lemma peek_scrubDefragWriteInt32_out (a : list byte) (off v i : Z) :
  0 <= off -> 0 <= i -> i < off \/ off + 4 <= i ->
  peek (scrubDefragWriteInt32 a off v) i = peek a i.
Proof.
  intros Hoff Hi H. unfold scrubDefragWriteInt32.
  rewrite !peek_poke_ne_Z by lia. reflexivity.
Qed.

Lemma land_255 (x : Z) : Z.land x 255 = x mod 256.
Proof. change 255 with (Z.ones 8). rewrite Z.land_ones by lia. reflexivity. Qed.

(** Reading back a field that was just written. *)
Lemma scrubDefragInt32_WriteInt32 (a : list byte) (off v : Z) :
  0 <= off -> (Z.to_nat off + 4 <= length a)%nat -> 0 <= v < 2 ^ 32 ->
  scrubDefragInt32 (scrubDefragWriteInt32 a off v) off = v.
Proof.
  intros Hoff Hlen Hv. rewrite scrubDefragInt32_spec.
  unfold scrubDefragWriteInt32.
  rewrite (peek_poke_eq _ (off + 3)) by (rewrite !length_poke; lia).
  rewrite (peek_poke_ne_Z _ (off + 3) (off + 2)) by lia.
  rewrite (peek_poke_eq _ (off + 2)) by (rewrite !length_poke; lia).
  rewrite (peek_poke_ne_Z _ (off + 3) (off + 1)) by lia.
  rewrite (peek_poke_ne_Z _ (off + 2) (off + 1)) by lia.
  rewrite (peek_poke_eq _ (off + 1)) by (rewrite !length_poke; lia).
  rewrite (peek_poke_ne_Z _ (off + 3) off) by lia.
  rewrite (peek_poke_ne_Z _ (off + 2) off) by lia.
  rewrite (peek_poke_ne_Z _ (off + 1) off) by lia.
  rewrite (peek_poke_eq _ off) by lia.
  rewrite !land_255, !Z.shiftr_div_pow2 by lia.
  rewrite !Z.mod_mod by lia.
  change (2 ^ 24) with 16777216. change (2 ^ 16) with 65536.
  change (2 ^ 8) with 256. change (2 ^ 32) with 4294967296 in Hv.
  assert (v / 16777216 < 256) by (apply Z.div_lt_upper_bound; lia).
  assert (0 <= v / 16777216) by (apply Z.div_pos; lia).
  rewrite (Z.mod_small (v / 16777216) 256) by lia.
  pose proof (Z.div_mod v 256 ltac:(lia)).
  pose proof (Z.div_mod (v / 256) 256 ltac:(lia)).
  pose proof (Z.div_mod (v / 256 / 256) 256 ltac:(lia)).
  rewrite !Z.div_div in * by lia.
  change (256 * 256) with 65536 in *. change (65536 * 256) with 16777216 in *.
  lia.
Qed.

(** ** The varint codec *)

Lemma varint_loop_size (n : nat) (z : list byte) (off i v : Z) :
  fst (varint_loop n z off i v) = varint_size_loop n z off i.
Proof.
  revert i v. induction n as [|n IH]; intros i v; simpl.
  - reflexivity.
  - destruct (Z.land (peek z (off + i)) 128 =? 0); [reflexivity | apply IH].
Qed.

Lemma varint_size_loop_range (n : nat) (z : list byte) (off i : Z) :
  i + Z.of_nat n = 8 -> 0 <= i ->
  i + 1 <= varint_size_loop n z off i <= 9.
Proof.
  revert i. induction n as [|n IH]; intros i Hsum Hi; simpl.
  - lia.
  - destruct (Z.land (peek z (off + i)) 128 =? 0); [lia|].
    specialize (IH (i + 1)). lia.
Qed.

(** C10.  On the nine bytes at [z+off], [scrubDefragVarintSize] returns the
    byte count that [scrubDefragVarint] returns, and both counts lie between
    1 and 9. *)
Theorem varint_size_agrees (z : list byte) (off : Z) :
  0 <= off -> (Z.to_nat off + 9 <= length z)%nat ->
  scrubDefragVarintSize z off = fst (scrubDefragVarint z off)
  /\ 1 <= scrubDefragVarintSize z off <= 9
  /\ 1 <= fst (scrubDefragVarint z off) <= 9.
Proof.
  intros _ _. unfold scrubDefragVarint, scrubDefragVarintSize.
  rewrite varint_loop_size.
  pose proof (varint_size_loop_range 8 z off 0 eq_refl ltac:(lia)) as H.
  repeat split; lia.
Qed.


Lemma varint_size_agrees_witness :
  scrubDefragVarintSize varint_example 0 = 3
  /\ scrubDefragVarintSize varint_example 0
     = fst (scrubDefragVarint varint_example 0).
Proof.
  split; [reflexivity|].
  apply (varint_size_agrees varint_example 0); simpl; lia.
Defined.

(** ** The page-number allocator *)


Lemma iLock_inc (p : ScrubDefragState) :
  iLock (scrubDefragIncDestPageNo p) = iLock p.
Proof.
  unfold scrubDefragIncDestPageNo. simpl.
  destruct (u32 (iDestPageNo p + 1) =? iLock p); reflexivity.
Qed.

Lemma iDestPageNo_inc (p : ScrubDefragState) :
  0 <= iDestPageNo p -> iDestPageNo p + 1 < 2 ^ 32 ->
  (iDestPageNo p + 1 = iLock p -> iDestPageNo p + 2 < 2 ^ 32) ->
  iDestPageNo (scrubDefragIncDestPageNo p)
  = if iDestPageNo p + 1 =? iLock p then iDestPageNo p + 2
    else iDestPageNo p + 1.
Proof.
  intros H0 H1 H2. unfold scrubDefragIncDestPageNo. simpl.
  rewrite (u32_small (iDestPageNo p + 1)) by lia.
  destruct (Z.eqb_spec (iDestPageNo p + 1) (iLock p)); simpl; [|reflexivity].
  rewrite u32_small by lia. lia.
Qed.

Lemma alloc_run_invariant (n : nat) (p : ScrubDefragState) :
  1 <= iDestPageNo p -> iDestPageNo p <> iLock p ->
  iDestPageNo p + Z.of_nat n + (if iDestPageNo p <? iLock p then 1 else 0)
    < 2 ^ 32 ->
  StronglySorted Z.lt (alloc_run n p)
  /\ Forall (fun v => iDestPageNo p <= v /\ v <> iLock p) (alloc_run n p).
Proof.
  revert p. induction n as [|n IH]; intros p H1 Hne Hb; simpl.
  - split; constructor.
  - assert (Hinc := iDestPageNo_inc p).
    assert (Hlock := iLock_inc p).
    set (q := scrubDefragIncDestPageNo p) in *.
    assert (Hq : iDestPageNo p < iDestPageNo q /\ iDestPageNo q <> iLock q
                 /\ iDestPageNo q + Z.of_nat n
                    + (if iDestPageNo q <? iLock q then 1 else 0) < 2 ^ 32).
    { rewrite Hlock.
      destruct (Z.ltb_spec (iDestPageNo p) (iLock p));
        rewrite Hinc by lia;
        destruct (Z.eqb_spec (iDestPageNo p + 1) (iLock p));
        match goal with
        | |- context [?a <? ?b] => destruct (Z.ltb_spec a b)
        end; lia. }
    destruct Hq as (Hlt & Hne' & Hb').
    assert (Hq1 : 1 <= iDestPageNo q) by lia.
    destruct (IH q Hq1 Hne' Hb') as [Hs Hf].
    split.
    + constructor; [exact Hs|].
      eapply Forall_impl; [exact Hf|]. simpl. intros v [Hv _]. lia.
    + constructor; [lia|].
      eapply Forall_impl; [exact Hf|]. simpl. intros v [Hv Hv'].
      rewrite <- Hlock. split; [lia | exact Hv'].
Qed.

(** C8.  For a page size of at most 65536 and as long as the counter stays
    in the range of [u32], the page numbers handed out from the initial value
    1 are strictly increasing, none of them is the lock page
    [1073742335/szPage + 1], and the first of them is 1. *)
Theorem allocator_increasing_skips_lock (pageSize : Z) (n : nat) :
  0 < pageSize <= 65536 -> Z.of_nat n <= 2 ^ 32 - 3 ->
  let numbers := alloc_run n (alloc_start pageSize) in
  StronglySorted Z.lt numbers
  /\ Forall (fun v => v <> 1073742335 / pageSize + 1) numbers
  /\ (n <> O -> numbers !! O = Some 1).
Proof.
  intros Hsz Hn numbers.
  assert (Hlock : iLock (alloc_start pageSize) = 1073742335 / pageSize + 1).
  { simpl. apply u32_small.
    assert (0 <= 1073742335 / pageSize) by (apply Z.div_pos; lia).
    assert (1073742335 / pageSize <= 1073742335)
      by (apply Z.div_le_upper_bound; nia).
    lia. }
  assert (Hbig : 16384 <= 1073742335 / pageSize)
    by (apply Z.div_le_lower_bound; lia).
  destruct (alloc_run_invariant n (alloc_start pageSize)) as [Hs Hf].
  - simpl. lia.
  - rewrite Hlock. simpl. lia.
  - rewrite Hlock. change (iDestPageNo (alloc_start pageSize)) with 1.
    destruct (1 <? 1073742335 / pageSize + 1); lia.
  - split; [exact Hs|]. split.
    + eapply Forall_impl; [exact Hf|]. cbv beta. intros v [_ Hv].
      rewrite Hlock in Hv. exact Hv.
    + intros Hn0. subst numbers. destruct n; [congruence | reflexivity].
Qed.

Lemma allocator_increasing_skips_lock_witness :
  alloc_run 3 (set_iDestPageNo 16383 (alloc_start 65536))
    = [16383; 16384; 16386]
  /\ StronglySorted Z.lt (alloc_run 4 (alloc_start 512)).
Proof.
  split; [reflexivity|].
  apply (allocator_increasing_skips_lock 512 4); simpl; lia.
Defined.

(** ** The header of page 1 *)

Lemma lookup_scrubDefragWriteInt32_out (a : list byte) (off v : Z) (i : nat) :
  0 <= off -> (i < Z.to_nat off \/ Z.to_nat off + 4 <= i)%nat ->
  scrubDefragWriteInt32 a off v !! i = a !! i.
Proof.
  intros Hoff Hi. unfold scrubDefragWriteInt32, poke.
  rewrite !list_lookup_insert_ne by lia. reflexivity.
Qed.

Lemma page1_fix_header (s : ScrubDefragState) :
  page1 (fix_header s)
  = scrubDefragWriteInt32
      (scrubDefragWriteInt32
         (scrubDefragWriteInt32
            (scrubDefragWriteInt32 (page1 s) 28 (nDestPage (fix_header s)))
            32 0) 36 0) 52 0.
Proof.
  unfold fix_header. simpl.
  destruct ((iLock s <=? nSrcPage s)
            && (u32 (nSrcPage s - nFreePage s) <? iLock s)); reflexivity.
Qed.

Lemma nDestPage_fix_header (s : ScrubDefragState) :
  nDestPage (fix_header s)
  = if (iLock s <=? nSrcPage s) && (u32 (nSrcPage s - nFreePage s) <? iLock s)
    then u32 (u32 (nSrcPage s - nFreePage s) - 1)
    else u32 (nSrcPage s - nFreePage s).
Proof.
  unfold fix_header. simpl.
  destruct ((iLock s <=? nSrcPage s)
            && (u32 (nSrcPage s - nFreePage s) <? iLock s)); reflexivity.
Qed.

Lemma scrubDefragInt32_out (a : list byte) (off off' v : Z) :
  0 <= off -> 0 <= off' -> off' + 4 <= off \/ off + 4 <= off' ->
  scrubDefragInt32 (scrubDefragWriteInt32 a off v) off' = scrubDefragInt32 a off'.
Proof.
  intros H0 H1 H2. rewrite !scrubDefragInt32_spec.
  rewrite !peek_scrubDefragWriteInt32_out by lia. reflexivity.
Qed.

(** C9.  Fixing the header stores the destination page count at offset 28
    and zero at offsets 32, 36 and 52 of the in-memory page 1, keeps the
    length of the page, and leaves every byte outside these four fields as it
    was. *)
Theorem fix_header_frame (s : ScrubDefragState) :
  (56 <= length (page1 s))%nat ->
  let s' := fix_header s in
  scrubDefragInt32 (page1 s') 28 = nDestPage s'
  /\ scrubDefragInt32 (page1 s') 32 = 0
  /\ scrubDefragInt32 (page1 s') 36 = 0
  /\ scrubDefragInt32 (page1 s') 52 = 0
  /\ length (page1 s') = length (page1 s)
  /\ forall i : nat,
       ~ (28 <= i < 40)%nat -> ~ (52 <= i < 56)%nat ->
       page1 s' !! i = page1 s !! i.
Proof.
  intros Hlen s'. subst s'. rewrite page1_fix_header.
  assert (Hn : 0 <= nDestPage (fix_header s) < 2 ^ 32).
  { rewrite nDestPage_fix_header.
    destruct (_ && _); apply u32_range. }
  repeat split.
  - rewrite !scrubDefragInt32_out by lia.
    apply scrubDefragInt32_WriteInt32; [lia | simpl; lia | exact Hn].
  - rewrite !scrubDefragInt32_out by lia.
    apply scrubDefragInt32_WriteInt32;
      [lia | rewrite !length_scrubDefragWriteInt32; simpl; lia | lia].
  - rewrite !scrubDefragInt32_out by lia.
    apply scrubDefragInt32_WriteInt32;
      [lia | rewrite !length_scrubDefragWriteInt32; simpl; lia | lia].
  - apply scrubDefragInt32_WriteInt32;
      [lia | rewrite !length_scrubDefragWriteInt32; simpl; lia | lia].
  - rewrite !length_scrubDefragWriteInt32. reflexivity.
  - intros i H1 H2.
    rewrite !lookup_scrubDefragWriteInt32_out by (simpl; lia). reflexivity.
Qed.


(** ** The overflow thresholds *)

Lemma s64_range (x : Z) : - 2 ^ 63 <= s64 x < 2 ^ 63.
Proof.
  unfold s64. pose proof (Z.mod_pos_bound (x + 2 ^ 63) (2 ^ 64) ltac:(lia)).
  lia.
Qed.

Lemma varint_loop_value_range (n : nat) (z : list byte) (off i v : Z) :
  - 2 ^ 63 <= v < 2 ^ 63 ->
  - 2 ^ 63 <= snd (varint_loop n z off i v) < 2 ^ 63.
Proof.
  revert i v. induction n as [|n IH]; intros i v Hv; simpl.
  - apply s64_range.
  - destruct (Z.land (peek z (off + i)) 128 =? 0); simpl.
    + apply s64_range.
    + apply IH. apply s64_range.
Qed.

Lemma scrubDefragVarint_range (z : list byte) (off : Z) :
  1 <= fst (scrubDefragVarint z off) <= 9
  /\ - 2 ^ 63 <= snd (scrubDefragVarint z off) < 2 ^ 63.
Proof.
  split.
  - unfold scrubDefragVarint. rewrite varint_loop_size.
    pose proof (varint_size_loop_range 8 z off 0 eq_refl ltac:(lia)). lia.
  - apply varint_loop_value_range. lia.
Qed.

Lemma scrubDefragVarintSize_range (z : list byte) (off : Z) :
  1 <= scrubDefragVarintSize z off <= 9.
Proof.
  pose proof (varint_size_loop_range 8 z off 0 eq_refl ltac:(lia)).
  unfold scrubDefragVarintSize. lia.
Qed.

Section ThresholdFacts.

Variables U kind : Z.
Hypothesis U_legal : 257 <= U <= 65536.

Lemma payload_M_spec : payload_M U = Thresholds.M U.
Proof.
  unfold payload_M, Thresholds.M.
  rewrite (u32_small (U - 12)) by lia.
  rewrite (u32_small ((U - 12) * 32)) by lia.
  apply u32_small. Z.div_mod_to_equations. lia.
Qed.

Lemma payload_X_spec : payload_X kind U = Thresholds.X kind U.
Proof.
  unfold payload_X, Thresholds.X. destruct (kind =? 13).
  - apply u32_small. lia.
  - rewrite (u32_small (U - 12)) by lia.
    rewrite (u32_small ((U - 12) * 64)) by lia.
    apply u32_small. Z.div_mod_to_equations. lia.
Qed.

Lemma thresholds_order :
  0 <= Thresholds.M U <= Thresholds.X kind U /\ Thresholds.X kind U < U.
Proof.
  unfold Thresholds.M, Thresholds.X. destruct (kind =? 13);
    Z.div_mod_to_equations; lia.
Qed.

Lemma payload_K_spec (P : Z) :
  Thresholds.X kind U < P < 2 ^ 63 -> payload_K U P = Thresholds.K U P.
Proof.
  intros HP. unfold payload_K, Thresholds.K. rewrite payload_M_spec.
  pose proof thresholds_order as [[HM0 HMX] HXU].
  rewrite (u32_small (U - 4)) by lia.
  rewrite (s64_small (P - Thresholds.M U)) by lia.
  rewrite Z.rem_mod_nonneg by lia.
  pose proof (Z.mod_pos_bound (P - Thresholds.M U) (U - 4) ltac:(lia)).
  rewrite s64_small by lia. apply u32_small. lia.
Qed.

Lemma payload_nLocal_spec (P : Z) :
  Thresholds.X kind U < P < 2 ^ 63 ->
  payload_nLocal kind U P = Thresholds.nLocal kind U P
  /\ 0 <= Thresholds.nLocal kind U P <= Thresholds.X kind U.
Proof.
  intros HP. unfold payload_nLocal, Thresholds.nLocal.
  rewrite payload_K_spec, payload_X_spec, payload_M_spec by exact HP.
  pose proof thresholds_order as [[HM0 HMX] HXU].
  split; [reflexivity|].
  unfold Thresholds.K.
  pose proof (Z.mod_pos_bound (P - Thresholds.M U) (U - 4) ltac:(lia)).
  destruct (Z.leb_spec (Thresholds.M U + (P - Thresholds.M U) mod (U - 4))
              (Thresholds.X kind U)); lia.
Qed.

End ThresholdFacts.

(** The decision on the payload of a cell, for a legal usable size. *)
Lemma payload_plan_legal (U kind : Z) (a : list byte) (pc : Z) :
  257 <= U <= 65536 -> 0 <= pc < 2 ^ 31 ->
  let n := fst (scrubDefragVarint a pc) in
  let P := snd (scrubDefragVarint a pc) in
  payload_plan U kind a pc
  = if U <=? pc + n then PlanCorrupt 442
    else if P <=? Thresholds.X kind U then PlanLocal
    else
      match (if kind =? 13 then
               if U - 4 <? pc + n + scrubDefragVarintSize a (pc + n)
               then None
               else Some (pc + n + scrubDefragVarintSize a (pc + n))
             else Some (pc + n)) with
      | None => PlanCorrupt 456
      | Some pc1 =>
          if U - 4 <? pc1 + Thresholds.nLocal kind U P
          then PlanCorrupt 459
          else PlanOverflow (pc1 + Thresholds.nLocal kind U P)
                 (scrubDefragInt32 a (pc1 + Thresholds.nLocal kind U P))
                 (u32 (P - Thresholds.nLocal kind U P))
      end.
Proof.
  intros HU Hpc n P. subst n P. unfold payload_plan.
  pose proof (scrubDefragVarint_range a pc) as [Hn HP].
  destruct (scrubDefragVarint a pc) as [n P]. simpl fst in *. simpl snd in *.
  pose proof (scrubDefragVarintSize_range a (pc + n)) as Hsz.
  pose proof (thresholds_order U kind HU) as [[HM0 HMX] HXU].
  rewrite (u32_small (pc + n)) by lia.
  rewrite (u32_small (U - 4)) by lia.
  rewrite (payload_X_spec U kind HU).
  destruct (Z.leb_spec U (pc + n)); [reflexivity|].
  destruct (Z.leb_spec P (Thresholds.X kind U)); [reflexivity|].
  destruct (payload_nLocal_spec U kind HU P ltac:(lia)) as [HnL HnLr].
  rewrite HnL. rewrite (u32_small (pc + n + _)) by lia.
  rewrite (s64_small (P - _)) by lia.
  destruct (kind =? 13).
  - destruct (Z.ltb_spec (U - 4) (pc + n + scrubDefragVarintSize a (pc + n)));
      [reflexivity|].
    rewrite (u32_small (_ + Thresholds.nLocal kind U P)) by lia. reflexivity.
  - rewrite (u32_small (_ + Thresholds.nLocal kind U P)) by lia. reflexivity.
Qed.

(** A planned overflow pointer lies after the start of the cell payload and
    inside the usable area. *)
Lemma payload_plan_ptr (U kind : Z) (a : list byte) (pc ptr iChild nByte : Z) :
  257 <= U <= 65536 -> 0 <= pc < 2 ^ 31 ->
  payload_plan U kind a pc = PlanOverflow ptr iChild nByte ->
  pc < ptr /\ ptr + 4 <= U.
Proof.
  intros HU Hpc. rewrite (payload_plan_legal U kind a pc HU Hpc). cbv zeta.
  pose proof (scrubDefragVarint_range a pc) as [Hn HP].
  pose proof (scrubDefragVarintSize_range a
                (pc + fst (scrubDefragVarint a pc))) as Hsz.
  destruct (_ <=? _); [discriminate|].
  destruct (Z.leb_spec (snd (scrubDefragVarint a pc)) (Thresholds.X kind U));
    [discriminate|].
  destruct (payload_nLocal_spec U kind HU (snd (scrubDefragVarint a pc))
              ltac:(lia)) as [_ HnLr].
  destruct (kind =? 13).
  - destruct (_ <? _); [discriminate|].
    destruct (Z.ltb_spec (U - 4)
                (pc + fst (scrubDefragVarint a pc)
                 + scrubDefragVarintSize a (pc + fst (scrubDefragVarint a pc))
                 + Thresholds.nLocal kind U (snd (scrubDefragVarint a pc))));
      [discriminate|].
    intros E. injection E as <- _ _. lia.
  - destruct (Z.ltb_spec (U - 4)
                (pc + fst (scrubDefragVarint a pc)
                 + Thresholds.nLocal kind U (snd (scrubDefragVarint a pc))));
      [discriminate|].
    intros E. injection E as <- _ _. lia.
Qed.

(** C5 (amended).  On a page of kind 0x02, 0x0a or 0x0d with a usable size
    [U] that a legal page size allows, the thresholds of the rewriter are
    those of the design document; the rewriter plans an overflow copy only if
    [P > X], and when [P > X] and the cell lies inside the usable area it
    plans the copy of the chain whose head is the big-endian u32 at
    [pc' + nLocal], where [pc'] is the offset after the varints of the cell.
    The byte count of the copy is [P - nLocal] reduced modulo [2^32], since
    the copier takes it as a u32: it is [P - nLocal] itself for every payload
    size below [2^32].  [btree_payload] hands exactly these to the overflow
    copier. *)
Theorem payload_overflow_rule (env : Env) (pgno nPrefix : Z)
    (p : ScrubDefragState) (a : list byte) (pc : Z) :
  let U := szUsable p in
  let buf := frame_buf pgno p a in
  let kind := peek buf nPrefix in
  let n := fst (scrubDefragVarint buf pc) in
  let P := snd (scrubDefragVarint buf pc) in
  let pc' := pc + n
             + (if kind =? 13 then scrubDefragVarintSize buf (pc + n) else 0) in
  let X := Thresholds.X kind U in
  let nLocal := Thresholds.nLocal kind U P in
  257 <= U <= 65536 ->
  kind = 2 \/ kind = 10 \/ kind = 13 ->
  0 <= pc < 2 ^ 31 ->
  payload_X kind U = X
  /\ payload_M U = Thresholds.M U
  /\ (X < P -> payload_K U P = Thresholds.K U P
               /\ payload_nLocal kind U P = nLocal)
  /\ (forall ptr iChild nByte,
        payload_plan U kind buf pc = PlanOverflow ptr iChild nByte -> X < P)
  /\ (P <= X -> pc + n < U -> btree_payload env pgno nPrefix pc p a = Good (p, a))
  /\ (X < P -> pc + n < U -> pc' + nLocal <= U - 4 ->
      payload_plan U kind buf pc
      = PlanOverflow (pc' + nLocal) (scrubDefragInt32 buf (pc' + nLocal))
          ((P - nLocal) mod 2 ^ 32)
      /\ (P < 2 ^ 32 -> (P - nLocal) mod 2 ^ 32 = P - nLocal)
      /\ exists q b,
          btree_payload env pgno nPrefix pc p a
          = Good (scrubDefragOverflow env q
                    (scrubDefragInt32 buf (pc' + nLocal))
                    ((P - nLocal) mod 2 ^ 32), b)).
Proof.
  intros U buf kind n P pc' X nLocal HU Hkind Hpc.
  pose proof (scrubDefragVarint_range buf pc) as [Hn HP].
  fold n in Hn. fold P in HP.
  pose proof (thresholds_order U kind HU) as [[HM0 HMX] HXU]. fold X in HMX, HXU.
  pose proof (payload_plan_legal U kind buf pc HU Hpc) as Hplan.
  cbv zeta in Hplan. fold n P X nLocal in Hplan.
  split; [apply payload_X_spec; exact HU|].
  split; [apply payload_M_spec; exact HU|].
  split; [intros HXP; split;
          [apply (payload_K_spec U kind) | apply payload_nLocal_spec]; lia|].
  split; [|split].
  - intros ptr iChild nByte. rewrite Hplan.
    destruct (U <=? pc + n); [discriminate|].
    destruct (Z.leb_spec P X); [discriminate | intros _; assumption].
  - intros HPX Hin. unfold btree_payload. fold buf. fold kind. fold U.
    rewrite Hplan.
    rewrite (proj2 (Z.leb_gt _ _) Hin), (proj2 (Z.leb_le _ _) HPX).
    reflexivity.
  - intros HXP Hin Hptr.
    destruct (payload_nLocal_spec U kind HU P ltac:(lia)) as [_ HnLr].
    fold nLocal in HnLr. fold X in HnLr.
    pose proof (scrubDefragVarintSize_range buf (pc + n)) as Hsz.
    assert (Hplan' : payload_plan U kind buf pc
      = PlanOverflow (pc' + nLocal) (scrubDefragInt32 buf (pc' + nLocal))
          ((P - nLocal) mod 2 ^ 32)).
    { rewrite Hplan.
      rewrite (proj2 (Z.leb_gt _ _) Hin).
      rewrite (proj2 (Z.leb_gt _ _) HXP).
      change (u32 (P - nLocal)) with ((P - nLocal) mod 2 ^ 32).
      subst pc'. destruct (kind =? 13).
      - rewrite (proj2 (Z.ltb_ge _ _)) by lia.
        rewrite (proj2 (Z.ltb_ge _ _)) by lia. reflexivity.
      - rewrite Z.add_0_r in *.
        rewrite (proj2 (Z.ltb_ge _ _)) by lia. reflexivity. }
    split; [exact Hplan'|].
    split; [intros H32; apply Z.mod_small; lia|].
    unfold btree_payload. fold buf. fold kind. fold U. rewrite Hplan'.
    destruct (frame_upd pgno _ (scrubDefragIncDestPageNo p) a) as [q b].
    exists q, b. reflexivity.
Qed.

(** ** The error channel: basic facts *)

Lemma rcErr_scrubDefragErr (p : ScrubDefragState) (msg : ErrMsg) :
  rcErr (scrubDefragErr p msg) <> 0.
Proof.
  unfold scrubDefragErr. simpl.
  destruct (Z.eqb_spec (rcErr p) 0); simpl; [discriminate | assumption].
Qed.

Lemma scrubDefragRead_cases (env : Env) (p : ScrubDefragState) (pgno : Z)
    (hasBuf : bool) :
  rcErr p = 0 ->
  (exists q a, scrubDefragRead env p pgno hasBuf = (q, Some a)
               /\ xRead env pgno = Some a /\ rcErr q = 0
               /\ szUsable q = szUsable p /\ iDestPageNo q = iDestPageNo p
               /\ destFile q = destFile p /\ page1 q = page1 p
               /\ nDestPage q = nDestPage p /\ iLock q = iLock p)
  \/ (exists q, scrubDefragRead env p pgno hasBuf = (q, None) /\ rcErr q <> 0).
Proof.
  intros H0. unfold scrubDefragRead, scrubDefragAllocPage. rewrite H0. simpl.
  destruct hasBuf; simpl.
  - destruct (xRead env pgno) as [a|].
    + left. exists p, a. repeat split; assumption || reflexivity.
    + right. eexists. split; [reflexivity | simpl; discriminate].
  - destruct (malloc_ok env (nAlloc p)); simpl.
    + destruct (xRead env pgno) as [a|].
      * left. eexists _, a. repeat split; assumption || reflexivity.
      * right. eexists. split; [reflexivity | simpl; discriminate].
    + right. eexists. split; [reflexivity | simpl; discriminate].
Qed.

Lemma scrubDefragWrite_cases (env : Env) (p : ScrubDefragState) (pgno : Z)
    (a : list byte) :
  rcErr p = 0 ->
  (scrubDefragWrite env p pgno a = set_destFile ((pgno, a) :: destFile p) p
   /\ pgno <= nDestPage p)
  \/ rcErr (scrubDefragWrite env p pgno a) <> 0.
Proof.
  intros H0. unfold scrubDefragWrite. rewrite H0. simpl.
  destruct (Z.ltb_spec (nDestPage p) pgno); [right; simpl; discriminate|].
  destruct (xWrite env pgno a =? SQLITE_OK).
  - left. split; [reflexivity | assumption].
  - right. simpl. discriminate.
Qed.


(** ** Zeroing the gap *)

Lemma peek_memset_zero (a : list byte) (off n i : Z) :
  0 <= off -> 0 <= i -> peek a i = 0 -> peek (memset a off n) i = 0.
Proof.
  intros Hoff Hi Hz.
  destruct (Z.lt_ge_cases i off); [rewrite peek_memset_out by lia; exact Hz|].
  destruct (Z.lt_ge_cases i (off + n)).
  - apply peek_memset_in; lia.
  - rewrite peek_memset_out by lia. exact Hz.
Qed.

Lemma freeblock_loop_keeps_zero (fuel : nat) (U : Z) (a : list byte) (pc i : Z) :
  0 <= pc -> 0 <= i -> peek a i = 0 ->
  peek (scan_val (freeblock_loop fuel U a pc)) i = 0.
Proof.
  revert a pc. induction fuel as [|fuel IH]; intros a pc Hpc Hi Hz; simpl.
  - exact Hz.
  - destruct (pc =? 0); [exact Hz|].
    destruct (u32 (U - 4) <? pc); [exact Hz|].
    destruct (U <? u32 (pc + scrubDefragInt16 a (pc + 2))); [exact Hz|].
    set (a' := if 4 <? scrubDefragInt16 a (pc + 2)
               then memset a (pc + 4) (scrubDefragInt16 a (pc + 2) - 4)
               else a).
    assert (Hz' : peek a' i = 0).
    { subst a'. destruct (4 <? _); [apply peek_memset_zero; lia | exact Hz]. }
    destruct ((scrubDefragInt16 a' pc <? u32 (pc + 4))
              && (0 <? scrubDefragInt16 a' pc)); [exact Hz'|].
    apply IH; [apply scrubDefragInt16_range | exact Hi | exact Hz'].
Qed.

Lemma length_freeblock_loop (fuel : nat) (U : Z) (a : list byte) (pc : Z) :
  length (scan_val (freeblock_loop fuel U a pc)) = length a.
Proof.
  revert a pc. induction fuel as [|fuel IH]; intros a pc; simpl.
  - reflexivity.
  - destruct (pc =? 0); [reflexivity|].
    destruct (u32 (U - 4) <? pc); [reflexivity|].
    destruct (U <? u32 (pc + scrubDefragInt16 a (pc + 2))); [reflexivity|].
    set (a' := if 4 <? scrubDefragInt16 a (pc + 2)
               then memset a (pc + 4) (scrubDefragInt16 a (pc + 2) - 4)
               else a).
    assert (Hlen : length a' = length a)
      by (subst a'; destruct (4 <? _); [apply length_memset | reflexivity]).
    destruct ((scrubDefragInt16 a' pc <? u32 (pc + 4))
              && (0 <? scrubDefragInt16 a' pc)); [exact Hlen|].
    rewrite IH. exact Hlen.
Qed.

Lemma length_btree_header (U pgno : Z) (a : list byte) :
  length (scan_val (btree_header U pgno a)) = length a.
Proof.
  unfold btree_header.
  destruct (U <? _); [reflexivity|].
  destruct (_ <? _); [reflexivity|].
  match goal with
  | |- context [freeblock_loop _ _ ?b _] => set (a1 := b)
  end.
  assert (Hlen : length a1 = length a)
    by (subst a1; destruct (_ <? _); [apply length_memset | reflexivity]).
  destruct (_ && _); [exact Hlen|].
  rewrite length_freeblock_loop. exact Hlen.
Qed.

Lemma gap_start_range (pgno : Z) (a : list byte) :
  8 <= gap_start pgno a < 2 ^ 32.
Proof.
  unfold gap_start, btree_nPrefix, btree_szHdr.
  pose proof (scrubDefragInt16_range a ((if pgno =? 1 then 100 else 0) + 3)).
  destruct (pgno =? 1); destruct (_ || _); lia.
Qed.

(** The scan of the free blocks does not touch the bytes before the body
    of the first block. *)
Lemma freeblock_loop_frame (fuel : nat) (U : Z) (a : list byte) (pc i : Z) :
  0 <= pc < 65536 -> 0 <= i -> pc = 0 \/ i < pc + 4 ->
  peek (scan_val (freeblock_loop fuel U a pc)) i = peek a i.
Proof.
  revert a pc. induction fuel as [|fuel IH]; intros a pc Hpc Hi Hlow; simpl.
  - reflexivity.
  - destruct (Z.eqb_spec pc 0); [reflexivity|].
    destruct Hlow as [Hlow|Hlow]; [contradiction|].
    destruct (u32 (U - 4) <? pc); [reflexivity|].
    destruct (U <? u32 (pc + scrubDefragInt16 a (pc + 2))); [reflexivity|].
    set (a' := if 4 <? scrubDefragInt16 a (pc + 2)
               then memset a (pc + 4) (scrubDefragInt16 a (pc + 2) - 4)
               else a).
    assert (Ha' : peek a' i = peek a i).
    { subst a'. destruct (4 <? _); [|reflexivity].
      apply peek_memset_out; lia. }
    pose proof (scrubDefragInt16_range a' pc) as Hx.
    rewrite (u32_small (pc + 4)) by lia.
    destruct (Z.ltb_spec (scrubDefragInt16 a' pc) (pc + 4));
      destruct (Z.ltb_spec 0 (scrubDefragInt16 a' pc)); simpl;
      try exact Ha'.
    + rewrite IH; [exact Ha' | lia | exact Hi | left; lia].
    + rewrite IH; [exact Ha' | lia | exact Hi | right; lia].
    + rewrite IH; [exact Ha' | lia | exact Hi | left; lia].
Qed.

(** The header scan changes no byte before the gap and none of the four
    bytes at the start of the cell content area. *)
Lemma btree_header_frame (U pgno : Z) (a : list byte) (i : Z) :
  0 <= i < gap_start pgno a \/ cell_start pgno a <= i < cell_start pgno a + 4 ->
  peek (scan_val (btree_header U pgno a)) i = peek a i.
Proof.
  intros Hi. pose proof (gap_start_range pgno a) as Hg.
  pose proof (scrubDefragInt16_range a (btree_nPrefix pgno + 5)) as Hc.
  fold (cell_start pgno a) in Hc.
  unfold btree_header. fold (cell_start pgno a).
  replace (u32 (btree_szHdr a (btree_nPrefix pgno) + btree_nPrefix pgno
                + scrubDefragInt16 a (btree_nPrefix pgno + 3) * 2))
    with (gap_start pgno a)
    by (symmetry; unfold gap_start in *; rewrite u32_small; lia).
  destruct (U <? cell_start pgno a); [reflexivity|].
  destruct (Z.ltb_spec (cell_start pgno a) (gap_start pgno a)); [reflexivity|].
  set (a1 := if gap_start pgno a <? cell_start pgno a
             then memset a (gap_start pgno a)
                    (cell_start pgno a - gap_start pgno a)
             else a).
  assert (Ha1 : peek a1 i = peek a i).
  { subst a1. destruct (_ <? _); [|reflexivity].
    apply peek_memset_out; lia. }
  pose proof (scrubDefragInt16_range a1 (btree_nPrefix pgno + 1)) as Hpc.
  destruct (Z.ltb_spec 0 (scrubDefragInt16 a1 (btree_nPrefix pgno + 1)));
    destruct (Z.ltb_spec (scrubDefragInt16 a1 (btree_nPrefix pgno + 1))
                (cell_start pgno a)); simpl; try exact Ha1.
  - rewrite freeblock_loop_frame; [exact Ha1 | lia | lia | right; lia].
  - rewrite freeblock_loop_frame; [exact Ha1 | lia | lia | left; lia].
  - rewrite freeblock_loop_frame; [exact Ha1 | lia | lia | left; lia].
Qed.

(** After the header scan the bytes from the end of the cell-pointer array
    up to the start of the cell content area are zero, whether or not the
    scan of the free blocks then reports corruption. *)
Lemma btree_header_zeroes_gap (U pgno : Z) (a : list byte) (i : Z) :
  gap_start pgno a <= cell_start pgno a <= U ->
  gap_start pgno a <= i < cell_start pgno a ->
  peek (scan_val (btree_header U pgno a)) i = 0.
Proof.
  intros Hchk Hi. pose proof (gap_start_range pgno a) as Hg.
  unfold btree_header. fold (cell_start pgno a).
  replace (u32 (btree_szHdr a (btree_nPrefix pgno) + btree_nPrefix pgno
                + scrubDefragInt16 a (btree_nPrefix pgno + 3) * 2))
    with (gap_start pgno a)
    by (symmetry; unfold gap_start in *; rewrite u32_small; lia).
  destruct (Z.ltb_spec U (cell_start pgno a)); [lia|].
  destruct (Z.ltb_spec (cell_start pgno a) (gap_start pgno a)); [lia|].
  destruct (Z.ltb_spec (gap_start pgno a) (cell_start pgno a)); [|lia].
  set (a1 := memset a (gap_start pgno a) (cell_start pgno a - gap_start pgno a)).
  assert (Hz : peek a1 i = 0) by (apply peek_memset_in; lia).
  destruct ((0 <? scrubDefragInt16 a1 (btree_nPrefix pgno + 1))
            && (scrubDefragInt16 a1 (btree_nPrefix pgno + 1)
                <? cell_start pgno a)); [exact Hz|].
  apply freeblock_loop_keeps_zero;
    [apply scrubDefragInt16_range | lia | exact Hz].
Qed.

Lemma btree_header_good (U pgno : Z) (a a' : list byte) :
  btree_header U pgno a = Good a' ->
  gap_start pgno a <= cell_start pgno a <= U.
Proof.
  pose proof (gap_start_range pgno a) as Hg.
  unfold btree_header. fold (cell_start pgno a).
  replace (u32 (btree_szHdr a (btree_nPrefix pgno) + btree_nPrefix pgno
                + scrubDefragInt16 a (btree_nPrefix pgno + 3) * 2))
    with (gap_start pgno a)
    by (symmetry; unfold gap_start in *; rewrite u32_small; lia).
  destruct (Z.ltb_spec U (cell_start pgno a)); [discriminate|].
  destruct (Z.ltb_spec (cell_start pgno a) (gap_start pgno a)); [discriminate|].
  intros _. lia.
Qed.

(** ** A successful call of the rewriter *)

Lemma scrubDefragBtree_fuel_unfold (env : Env) (fuel : nat)
    (p : ScrubDefragState) (pgno iDepth : Z) (bRoot : bool) :
  scrubDefragBtree_fuel env (S fuel) p pgno iDepth bRoot =
  if negb (rcErr p =? 0) then p
  else if 50 <? iDepth then scrubDefragErr p (ErrTooDeep pgno)
  else
    let child := fun q iChild =>
      scrubDefragBtree_fuel env fuel q iChild (iDepth + 1) false in
    match (if pgno =? 1 then (p, Some (page1 p))
           else scrubDefragRead env p pgno false) with
    | (q, None) => q
    | (q, Some a) =>
        let nPrefix := btree_nPrefix pgno in
        let szHdr := btree_szHdr a nPrefix in
        let nCell := scrubDefragInt16 a (nPrefix + 3) in
        match btree_header (szUsable q) pgno a with
        | Corrupt ln a =>
            let '(q, _) := frame_upd pgno (fun _ => a) q a in
            scrubDefragErr q (ErrCorruptPage pgno ln)
        | Good a =>
            let '(q, a) := frame_upd pgno (fun _ => a) q a in
            match btree_cells env child pgno nPrefix szHdr (Z.to_nat nCell) 0 q a with
            | Corrupt ln (q, _) => scrubDefragErr q (ErrCorruptPage pgno ln)
            | Good (q, a) =>
                let '(q, a) := btree_rightmost child pgno nPrefix q a in
                let q := if bRoot then scrubDefragIncDestPageNo q else q in
                scrubDefragWrite env q (iDestPageNo p) (frame_buf pgno q a)
            end
        end
    end.
Proof. reflexivity. Qed.

(** The steps of a call that starts and ends without a recorded error. *)
Lemma scrubDefragBtree_fuel_trace (env : Env) (fuel : nat)
    (p : ScrubDefragState) (pgno iDepth : Z) (bRoot : bool) :
  rcErr p = 0 ->
  rcErr (scrubDefragBtree_fuel env (S fuel) p pgno iDepth bRoot) = 0 ->
  let child := fun q iChild =>
    scrubDefragBtree_fuel env fuel q iChild (iDepth + 1) false in
  exists a a' q q1 b1 q2 b2 q3 b3,
    let q4 := if bRoot then scrubDefragIncDestPageNo q3 else q3 in
    btree_loads env p pgno a
    /\ szUsable q = szUsable p
    /\ btree_header (szUsable p) pgno a = Good a'
    /\ frame_upd pgno (fun _ => a') q a' = (q1, b1)
    /\ btree_cells env child pgno (btree_nPrefix pgno)
         (btree_szHdr a (btree_nPrefix pgno))
         (Z.to_nat (scrubDefragInt16 a (btree_nPrefix pgno + 3))) 0 q1 b1
       = Good (q2, b2)
    /\ btree_rightmost child pgno (btree_nPrefix pgno) q2 b2 = (q3, b3)
    /\ scrubDefragBtree_fuel env (S fuel) p pgno iDepth bRoot
       = scrubDefragWrite env q4 (iDestPageNo p) (frame_buf pgno q4 b3)
    /\ scrubDefragWrite env q4 (iDestPageNo p) (frame_buf pgno q4 b3)
       = set_destFile ((iDestPageNo p, frame_buf pgno q4 b3) :: destFile q4) q4
    /\ iDestPageNo p <= nDestPage q4.
Proof.
  intros H0 Hok child. rewrite scrubDefragBtree_fuel_unfold in *.
  rewrite H0 in *. simpl negb in *. cbv iota in *.
  destruct (50 <? iDepth);
    [exfalso; exact (rcErr_scrubDefragErr _ _ Hok)|].
  cbv zeta in Hok |- *. fold child in Hok |- *.
  assert (Hload : exists q a,
    (if pgno =? 1 then (p, Some (page1 p))
     else scrubDefragRead env p pgno false) = (q, Some a)
    /\ btree_loads env p pgno a /\ rcErr q = 0 /\ szUsable q = szUsable p).
  { unfold btree_loads. destruct (pgno =? 1).
    - exists p, (page1 p). repeat split; assumption || reflexivity.
    - destruct (scrubDefragRead_cases env p pgno false H0)
        as [(q & a & E & Hx & Hq & Hu & _) | (q & E & Hq)].
      + exists q, a. rewrite E. repeat split; assumption.
      + rewrite E in Hok. contradiction. }
  destruct Hload as (q & a & E & Hl & Hq & Hu). rewrite E in *. clear E.
  rewrite Hu in *.
  destruct (btree_header (szUsable p) pgno a) as [a'|ln a'] eqn:Eh.
  2:{ destruct (frame_upd pgno _ q a') as [q1 b1].
      exfalso. exact (rcErr_scrubDefragErr _ _ Hok). }
  destruct (frame_upd pgno _ q a') as [q1 b1] eqn:Ef.
  destruct (btree_cells _ _ _ _ _ _ _ q1 b1) as [[q2 b2]|ln [q2 b2]] eqn:Ec.
  2:{ exfalso. exact (rcErr_scrubDefragErr _ _ Hok). }
  destruct (btree_rightmost _ _ _ q2 b2) as [q3 b3] eqn:Er.
  set (q4 := if bRoot then scrubDefragIncDestPageNo q3 else q3) in *.
  exists a, a', q, q1, b1, q2, b2, q3, b3. cbv zeta. fold q4.
  destruct (Z.eq_dec (rcErr q4) 0) as [H4|H4].
  - destruct (scrubDefragWrite_cases env q4 (iDestPageNo p)
                (frame_buf pgno q4 b3) H4) as [[Hw Hle]|Hw];
      [|contradiction].
    repeat split; assumption || reflexivity.
  - exfalso. apply H4. unfold scrubDefragWrite in Hok.
    destruct (Z.eqb_spec (rcErr q4) 0); [contradiction|]. exact Hok.
Qed.

(** A call that starts and ends without a recorded error has loaded its
    page, passed the header scan, walked the cells, and written the page at
    the page number that the allocator showed on entry. *)
Lemma scrubDefragBtree_fuel_success (env : Env) (fuel : nat)
    (p : ScrubDefragState) (pgno iDepth : Z) (bRoot : bool) :
  rcErr p = 0 ->
  rcErr (scrubDefragBtree_fuel env (S fuel) p pgno iDepth bRoot) = 0 ->
  exists a a' q0 w,
    let q := if bRoot then scrubDefragIncDestPageNo q0 else q0 in
    btree_loads env p pgno a
    /\ btree_header (szUsable p) pgno a = Good a'
    /\ scrubDefragBtree_fuel env (S fuel) p pgno iDepth bRoot
       = scrubDefragWrite env q (iDestPageNo p) w
    /\ scrubDefragWrite env q (iDestPageNo p) w
       = set_destFile ((iDestPageNo p, w) :: destFile q) q
    /\ iDestPageNo p <= nDestPage q.
Proof.
  intros H0 Hok.
  destruct (scrubDefragBtree_fuel_trace env fuel p pgno iDepth bRoot H0 Hok)
    as (a & a' & q & q1 & b1 & q2 & b2 & q3 & b3
        & Hl & _ & Hh & _ & _ & _ & Hres & Hw & Hle).
  exists a, a', q3, (frame_buf pgno
                       (if bRoot then scrubDefragIncDestPageNo q3 else q3) b3).
  repeat split; assumption.
Qed.


(** ** The overflow copier *)

Lemma overflow_loop_sticky (env : Env) (fuel : nat) (p : ScrubDefragState)
    (pgno nByte : Z) :
  rcErr p <> 0 -> overflow_loop env fuel p pgno nByte = p.
Proof.
  intros H. destruct fuel as [|fuel]; simpl; [reflexivity|].
  destruct ((0 <? nByte) && negb (pgno =? 0)); [|reflexivity].
  unfold scrubDefragRead.
  destruct (Z.eqb_spec (rcErr p) 0); [contradiction | reflexivity].
Qed.

Lemma szUsable_inc (p : ScrubDefragState) :
  szUsable (scrubDefragIncDestPageNo p) = szUsable p.
Proof.
  unfold scrubDefragIncDestPageNo. simpl.
  destruct (_ =? _); reflexivity.
Qed.

Lemma szUsable_scrubDefragWrite (env : Env) (p : ScrubDefragState) (pgno : Z)
    (a : list byte) :
  szUsable (scrubDefragWrite env p pgno a) = szUsable p.
Proof.
  unfold scrubDefragWrite, scrubDefragErr.
  destruct (negb _); [reflexivity|].
  destruct (_ <? _); [simpl; destruct (_ =? _); reflexivity|].
  destruct (_ =? _); [reflexivity|].
  simpl. destruct (_ =? _); reflexivity.
Qed.

Lemma overflow_trim_last (U nByte : Z) (a : list byte) :
  4 < U < 2 ^ 32 -> 0 < nByte <= U - 4 ->
  exists a2,
    overflow_trim U a nByte = (a2, 0)
    /\ length a2 = length a
    /\ (forall i, 0 <= i < 4 + nByte -> peek a2 i = peek a i)
    /\ (forall i, 4 + nByte <= i < U -> peek a2 i = 0).
Proof.
  intros HU Hn. unfold overflow_trim.
  rewrite (u32_small (U - 4)) by lia.
  destruct (Z.leb_spec (U - 4) nByte).
  - exists a. replace (nByte - (U - 4)) with 0 by lia.
    repeat split; intros; lia || reflexivity.
  - rewrite (u32_small (U - 4 - nByte)) by lia.
    rewrite (u32_small (U - _)) by lia.
    eexists. split; [reflexivity|]. split; [apply length_memset|]. split.
    + intros i Hi. apply peek_memset_out; lia.
    + intros i Hi. apply peek_memset_in; lia.
Qed.

Lemma overflow_trim_more (U nByte : Z) (a : list byte) :
  4 < U < 2 ^ 32 -> U - 4 < nByte < 2 ^ 32 ->
  overflow_trim U a nByte = (a, nByte - (U - 4)).
Proof.
  intros HU Hn. unfold overflow_trim.
  rewrite (u32_small (U - 4)) by lia.
  rewrite (proj2 (Z.leb_le _ _)) by lia.
  rewrite u32_small by lia. reflexivity.
Qed.

Lemma overflow_loop_chain (env : Env) (U pgno nByte nLast : Z) :
  4 < U < 2 ^ 32 -> nByte < 2 ^ 32 ->
  overflow_chain env U pgno nByte nLast ->
  forall (fuel : nat) (p : ScrubDefragState),
    szUsable p = U -> rcErr p = 0 ->
    (Z.to_nat (nByte / (U - 4)) < fuel)%nat ->
    rcErr (overflow_loop env fuel p pgno nByte) = 0 ->
    exists pg w rest,
      destFile (overflow_loop env fuel p pgno nByte) = (pg, w) :: rest
      /\ scrubDefragInt32 w 0 = 0
      /\ forall i, 4 + nLast <= i < U -> peek w i = 0.
Proof.
  intros HU HnB Hchain.
  induction Hchain as [pgno nByte a Hpg Hrd Hn Hnext
                      | pgno nByte nLast a Hpg Hrd Hn Hnext Hchain IH];
    intros fuel p HpU H0 Hfuel Hok.
  - destruct fuel as [|fuel]; [lia|]. simpl in Hok |- *.
    rewrite (proj2 (Z.ltb_lt 0 nByte)) in * by lia.
    rewrite (proj2 (Z.eqb_neq pgno 0)) in * by exact Hpg.
    simpl andb in *. cbv iota in *.
    destruct (scrubDefragRead_cases env p pgno true H0)
      as [(q & a0 & E & Hx & Hq & Hu & Hd & _) | (q & E & Hq)];
      rewrite E in *; [|contradiction].
    rewrite Hrd in Hx. injection Hx as <-.
    rewrite Hu, HpU in *.
    destruct (overflow_trim_last U nByte a HU Hn)
      as (a2 & Et & Hlen & Hlive & Hzero).
    rewrite Et in *.
    assert (Hn2 : scrubDefragInt32 a2 0 = 0).
    { rewrite scrubDefragInt32_spec in *. rewrite !Hlive by lia. exact Hnext. }
    rewrite Hn2 in *. simpl in Hok |- *.
    assert (Hend : forall s, overflow_loop env fuel s 0 0 = s)
      by (intros s; destruct fuel; reflexivity).
    rewrite Hend in *.
    destruct (scrubDefragWrite_cases env q (iDestPageNo q) a2 Hq)
      as [[Hw _]|Hw]; [|contradiction].
    rewrite Hw. simpl. eexists _, a2, _. split; [reflexivity|].
    split; assumption.
  - destruct fuel as [|fuel]; [lia|]. simpl in Hok |- *.
    rewrite (proj2 (Z.ltb_lt 0 nByte)) in * by lia.
    rewrite (proj2 (Z.eqb_neq pgno 0)) in * by exact Hpg.
    simpl andb in *. cbv iota in *.
    destruct (scrubDefragRead_cases env p pgno true H0)
      as [(q & a0 & E & Hx & Hq & Hu & Hd & _) | (q & E & Hq)];
      rewrite E in *; [|contradiction].
    rewrite Hrd in Hx. injection Hx as <-.
    rewrite Hu, HpU in *.
    rewrite overflow_trim_more in * by lia.
    rewrite (proj2 (Z.eqb_neq _ 0) Hnext) in *. simpl negb in *. cbv iota in *.
    set (p3 := scrubDefragWrite env (scrubDefragIncDestPageNo q)
                 (iDestPageNo q) _) in *.
    destruct (Z.eq_dec (rcErr p3) 0) as [H3|H3].
    + apply IH; try assumption; try lia.
      * subst p3. rewrite szUsable_scrubDefragWrite, szUsable_inc. lia.
      * assert (nByte / (U - 4) = (nByte - (U - 4)) / (U - 4) + 1).
        { replace nByte with ((nByte - (U - 4)) + 1 * (U - 4)) at 1 by lia.
          rewrite Z.div_add by lia. reflexivity. }
        assert (0 <= (nByte - (U - 4)) / (U - 4)) by (apply Z.div_pos; lia).
        lia.
    + rewrite overflow_loop_sticky in Hok by exact H3. contradiction.
Qed.

(** When the overflow chain of the source is as long as the payload
    requires and the copy ends without error, the last page written to the
    destination has a next-page field of zero and is zero from the end of its
    live payload, at offset [4 + nLast], to the end of the usable area. *)
Lemma overflow_copy_chain_end (env : Env) (p : ScrubDefragState)
    (pgno nByte nLast : Z) :
  rcErr p = 0 -> 4 < szUsable p <= 65536 -> nByte < 2 ^ 32 ->
  overflow_chain env (szUsable p) pgno nByte nLast ->
  rcErr (scrubDefragOverflow env p pgno nByte) = 0 ->
  exists pg w rest,
    destFile (scrubDefragOverflow env p pgno nByte) = (pg, w) :: rest
    /\ scrubDefragInt32 w 0 = 0
    /\ forall i, 4 + nLast <= i < szUsable p -> peek w i = 0.
Proof.
  intros H0 HU HnB Hchain. unfold scrubDefragOverflow, scrubDefragAllocPage.
  rewrite H0. simpl negb. cbv iota.
  destruct (malloc_ok env (nAlloc p)); [|simpl; discriminate].
  intros Hok.
  apply (overflow_loop_chain env (szUsable p) pgno nByte nLast);
    try assumption; try reflexivity; try lia.
  unfold overflow_fuel. simpl szUsable.
  rewrite (u32_small (szUsable p - 4)) by lia. lia.
Qed.

(** Without any premise on the source chain: a copy that ends without error
    has appended its pages to the destination, at least one when there is
    payload to copy, and the page written last, after [length rest] full
    pages, is zero from the end of the payload that is left for it. *)
Lemma overflow_loop_tail (env : Env) (fuel : nat) :
  forall (p : ScrubDefragState) (pgno nByte : Z),
    rcErr p = 0 -> 4 < szUsable p <= 65536 -> 0 <= nByte < 2 ^ 32 ->
    (Z.to_nat (nByte / (szUsable p - 4)) < fuel)%nat ->
    rcErr (overflow_loop env fuel p pgno nByte) = 0 ->
    exists news,
      destFile (overflow_loop env fuel p pgno nByte) = news ++ destFile p
      /\ (0 < nByte -> pgno <> 0 -> news <> [])
      /\ forall pg w rest, news = (pg, w) :: rest ->
           0 < nByte - Z.of_nat (length rest) * (szUsable p - 4)
           /\ forall i,
                4 + (nByte - Z.of_nat (length rest) * (szUsable p - 4)) <= i
                < szUsable p ->
                peek w i = 0.
Proof.
  induction fuel as [|fuel IH]; intros p pgno nByte H0 HU Hn Hfuel Hok;
    [lia|].
  simpl in Hok |- *.
  destruct (Z.ltb_spec 0 nByte) as [Hpos|Hpos];
    [|exists []; split; [reflexivity|]; split; [lia | discriminate]].
  destruct (Z.eqb_spec pgno 0) as [Hpg|Hpg];
    [exists []; split; [reflexivity|]; split; [contradiction | discriminate]|].
  simpl andb in *. cbv iota in *.
  destruct (scrubDefragRead_cases env p pgno true H0)
    as [(q & a & E & _ & Hq & Hu & Hi & Hd & _) | (q & E & Hq)];
    rewrite E in *; [|contradiction].
  rewrite Hu in *.
  assert (Hinc : rcErr (scrubDefragIncDestPageNo q) = 0
                 /\ destFile (scrubDefragIncDestPageNo q) = destFile q).
  { unfold scrubDefragIncDestPageNo. simpl. destruct (_ =? _); split;
      simpl; assumption || reflexivity. }
  destruct Hinc as [Hqi Hdi].
  destruct (Z.le_gt_cases nByte (szUsable p - 4)) as [Hlast|Hmore].
  - destruct (overflow_trim_last (szUsable p) nByte a ltac:(lia) ltac:(lia))
      as (a2 & Et & _ & _ & Hzero).
    rewrite Et in *.
    assert (Hend : forall s pg, overflow_loop env fuel s pg 0 = s)
      by (intros s pg; destruct fuel; reflexivity).
    destruct (negb (scrubDefragInt32 a2 0 =? 0)); rewrite Hend in *.
    + destruct (scrubDefragWrite_cases env (scrubDefragIncDestPageNo q)
                  (iDestPageNo q)
                  (scrubDefragWriteInt32 a2 0
                     (iDestPageNo (scrubDefragIncDestPageNo q))) Hqi)
        as [[Hw _]|Hw]; [|contradiction].
      rewrite Hw. simpl destFile. rewrite Hdi, Hd.
      eexists [_]. split; [reflexivity|]. split; [discriminate|].
      intros pg w rest Ew. injection Ew as <- <- <-. simpl length.
      split; [lia|]. intros i Hi'.
      rewrite peek_scrubDefragWriteInt32_out by lia. apply Hzero. lia.
    + destruct (scrubDefragWrite_cases env q (iDestPageNo q) a2 Hq)
        as [[Hw _]|Hw]; [|contradiction].
      rewrite Hw. simpl destFile. rewrite Hd.
      eexists [_]. split; [reflexivity|]. split; [discriminate|].
      intros pg w rest Ew. injection Ew as <- <- <-. simpl length.
      split; [lia|]. intros i Hi'. apply Hzero. lia.
  - rewrite overflow_trim_more in * by lia.
    set (nxt := scrubDefragInt32 a 0) in *.
    set (pa := if negb (nxt =? 0)
               then (scrubDefragIncDestPageNo q,
                     scrubDefragWriteInt32 a 0
                       (iDestPageNo (scrubDefragIncDestPageNo q)))
               else (q, a)) in *.
    assert (Hpa : rcErr (fst pa) = 0 /\ destFile (fst pa) = destFile p
                  /\ szUsable (fst pa) = szUsable p).
    { subst pa. destruct (negb _); simpl fst.
      - rewrite szUsable_inc. repeat split; congruence.
      - repeat split; congruence. }
    destruct pa as [p2 a3]. simpl fst in Hpa. destruct Hpa as (H2 & Hd2 & Hu2).
    set (p3 := scrubDefragWrite env p2 (iDestPageNo q) a3) in *.
    destruct (Z.eq_dec (rcErr p3) 0) as [H3|H3];
      [|rewrite overflow_loop_sticky in Hok by exact H3; contradiction].
    assert (Hu3 : szUsable p3 = szUsable p)
      by (subst p3; rewrite szUsable_scrubDefragWrite; exact Hu2).
    assert (Hd3 : destFile p3 = (iDestPageNo q, a3) :: destFile p).
    { subst p3. destruct (scrubDefragWrite_cases env p2 (iDestPageNo q) a3 H2)
        as [[Hw _]|Hw]; [|contradiction].
      rewrite Hw. simpl. rewrite Hd2. reflexivity. }
    assert (Hdiv : nByte / (szUsable p - 4)
                   = (nByte - (szUsable p - 4)) / (szUsable p - 4) + 1).
    { replace nByte with ((nByte - (szUsable p - 4)) + 1 * (szUsable p - 4))
        at 1 by lia.
      rewrite Z.div_add by lia. reflexivity. }
    assert (0 <= (nByte - (szUsable p - 4)) / (szUsable p - 4))
      by (apply Z.div_pos; lia).
    destruct (IH p3 nxt (nByte - (szUsable p - 4)) H3
                ltac:(rewrite Hu3; exact HU) ltac:(lia)
                ltac:(rewrite Hu3; lia) Hok)
      as (news & Edest & _ & Htail).
    rewrite Hu3 in Htail.
    exists (news ++ [(iDestPageNo q, a3)]).
    split; [rewrite Edest, Hd3, <- app_assoc; reflexivity|].
    split; [intros _ _ E0; apply app_eq_nil in E0; destruct E0; discriminate|].
    intros pg w rest Ew.
    destruct news as [|[pg' w'] rest'].
    + simpl in Ew. injection Ew as <- <- <-. simpl length.
      split; [lia|]. intros i Hi'. lia.
    + simpl in Ew. injection Ew as <- <- <-.
      destruct (Htail pg' w' rest' eq_refl) as [Hp Hz].
      rewrite length_app. simpl length.
      replace (Z.of_nat (length rest' + 1)) with (Z.of_nat (length rest') + 1)
        by lia.
      split; [lia|]. intros i Hi'. apply Hz. lia.
Qed.

Lemma overflow_chain_start (env : Env) (U pgno nByte nLast : Z) :
  4 < U -> overflow_chain env U pgno nByte nLast -> 0 < nByte /\ pgno <> 0.
Proof.
  intros HU H. destruct H; split; assumption || lia.
Qed.

(** C7 (amended).  A copy of an overflow chain that ends without error has
    appended its pages to the destination, at least one when there is
    payload to copy.  The page written last, after [length rest] pages full
    of payload, is zero from the end of its live payload to the end of the
    usable area, whatever the chain of the source is.  Its next-page field
    is zero when the chain of the source is as long as the payload requires,
    so that the last page of the source has a next-page field of zero: the
    field is inherited from the source, and [nLast] is then the number of
    bytes of live payload of the last page. *)
Theorem overflow_tail_zeroed (env : Env) (p : ScrubDefragState)
    (pgno nByte : Z) :
  rcErr p = 0 -> 4 < szUsable p <= 65536 -> 0 <= nByte < 2 ^ 32 ->
  rcErr (scrubDefragOverflow env p pgno nByte) = 0 ->
  exists news,
    destFile (scrubDefragOverflow env p pgno nByte) = news ++ destFile p
    /\ (0 < nByte -> pgno <> 0 -> news <> [])
    /\ (forall pg w rest, news = (pg, w) :: rest ->
          0 < nByte - Z.of_nat (length rest) * (szUsable p - 4)
          /\ forall i,
               4 + (nByte - Z.of_nat (length rest) * (szUsable p - 4)) <= i
               < szUsable p ->
               peek w i = 0)
    /\ (forall nLast, overflow_chain env (szUsable p) pgno nByte nLast ->
          exists pg w rest,
            news = (pg, w) :: rest
            /\ scrubDefragInt32 w 0 = 0
            /\ forall i, 4 + nLast <= i < szUsable p -> peek w i = 0).
Proof.
  intros H0 HU HnB Hok.
  assert (Hgen : exists news,
    destFile (scrubDefragOverflow env p pgno nByte) = news ++ destFile p
    /\ (0 < nByte -> pgno <> 0 -> news <> [])
    /\ (forall pg w rest, news = (pg, w) :: rest ->
          0 < nByte - Z.of_nat (length rest) * (szUsable p - 4)
          /\ forall i,
               4 + (nByte - Z.of_nat (length rest) * (szUsable p - 4)) <= i
               < szUsable p ->
               peek w i = 0)).
  { revert Hok. unfold scrubDefragOverflow, scrubDefragAllocPage.
    rewrite H0. simpl negb. cbv iota.
    destruct (malloc_ok env (nAlloc p)); [|simpl; discriminate].
    intros Hok.
    apply (overflow_loop_tail env _ (set_nAlloc (S (nAlloc p)) p) pgno nByte);
      try assumption; try reflexivity.
    unfold overflow_fuel. simpl szUsable.
    rewrite (u32_small (szUsable p - 4)) by lia. lia. }
  destruct Hgen as (news & Ed & Hne & Htail).
  exists news. split; [exact Ed|]. split; [exact Hne|]. split; [exact Htail|].
  intros nLast Hchain.
  destruct (overflow_chain_start env (szUsable p) pgno nByte nLast
              (proj1 HU) Hchain) as [Hpos Hpg].
  destruct (overflow_copy_chain_end env p pgno nByte nLast H0 HU
              (proj2 HnB) Hchain Hok) as (pg & w & rest & Ed' & Hnext & Hz).
  destruct news as [|[pg' w'] rest']; [exfalso; exact (Hne Hpos Hpg eq_refl)|].
  rewrite Ed in Ed'. simpl in Ed'. injection Ed' as -> -> _.
  exists pg, w, rest'. repeat split; assumption.
Qed.

(** ** Fields that the copy never changes *)

Lemma page1_inc (p : ScrubDefragState) :
  page1 (scrubDefragIncDestPageNo p) = page1 p.
Proof.
  unfold scrubDefragIncDestPageNo. simpl. destruct (_ =? _); reflexivity.
Qed.

Lemma szUsable_scrubDefragErr (p : ScrubDefragState) (msg : ErrMsg) :
  szUsable (scrubDefragErr p msg) = szUsable p.
Proof. unfold scrubDefragErr. simpl. destruct (_ =? _); reflexivity. Qed.

Lemma page1_scrubDefragErr (p : ScrubDefragState) (msg : ErrMsg) :
  page1 (scrubDefragErr p msg) = page1 p.
Proof. unfold scrubDefragErr. simpl. destruct (_ =? _); reflexivity. Qed.

Lemma page1_scrubDefragWrite (env : Env) (p : ScrubDefragState) (pgno : Z)
    (a : list byte) :
  page1 (scrubDefragWrite env p pgno a) = page1 p.
Proof.
  unfold scrubDefragWrite.
  destruct (negb _); [reflexivity|].
  destruct (_ <? _); [simpl; apply page1_scrubDefragErr|].
  destruct (_ =? _); [reflexivity|].
  simpl. apply page1_scrubDefragErr.
Qed.

Lemma scrubDefragRead_fields (env : Env) (p : ScrubDefragState) (pgno : Z)
    (hasBuf : bool) :
  szUsable (fst (scrubDefragRead env p pgno hasBuf)) = szUsable p
  /\ page1 (fst (scrubDefragRead env p pgno hasBuf)) = page1 p.
Proof.
  unfold scrubDefragRead, scrubDefragAllocPage.
  destruct (negb _); [split; reflexivity|].
  destruct hasBuf; simpl.
  - destruct (xRead env pgno); simpl;
      rewrite ?szUsable_scrubDefragErr, ?page1_scrubDefragErr;
      split; reflexivity.
  - destruct (malloc_ok env (nAlloc p)); simpl; [|split; reflexivity].
    destruct (xRead env pgno); simpl;
      rewrite ?szUsable_scrubDefragErr, ?page1_scrubDefragErr;
      split; reflexivity.
Qed.

Lemma overflow_loop_fields (env : Env) (fuel : nat) (p : ScrubDefragState)
    (pgno nByte : Z) :
  szUsable (overflow_loop env fuel p pgno nByte) = szUsable p
  /\ page1 (overflow_loop env fuel p pgno nByte) = page1 p.
Proof.
  revert p pgno nByte. induction fuel as [|fuel IH]; intros p pgno nByte;
    simpl; [split; reflexivity|].
  destruct (_ && _); [|split; reflexivity].
  pose proof (scrubDefragRead_fields env p pgno true) as [Hu H1].
  destruct (scrubDefragRead env p pgno true) as [q [a|]]; simpl in Hu, H1;
    [|split; assumption].
  destruct (overflow_trim (szUsable q) a nByte) as [a' n'].
  destruct (negb _).
  - destruct (IH (scrubDefragWrite env (scrubDefragIncDestPageNo q)
                    (iDestPageNo q)
                    (scrubDefragWriteInt32 a' 0
                       (iDestPageNo (scrubDefragIncDestPageNo q))))
                (scrubDefragInt32 a' 0) n') as [Hu' H1'].
    rewrite Hu', H1', szUsable_scrubDefragWrite, page1_scrubDefragWrite,
      szUsable_inc, page1_inc. split; assumption.
  - destruct (IH (scrubDefragWrite env q (iDestPageNo q) a')
                (scrubDefragInt32 a' 0) n') as [Hu' H1'].
    rewrite Hu', H1', szUsable_scrubDefragWrite, page1_scrubDefragWrite.
    split; assumption.
Qed.

Lemma scrubDefragOverflow_fields (env : Env) (p : ScrubDefragState)
    (pgno nByte : Z) :
  szUsable (scrubDefragOverflow env p pgno nByte) = szUsable p
  /\ page1 (scrubDefragOverflow env p pgno nByte) = page1 p.
Proof.
  unfold scrubDefragOverflow, scrubDefragAllocPage.
  destruct (negb _); [split; reflexivity|].
  destruct (malloc_ok env (nAlloc p)); [|split; reflexivity].
  destruct (overflow_loop_fields env
              (overflow_fuel (set_nAlloc (S (nAlloc p)) p) nByte)
              (set_nAlloc (S (nAlloc p)) p) pgno nByte) as [Hu H1].
  rewrite Hu, H1. split; reflexivity.
Qed.

(** ** The order of relocation *)













(** ** Root pages and the catalog-update script *)

Lemma relocate_rows_app (env : Env) (pre post : list CatalogRow)
    (s : ScrubDefragState) (zSql : list RootUpdate) :
  relocate_rows env s zSql (pre ++ post)
  = relocate_rows env (fst (relocate_rows env s zSql pre))
      (snd (relocate_rows env s zSql pre)) post.
Proof.
  revert s zSql. induction pre as [|r pre IH]; intros s zSql; simpl.
  - reflexivity.
  - apply IH.
Qed.

Lemma scrubDefragBtree_fuel_sticky (env : Env) (fuel : nat)
    (p : ScrubDefragState) (pgno iDepth : Z) (bRoot : bool) :
  rcErr p <> 0 -> scrubDefragBtree_fuel env fuel p pgno iDepth bRoot = p.
Proof.
  intros H.
  assert (E : negb (rcErr p =? 0) = true)
    by (destruct (Z.eqb_spec (rcErr p) 0); [contradiction | reflexivity]).
  destruct fuel; simpl; rewrite E; reflexivity.
Qed.

(** ** The fuel of the loops is enough *)

Lemma freeblock_loop_zero (fuel : nat) (U : Z) (a : list byte) :
  freeblock_loop fuel U a 0 = Good a.
Proof. destruct fuel; reflexivity. Qed.

(** More fuel than [freeblock_fuel] does not change the result of the scan
    of the free blocks: the scan ends by itself. *)
Lemma freeblock_loop_fuel (U : Z) (f1 f2 : nat) (a : list byte) (pc : Z) :
  0 <= pc < 65536 ->
  (freeblock_fuel pc <= f1)%nat -> (freeblock_fuel pc <= f2)%nat ->
  freeblock_loop f1 U a pc = freeblock_loop f2 U a pc.
Proof.
  unfold freeblock_fuel.
  revert f2 a pc. induction f1 as [|f1 IH]; intros f2 a pc Hpc H1 H2;
    [lia|]. destruct f2 as [|f2]; [lia|]. simpl.
  destruct (pc =? 0); [reflexivity|].
  destruct (u32 (U - 4) <? pc); [reflexivity|].
  destruct (U <? u32 (pc + scrubDefragInt16 a (pc + 2))); [reflexivity|].
  set (a' := if 4 <? scrubDefragInt16 a (pc + 2)
             then memset a (pc + 4) (scrubDefragInt16 a (pc + 2) - 4)
             else a).
  pose proof (scrubDefragInt16_range a' pc) as Hx.
  rewrite (u32_small (pc + 4)) by lia.
  destruct (Z.ltb_spec (scrubDefragInt16 a' pc) (pc + 4));
    destruct (Z.ltb_spec 0 (scrubDefragInt16 a' pc)); simpl;
    try reflexivity.
  - replace (scrubDefragInt16 a' pc) with 0 by lia.
    rewrite !freeblock_loop_zero. reflexivity.
  - apply IH; lia.
  - replace (scrubDefragInt16 a' pc) with 0 by lia.
    rewrite !freeblock_loop_zero. reflexivity.
Qed.

Lemma overflow_loop_done (env : Env) (fuel : nat) (p : ScrubDefragState)
    (pgno : Z) :
  overflow_loop env fuel p pgno 0 = p.
Proof. destruct fuel; reflexivity. Qed.

(** When the usable size is not 4, more fuel than [overflow_fuel] does not
    change the result of the overflow copier: the loop ends by its own
    test. *)
Lemma overflow_loop_fuel (env : Env) (f1 f2 : nat) (p : ScrubDefragState)
    (pgno nByte : Z) :
  0 < u32 (szUsable p - 4) -> 0 <= nByte < 2 ^ 32 ->
  (Z.to_nat (nByte / u32 (szUsable p - 4)) < f1)%nat ->
  (Z.to_nat (nByte / u32 (szUsable p - 4)) < f2)%nat ->
  overflow_loop env f1 p pgno nByte = overflow_loop env f2 p pgno nByte.
Proof.
  revert f2 p pgno nByte.
  induction f1 as [|f1 IH]; intros f2 p pgno nByte HU Hn H1 H2; [lia|].
  destruct f2 as [|f2]; [lia|].
  destruct (Z.eq_dec (rcErr p) 0) as [H0|H0];
    [|rewrite !overflow_loop_sticky by exact H0; reflexivity].
  simpl. destruct ((0 <? nByte) && negb (pgno =? 0)); [|reflexivity].
  destruct (scrubDefragRead_cases env p pgno true H0)
    as [(q & a & E & _ & Hq & Hu & _) | (q & E & _)];
    rewrite E; [|reflexivity].
  rewrite Hu. set (d := u32 (szUsable p - 4)) in *.
  unfold overflow_trim. fold d.
  destruct (Z.leb_spec d nByte) as [Hge|Hlt].
  - rewrite (u32_small (nByte - d)) by lia.
    destruct (Z.eq_dec (nByte - d) 0) as [Ez|Ez];
      [rewrite Ez; destruct (negb _); rewrite !overflow_loop_done;
       reflexivity|].
    assert (Hdiv : nByte / d = (nByte - d) / d + 1).
    { replace nByte with ((nByte - d) + 1 * d) at 1 by lia.
      rewrite Z.div_add by lia. reflexivity. }
    assert (0 <= (nByte - d) / d) by (apply Z.div_pos; lia).
    destruct (negb _); apply IH;
      rewrite ?szUsable_scrubDefragWrite, ?szUsable_inc, ?Hu; fold d; lia.
  - destruct (negb _); rewrite !overflow_loop_done; reflexivity.
Qed.

Section ChildExt.

Variable env : Env.
Variables child1 child2 : ScrubDefragState -> Z -> ScrubDefragState.
Hypothesis child_ext : forall q iChild, child1 q iChild = child2 q iChild.

Lemma btree_cell_ext (pgno nPrefix szHdr i : Z) (p : ScrubDefragState)
    (a : list byte) :
  btree_cell env child1 pgno nPrefix szHdr i p a
  = btree_cell env child2 pgno nPrefix szHdr i p a.
Proof.
  unfold btree_cell.
  destruct (_ <=? szHdr); [reflexivity|].
  destruct (_ <? _); [reflexivity|].
  destruct (is_interior _); [|reflexivity].
  destruct (_ <? _); [reflexivity|].
  destruct (frame_upd pgno _ _ a) as [q b].
  rewrite child_ext. reflexivity.
Qed.

Lemma btree_cells_ext (pgno nPrefix szHdr : Z) (n : nat) (i : Z)
    (p : ScrubDefragState) (a : list byte) :
  btree_cells env child1 pgno nPrefix szHdr n i p a
  = btree_cells env child2 pgno nPrefix szHdr n i p a.
Proof.
  revert i p a. induction n as [|n IH]; intros i p a; simpl.
  - reflexivity.
  - rewrite btree_cell_ext.
    destruct (btree_cell env child2 pgno nPrefix szHdr i p a) as [[q b]|ln qb];
      [apply IH | reflexivity].
Qed.

Lemma btree_rightmost_ext (pgno nPrefix : Z) (p : ScrubDefragState)
    (a : list byte) :
  btree_rightmost child1 pgno nPrefix p a
  = btree_rightmost child2 pgno nPrefix p a.
Proof.
  unfold btree_rightmost. destruct (is_interior _); [|reflexivity].
  destruct (frame_upd pgno _ _ a) as [q b].
  rewrite child_ext. reflexivity.
Qed.

End ChildExt.

Lemma scrubDefragBtree_fuel_zero (env : Env) (p : ScrubDefragState)
    (pgno iDepth : Z) (bRoot : bool) :
  scrubDefragBtree_fuel env 0 p pgno iDepth bRoot =
  if negb (rcErr p =? 0) then p
  else if 50 <? iDepth then scrubDefragErr p (ErrTooDeep pgno)
  else p.
Proof. reflexivity. Qed.

(** With [iDepth] at most 51 on entry, any fuel of at least [51 - iDepth]
    gives the same result: the recursion is stopped by the test
    [iDepth > 50] and never by the fuel. *)
Lemma scrubDefragBtree_fuel_enough (env : Env) (f1 f2 : nat)
    (p : ScrubDefragState) (pgno iDepth : Z) (bRoot : bool) :
  (Z.to_nat (51 - iDepth) <= f1)%nat -> (Z.to_nat (51 - iDepth) <= f2)%nat ->
  scrubDefragBtree_fuel env f1 p pgno iDepth bRoot
  = scrubDefragBtree_fuel env f2 p pgno iDepth bRoot.
Proof.
  revert f2 p pgno iDepth bRoot.
  induction f1 as [|f1 IH]; intros f2 p pgno iDepth bRoot H1 H2.
  - destruct f2 as [|f2]; [reflexivity|].
    rewrite scrubDefragBtree_fuel_zero, scrubDefragBtree_fuel_unfold.
    destruct (negb _); [reflexivity|].
    destruct (Z.ltb_spec 50 iDepth); [reflexivity | lia].
  - destruct f2 as [|f2].
    + rewrite scrubDefragBtree_fuel_zero, scrubDefragBtree_fuel_unfold.
      destruct (negb _); [reflexivity|].
      destruct (Z.ltb_spec 50 iDepth); [reflexivity | lia].
    + rewrite !scrubDefragBtree_fuel_unfold.
      destruct (negb _); [reflexivity|].
      destruct (Z.ltb_spec 50 iDepth); [reflexivity|].
      cbv zeta.
      assert (Hc : forall q iChild,
        scrubDefragBtree_fuel env f1 q iChild (iDepth + 1) false
        = scrubDefragBtree_fuel env f2 q iChild (iDepth + 1) false)
        by (intros q iChild; apply IH; lia).
      destruct (if pgno =? 1 then _ else _) as [q [a|]]; [|reflexivity].
      destruct (btree_header (szUsable q) pgno a) as [a'|ln a'];
        [|reflexivity].
      destruct (frame_upd pgno _ q a') as [q1 b1].
      rewrite (btree_cells_ext env _ _ Hc).
      destruct (btree_cells env _ pgno _ _ _ 0 q1 b1) as [[q2 b2]|ln [q2 b2]];
        [|reflexivity].
      rewrite (btree_rightmost_ext _ _ Hc). reflexivity.
Qed.

(** The result of [scrubDefragBtree] at [iDepth = 0] is the result for any
    larger fuel. *)
Lemma scrubDefragBtree_total (env : Env) (fuel : nat) (p : ScrubDefragState)
    (pgno : Z) (bRoot : bool) :
  (51 <= fuel)%nat ->
  scrubDefragBtree env p pgno 0 bRoot
  = scrubDefragBtree_fuel env fuel p pgno 0 bRoot.
Proof.
  intros H. unfold scrubDefragBtree, btree_depth_fuel.
  apply scrubDefragBtree_fuel_enough; simpl; lia.
Qed.

(** ** The gap in the page written *)

Lemma frame_buf_upd (pgno : Z) (f : list byte -> list byte)
    (p : ScrubDefragState) (a : list byte) :
  frame_buf pgno (fst (frame_upd pgno f p a)) (snd (frame_upd pgno f p a))
  = f (frame_buf pgno p a).
Proof. unfold frame_buf, frame_upd. destruct (pgno =? 1); reflexivity. Qed.

Lemma szUsable_frame_upd (pgno : Z) (f : list byte -> list byte)
    (p : ScrubDefragState) (a : list byte) :
  szUsable (fst (frame_upd pgno f p a)) = szUsable p.
Proof. unfold frame_upd. destruct (pgno =? 1); reflexivity. Qed.

Lemma frame_buf_state (pgno : Z) (p q : ScrubDefragState) (a : list byte) :
  page1 q = page1 p -> frame_buf pgno q a = frame_buf pgno p a.
Proof. intros H. unfold frame_buf. rewrite H. reflexivity. Qed.

Lemma btree_payload_szUsable (env : Env) (pgno nPrefix pc : Z)
    (p : ScrubDefragState) (a : list byte) :
  szUsable (fst (scan_val (btree_payload env pgno nPrefix pc p a))) = szUsable p.
Proof.
  unfold btree_payload. destruct (payload_plan _ _ _ _); try reflexivity.
  pose proof (szUsable_frame_upd pgno
                (fun b => scrubDefragWriteInt32 b ptr
                            (iDestPageNo (scrubDefragIncDestPageNo p)))
                (scrubDefragIncDestPageNo p) a) as Hu.
  destruct (frame_upd pgno _ (scrubDefragIncDestPageNo p) a) as [q b].
  simpl in *. rewrite (proj1 (scrubDefragOverflow_fields env q iChild nByte)).
  rewrite Hu. apply szUsable_inc.
Qed.

(** The payload part of a cell changes no byte of the page before the
    cell. *)
Lemma btree_payload_frame (env : Env) (pgno nPrefix pc : Z)
    (p : ScrubDefragState) (a : list byte) (k : Z) :
  257 <= szUsable p <= 65536 -> 0 <= k <= pc -> pc < 2 ^ 31 ->
  let r := scan_val (btree_payload env pgno nPrefix pc p a) in
  peek (frame_buf pgno (fst r) (snd r)) k = peek (frame_buf pgno p a) k.
Proof.
  intros HU Hk Hpc. unfold btree_payload.
  destruct (payload_plan _ _ _ _) as [| |ptr iChild nByte] eqn:E;
    try reflexivity.
  apply payload_plan_ptr in E; [|exact HU | lia].
  pose proof (frame_buf_upd pgno
                (fun b => scrubDefragWriteInt32 b ptr
                            (iDestPageNo (scrubDefragIncDestPageNo p)))
                (scrubDefragIncDestPageNo p) a) as Hb.
  destruct (frame_upd pgno _ (scrubDefragIncDestPageNo p) a) as [q b].
  simpl in *.
  rewrite (frame_buf_state pgno q _ b
             (proj2 (scrubDefragOverflow_fields env q iChild nByte))).
  rewrite Hb, peek_scrubDefragWriteInt32_out by lia.
  rewrite (frame_buf_state pgno p _ a (page1_inc p)). reflexivity.
Qed.

Section UsableSize.

Variable env : Env.
Variable child : ScrubDefragState -> Z -> ScrubDefragState.
Hypothesis child_szUsable : forall q iChild, szUsable (child q iChild) = szUsable q.

Lemma btree_cell_szUsable (pgno nPrefix szHdr i : Z) (p : ScrubDefragState)
    (a : list byte) :
  szUsable (fst (scan_val (btree_cell env child pgno nPrefix szHdr i p a)))
  = szUsable p.
Proof.
  unfold btree_cell.
  destruct (_ <=? szHdr); [reflexivity|].
  destruct (_ <? _); [reflexivity|].
  destruct (is_interior _); [|apply btree_payload_szUsable].
  destruct (_ <? _); [reflexivity|].
  pose proof (szUsable_frame_upd pgno
    (fun b => scrubDefragWriteInt32 b
       (scrubDefragInt16 (frame_buf pgno p a) (nPrefix + szHdr + i * 2))
       (iDestPageNo (scrubDefragIncDestPageNo p)))
    (scrubDefragIncDestPageNo p) a) as Hu.
  destruct (frame_upd pgno _ (scrubDefragIncDestPageNo p) a) as [q b].
  simpl in Hu. rewrite szUsable_inc in Hu.
  destruct (_ =? 5); simpl.
  - rewrite child_szUsable. exact Hu.
  - rewrite btree_payload_szUsable, child_szUsable. exact Hu.
Qed.

Lemma btree_cells_szUsable (pgno nPrefix szHdr : Z) (n : nat) (i : Z)
    (p : ScrubDefragState) (a : list byte) :
  szUsable (fst (scan_val (btree_cells env child pgno nPrefix szHdr n i p a)))
  = szUsable p.
Proof.
  revert i p a. induction n as [|n IH]; intros i p a; simpl; [reflexivity|].
  pose proof (btree_cell_szUsable pgno nPrefix szHdr i p a) as Hc.
  destruct (btree_cell env child pgno nPrefix szHdr i p a) as [[q b]|ln [q b]];
    simpl in Hc |- *; [|exact Hc].
  rewrite IH. exact Hc.
Qed.

Lemma btree_rightmost_szUsable (pgno nPrefix : Z) (p : ScrubDefragState)
    (a : list byte) :
  szUsable (fst (btree_rightmost child pgno nPrefix p a)) = szUsable p.
Proof.
  unfold btree_rightmost. destruct (is_interior _); [|reflexivity].
  pose proof (szUsable_frame_upd pgno
    (fun b => scrubDefragWriteInt32 b (nPrefix + 8)
       (iDestPageNo (scrubDefragIncDestPageNo p)))
    (scrubDefragIncDestPageNo p) a) as Hu.
  destruct (frame_upd pgno _ (scrubDefragIncDestPageNo p) a) as [q b].
  simpl in *. rewrite child_szUsable, Hu. apply szUsable_inc.
Qed.

End UsableSize.

(** The rewriter never changes the usable size. *)
Lemma scrubDefragBtree_fuel_szUsable (env : Env) (fuel : nat)
    (p : ScrubDefragState) (pgno iDepth : Z) (bRoot : bool) :
  szUsable (scrubDefragBtree_fuel env fuel p pgno iDepth bRoot) = szUsable p.
Proof.
  revert p pgno iDepth bRoot.
  induction fuel as [|fuel IH]; intros p pgno iDepth bRoot.
  - rewrite scrubDefragBtree_fuel_zero.
    destruct (negb _); [reflexivity|].
    destruct (_ <? _); [apply szUsable_scrubDefragErr | reflexivity].
  - rewrite scrubDefragBtree_fuel_unfold.
    destruct (negb _); [reflexivity|].
    destruct (_ <? _); [apply szUsable_scrubDefragErr|]. cbv zeta.
    assert (Hc : forall q iChild,
      szUsable (scrubDefragBtree_fuel env fuel q iChild (iDepth + 1) false)
      = szUsable q) by (intros; apply IH).
    assert (Hload : szUsable
      (fst (if pgno =? 1 then (p, Some (page1 p))
            else scrubDefragRead env p pgno false)) = szUsable p).
    { destruct (pgno =? 1); [reflexivity|].
      apply (scrubDefragRead_fields env p pgno false). }
    destruct (if pgno =? 1 then _ else _) as [q [a|]]; simpl in Hload;
      [|exact Hload].
    destruct (btree_header (szUsable q) pgno a) as [a'|ln a'].
    + pose proof (szUsable_frame_upd pgno (fun _ => a') q a') as Hu.
      destruct (frame_upd pgno _ q a') as [q1 b1]. simpl in Hu.
      pose proof (btree_cells_szUsable env _ Hc pgno (btree_nPrefix pgno)
                    (btree_szHdr a (btree_nPrefix pgno))
                    (Z.to_nat (scrubDefragInt16 a (btree_nPrefix pgno + 3)))
                    0 q1 b1) as Hcells.
      destruct (btree_cells env _ pgno _ _ _ 0 q1 b1) as [[q2 b2]|ln [q2 b2]];
        simpl in Hcells.
      * pose proof (btree_rightmost_szUsable _ Hc pgno (btree_nPrefix pgno)
                      q2 b2) as Hr.
        destruct (btree_rightmost _ pgno _ q2 b2) as [q3 b3]. simpl in Hr.
        rewrite szUsable_scrubDefragWrite.
        destruct bRoot; rewrite ?szUsable_inc; congruence.
      * rewrite szUsable_scrubDefragErr. congruence.
    + pose proof (szUsable_frame_upd pgno (fun _ => a') q a') as Hu.
      destruct (frame_upd pgno _ q a') as [q1 b1]. simpl in Hu.
      rewrite szUsable_scrubDefragErr. congruence.
Qed.

Lemma scrubDefragInt16_agree (a b : list byte) (off : Z) :
  peek a off = peek b off -> peek a (off + 1) = peek b (off + 1) ->
  scrubDefragInt16 a off = scrubDefragInt16 b off.
Proof. intros H0 H1. unfold scrubDefragInt16. rewrite H0, H1. reflexivity. Qed.

Section CellFrame.

Variable env : Env.
Variable child : ScrubDefragState -> Z -> ScrubDefragState.
Variables pgno nPrefix szHdr x U : Z.
Variable buf0 : list byte.

Hypothesis U_legal : 257 <= U <= 65536.
Hypothesis nPrefix_low : 0 <= nPrefix < x.
Hypothesis szHdr_pos : 0 <= szHdr.
Hypothesis child_frame :
  is_interior (peek buf0 nPrefix) = true ->
  forall q iChild b,
    szUsable (child q iChild) = szUsable q
    /\ frame_buf pgno (child q iChild) b = frame_buf pgno q b.

(** One cell whose pointer is not below [x] leaves the bytes below [x] as
    they are. *)
Lemma btree_cell_frame (i : Z) (p : ScrubDefragState) (a : list byte) :
  szUsable p = U ->
  (forall k, 0 <= k < x -> peek (frame_buf pgno p a) k = peek buf0 k) ->
  0 <= i -> nPrefix + szHdr + i * 2 + 2 <= x ->
  x <= scrubDefragInt16 buf0 (nPrefix + szHdr + i * 2) ->
  let r := scan_val (btree_cell env child pgno nPrefix szHdr i p a) in
  szUsable (fst r) = U
  /\ forall k, 0 <= k < x -> peek (frame_buf pgno (fst r) (snd r)) k = peek buf0 k.
Proof.
  intros HpU Hinv Hi Hoff Hptr.
  assert (Hpc : scrubDefragInt16 (frame_buf pgno p a) (nPrefix + szHdr + i * 2)
                = scrubDefragInt16 buf0 (nPrefix + szHdr + i * 2))
    by (apply scrubDefragInt16_agree; apply Hinv; lia).
  pose proof (scrubDefragInt16_range buf0 (nPrefix + szHdr + i * 2)) as Hr.
  unfold btree_cell. rewrite Hpc.
  set (pc := scrubDefragInt16 buf0 (nPrefix + szHdr + i * 2)) in *.
  destruct (pc <=? szHdr); [split; assumption|].
  destruct (_ <? pc); [split; assumption|].
  rewrite (Hinv nPrefix) by lia.
  destruct (is_interior (peek buf0 nPrefix)) eqn:Ekind.
  - destruct (_ <? _); [split; assumption|].
    pose proof (szUsable_frame_upd pgno
      (fun b => scrubDefragWriteInt32 b pc
         (iDestPageNo (scrubDefragIncDestPageNo p)))
      (scrubDefragIncDestPageNo p) a) as Hu.
    pose proof (frame_buf_upd pgno
      (fun b => scrubDefragWriteInt32 b pc
         (iDestPageNo (scrubDefragIncDestPageNo p)))
      (scrubDefragIncDestPageNo p) a) as Hb.
    destruct (frame_upd pgno _ (scrubDefragIncDestPageNo p) a) as [q b].
    simpl in Hu, Hb. rewrite szUsable_inc in Hu.
    rewrite (frame_buf_state pgno p _ a (page1_inc p)) in Hb.
    destruct (child_frame eq_refl q
                (scrubDefragInt32 (frame_buf pgno p a) pc) b) as [Hcu Hcb].
    assert (Hinv' : forall k, 0 <= k < x ->
      peek (frame_buf pgno
              (child q (scrubDefragInt32 (frame_buf pgno p a) pc)) b) k
      = peek buf0 k).
    { intros k Hk. rewrite Hcb, Hb.
      rewrite peek_scrubDefragWriteInt32_out by lia. apply Hinv. exact Hk. }
    destruct (_ =? 5); simpl.
    + split; [congruence | exact Hinv'].
    + rewrite (u32_small (pc + 4)) by lia. split.
      * rewrite btree_payload_szUsable. congruence.
      * intros k Hk. rewrite btree_payload_frame; [apply Hinv'; exact Hk | | |];
          [rewrite Hcu, Hu, HpU; exact U_legal | lia | lia].
  - split.
    + rewrite btree_payload_szUsable. exact HpU.
    + intros k Hk. rewrite btree_payload_frame; [apply Hinv; exact Hk | | |];
        [rewrite HpU; exact U_legal | lia | lia].
Qed.

(** The loop over the cells leaves the bytes below [x] as they are when
    every cell pointer is at least [x]. *)
Lemma btree_cells_frame (n : nat) (i : Z) (p : ScrubDefragState)
    (a : list byte) :
  szUsable p = U ->
  (forall k, 0 <= k < x -> peek (frame_buf pgno p a) k = peek buf0 k) ->
  0 <= i -> nPrefix + szHdr + (i + Z.of_nat n) * 2 <= x ->
  (forall j, i <= j < i + Z.of_nat n ->
             x <= scrubDefragInt16 buf0 (nPrefix + szHdr + j * 2)) ->
  let r := scan_val (btree_cells env child pgno nPrefix szHdr n i p a) in
  szUsable (fst r) = U
  /\ forall k, 0 <= k < x -> peek (frame_buf pgno (fst r) (snd r)) k = peek buf0 k.
Proof.
  revert i p a. induction n as [|n IH]; intros i p a HpU Hinv Hi Hoff Hptr;
    simpl; [split; assumption|].
  destruct (btree_cell_frame i p a HpU Hinv Hi ltac:(lia)
              (Hptr i ltac:(lia))) as [Hu' Hinv'].
  destruct (btree_cell env child pgno nPrefix szHdr i p a) as [[q b]|ln [q b]];
    simpl in Hu', Hinv'; [|split; assumption].
  assert (Hx : x <= 65536).
  { pose proof (scrubDefragInt16_range buf0 (nPrefix + szHdr + i * 2)).
    specialize (Hptr i ltac:(lia)). lia. }
  rewrite (u32_small (i + 1)) by lia.
  apply IH; try assumption; try lia.
  intros j Hj. apply Hptr. lia.
Qed.

(** The walk of the right-most tree changes at most the four bytes of the
    right-child pointer in the header of an interior page. *)
Lemma btree_rightmost_frame (p : ScrubDefragState) (a : list byte) :
  (forall k, 0 <= k < x -> peek (frame_buf pgno p a) k = peek buf0 k) ->
  let r := btree_rightmost child pgno nPrefix p a in
  forall k, 0 <= k < x ->
            nPrefix + 12 <= k \/ is_interior (peek buf0 nPrefix) = false ->
            peek (frame_buf pgno (fst r) (snd r)) k = peek buf0 k.
Proof.
  intros Hinv. unfold btree_rightmost. rewrite (Hinv nPrefix) by lia.
  destruct (is_interior (peek buf0 nPrefix)) eqn:Ekind;
    [|intros k Hk _; apply Hinv; lia].
  pose proof (frame_buf_upd pgno
    (fun b => scrubDefragWriteInt32 b (nPrefix + 8)
       (iDestPageNo (scrubDefragIncDestPageNo p)))
    (scrubDefragIncDestPageNo p) a) as Hb.
  destruct (frame_upd pgno _ (scrubDefragIncDestPageNo p) a) as [q b].
  simpl in Hb |- *. intros k Hk [Hk'|Hk']; [|discriminate].
  rewrite (proj2 (child_frame eq_refl q _ b)), Hb.
  rewrite peek_scrubDefragWriteInt32_out by lia.
  rewrite (frame_buf_state pgno p _ a (page1_inc p)). apply Hinv. lia.
Qed.

End CellFrame.

(** The page that a successful call writes has a gap of zeros, when the
    usable size is legal, the cell pointers of the page point into the cell
    content area, and the page is not an interior page held in the buffer of
    page 1. *)
Lemma gap_zero_in_written_page (env : Env) (fuel : nat)
    (p : ScrubDefragState) (pgno iDepth : Z) (bRoot : bool) (a : list byte) :
  rcErr p = 0 ->
  rcErr (scrubDefragBtree_fuel env (S fuel) p pgno iDepth bRoot) = 0 ->
  btree_loads env p pgno a ->
  257 <= szUsable p <= 65536 ->
  pgno <> 1 \/ is_interior (peek a (btree_nPrefix pgno)) = false ->
  (forall j, 0 <= j < scrubDefragInt16 a (btree_nPrefix pgno + 3) ->
     cell_start pgno a
     <= scrubDefragInt16 a
          (btree_nPrefix pgno + btree_szHdr a (btree_nPrefix pgno) + j * 2)) ->
  exists w rest,
    destFile (scrubDefragBtree_fuel env (S fuel) p pgno iDepth bRoot)
    = (iDestPageNo p, w) :: rest
    /\ forall k, gap_start pgno a <= k < cell_start pgno a -> peek w k = 0.
Proof.
  intros H0 Hok Hl HU Hkind Hptr.
  destruct (scrubDefragBtree_fuel_trace env fuel p pgno iDepth bRoot H0 Hok)
    as (a0 & a' & q & q1 & b1 & q2 & b2 & q3 & b3
        & Hl0 & Hu & Hh & Ef & Ec & Er & Hres & Hw & _).
  assert (a0 = a).
  { unfold btree_loads in *. destruct (pgno =? 1); congruence. }
  subst a0.
  pose proof (btree_header_good _ _ _ _ Hh) as Hgood.
  pose proof (gap_start_range pgno a) as Hg.
  assert (HnP : 0 <= btree_nPrefix pgno)
    by (unfold btree_nPrefix; destruct (pgno =? 1); lia).
  assert (Hsz : 8 <= btree_szHdr a (btree_nPrefix pgno) <= 12
                /\ (is_interior (peek a (btree_nPrefix pgno)) = true ->
                    btree_szHdr a (btree_nPrefix pgno) = 12)).
  { unfold btree_szHdr, is_interior.
    destruct (peek a (btree_nPrefix pgno) =? 2);
      destruct (peek a (btree_nPrefix pgno) =? 5); simpl;
      split; try lia; try reflexivity; discriminate. }
  pose proof (scrubDefragInt16_range a (btree_nPrefix pgno + 3)) as HnCell.
  assert (Hframe : forall k,
    0 <= k < gap_start pgno a -> peek a' k = peek a k).
  { intros k Hk. pose proof (btree_header_frame (szUsable p) pgno a k
                               ltac:(left; exact Hk)) as Hf.
    rewrite Hh in Hf. exact Hf. }
  assert (Hgs : gap_start pgno a
                = btree_nPrefix pgno + btree_szHdr a (btree_nPrefix pgno)
                  + 2 * scrubDefragInt16 a (btree_nPrefix pgno + 3))
    by reflexivity.
  assert (Hkind' : peek a' (btree_nPrefix pgno) = peek a (btree_nPrefix pgno))
    by (apply Hframe; lia).
  assert (Hchild : is_interior (peek a' (btree_nPrefix pgno)) = true ->
    forall q0 iChild b,
      szUsable (scrubDefragBtree_fuel env fuel q0 iChild (iDepth + 1) false)
      = szUsable q0
      /\ frame_buf pgno
           (scrubDefragBtree_fuel env fuel q0 iChild (iDepth + 1) false) b
         = frame_buf pgno q0 b).
  { rewrite Hkind'. intros Hint q0 iChild b.
    split; [apply scrubDefragBtree_fuel_szUsable|].
    destruct Hkind as [Hne|Hleaf]; [|congruence].
    unfold frame_buf. rewrite (proj2 (Z.eqb_neq pgno 1) Hne). reflexivity. }
  pose proof (frame_buf_upd pgno (fun _ => a') q a') as Hb1.
  pose proof (szUsable_frame_upd pgno (fun _ => a') q a') as Hu1.
  rewrite Ef in Hb1, Hu1. simpl in Hb1, Hu1.
  destruct (btree_cells_frame env _ pgno (btree_nPrefix pgno)
              (btree_szHdr a (btree_nPrefix pgno)) (cell_start pgno a)
              (szUsable p) a' HU ltac:(lia) ltac:(lia) Hchild
              (Z.to_nat (scrubDefragInt16 a (btree_nPrefix pgno + 3))) 0
              q1 b1) as [Hu2 Hinv2].
  - congruence.
  - intros k Hk. rewrite Hb1. reflexivity.
  - lia.
  - rewrite Z2Nat.id by lia. lia.
  - intros j Hj. rewrite Z2Nat.id in Hj by lia.
    rewrite (scrubDefragInt16_agree a' a) by (apply Hframe; lia).
    apply Hptr. lia.
  - rewrite Ec in Hu2, Hinv2. simpl in Hu2, Hinv2.
    pose proof (btree_rightmost_frame _ pgno (btree_nPrefix pgno)
                  (cell_start pgno a) a' ltac:(lia) Hchild q2 b2 Hinv2) as Hr.
    rewrite Er in Hr. simpl in Hr.
    eexists _, _. split; [rewrite Hres, Hw; reflexivity|].
    intros k Hk.
    assert (Hq4 : page1 (if bRoot then scrubDefragIncDestPageNo q3 else q3)
                  = page1 q3) by (destruct bRoot; [apply page1_inc | reflexivity]).
    rewrite (frame_buf_state pgno q3 _ b3 Hq4).
    rewrite Hr.
    + pose proof (btree_header_zeroes_gap (szUsable p) pgno a k Hgood Hk) as Hz.
      rewrite Hh in Hz. exact Hz.
    + lia.
    + destruct (is_interior (peek a' (btree_nPrefix pgno))) eqn:Ei;
        [left | right; reflexivity].
      rewrite Hkind' in Ei. rewrite (proj2 Hsz Ei) in Hgs. lia.
Qed.

(** C4 (amended).  A call of the rewriter that ends without error has zeroed
    the bytes from the end of the cell-pointer array up to the offset
    [cellStart] stored in the page header, counted from the start of the
    page buffer for page 1 as for the other pages, before walking the cells
    and writing the page.  The range is exact: the bytes before it and the
    four bytes at [cellStart] are as they were in the page loaded.  The gap
    is still zero in the page written when the usable size is legal, the cell
    pointers point into the cell content area, and the page is not an
    interior page held in the buffer of page 1. *)
Theorem gap_zeroed_before_write (env : Env) (fuel : nat)
    (p : ScrubDefragState) (pgno iDepth : Z) (bRoot : bool) :
  rcErr p = 0 ->
  rcErr (scrubDefragBtree_fuel env (S fuel) p pgno iDepth bRoot) = 0 ->
  exists a a',
    btree_loads env p pgno a
    /\ btree_header (szUsable p) pgno a = Good a'
    /\ length a' = length a
    /\ (forall i, gap_start pgno a <= i < cell_start pgno a -> peek a' i = 0)
    /\ (forall i, 0 <= i < gap_start pgno a
                  \/ cell_start pgno a <= i < cell_start pgno a + 4 ->
                  peek a' i = peek a i)
    /\ (257 <= szUsable p <= 65536 ->
        pgno <> 1 \/ is_interior (peek a (btree_nPrefix pgno)) = false ->
        (forall j, 0 <= j < scrubDefragInt16 a (btree_nPrefix pgno + 3) ->
           cell_start pgno a
           <= scrubDefragInt16 a
                (btree_nPrefix pgno + btree_szHdr a (btree_nPrefix pgno)
                 + j * 2)) ->
        exists w rest,
          destFile (scrubDefragBtree_fuel env (S fuel) p pgno iDepth bRoot)
          = (iDestPageNo p, w) :: rest
          /\ forall k, gap_start pgno a <= k < cell_start pgno a ->
                       peek w k = 0).
Proof.
  intros H0 Hok.
  destruct (scrubDefragBtree_fuel_success env fuel p pgno iDepth bRoot H0 Hok)
    as (a & a' & q & w & Hl & Hh & _).
  exists a, a'. split; [exact Hl|]. split; [exact Hh|].
  split; [|split; [|split]].
  - pose proof (length_btree_header (szUsable p) pgno a) as Hlen.
    rewrite Hh in Hlen. exact Hlen.
  - intros i Hi.
    pose proof (btree_header_zeroes_gap (szUsable p) pgno a i
                  (btree_header_good _ _ _ _ Hh) Hi) as Hz.
    rewrite Hh in Hz. exact Hz.
  - intros i Hi.
    pose proof (btree_header_frame (szUsable p) pgno a i Hi) as Hf.
    rewrite Hh in Hf. exact Hf.
  - intros HU Hkind Hptr.
    exact (gap_zero_in_written_page env fuel p pgno iDepth bRoot a
             H0 Hok Hl HU Hkind Hptr).
Qed.

(** From here on the rewriter is unfolded only through the two lemmas
    above. *)
Opaque scrubDefragBtree_fuel.

(** ** The length of the page buffers *)

(** The rewriter changes bytes of its buffers in place: neither page 1 in
    memory nor the buffer of a call ever changes its length. *)
Lemma frame_upd_lengths (pgno : Z) (f : list byte -> list byte)
    (n1 n : nat) (p : ScrubDefragState) (a : list byte) :
  (forall b, length (f b) = length b) ->
  frame_lengths n1 n (p, a) -> frame_lengths n1 n (frame_upd pgno f p a).
Proof.
  intros Hf [H1 H2]. unfold frame_upd, frame_lengths in *.
  destruct (pgno =? 1); simpl in *; rewrite ?Hf; split; assumption.
Qed.

Lemma btree_payload_lengths (env : Env) (pgno nPrefix pc : Z) (n1 n : nat)
    (p : ScrubDefragState) (a : list byte) :
  frame_lengths n1 n (p, a) ->
  frame_lengths n1 n (scan_val (btree_payload env pgno nPrefix pc p a)).
Proof.
  intros H. unfold btree_payload.
  destruct (payload_plan _ _ _ _) as [| |ptr iChild nByte]; try exact H.
  pose proof (frame_upd_lengths pgno
    (fun b => scrubDefragWriteInt32 b ptr
       (iDestPageNo (scrubDefragIncDestPageNo p)))
    n1 n (scrubDefragIncDestPageNo p) a
    (fun b => length_scrubDefragWriteInt32 b _ _)) as Hu.
  destruct (frame_upd pgno _ (scrubDefragIncDestPageNo p) a) as [q b].
  unfold frame_lengths in *. simpl in *.
  rewrite (proj2 (scrubDefragOverflow_fields env q iChild nByte)).
  apply Hu. rewrite page1_inc. exact H.
Qed.

Section ChildLengths.

Variable env : Env.
Variable child : ScrubDefragState -> Z -> ScrubDefragState.
Variables pgno nPrefix : Z.
Variables n1 n : nat.

Hypothesis child_length :
  forall q iChild, length (page1 (child q iChild)) = length (page1 q).

Lemma btree_cell_lengths (szHdr i : Z) (p : ScrubDefragState)
    (a : list byte) :
  frame_lengths n1 n (p, a) ->
  frame_lengths n1 n (scan_val (btree_cell env child pgno nPrefix szHdr i p a)).
Proof.
  intros H. unfold btree_cell.
  destruct (_ <=? szHdr); [exact H|].
  destruct (_ <? _); [exact H|].
  destruct (is_interior _); [|apply btree_payload_lengths; exact H].
  destruct (_ <? _); [exact H|].
  set (pc := scrubDefragInt16 (frame_buf pgno p a) _).
  pose proof (frame_upd_lengths pgno
    (fun b => scrubDefragWriteInt32 b pc
       (iDestPageNo (scrubDefragIncDestPageNo p)))
    n1 n (scrubDefragIncDestPageNo p) a
    (fun b => length_scrubDefragWriteInt32 b _ _)) as Hu.
  destruct (frame_upd pgno _ (scrubDefragIncDestPageNo p) a) as [q b].
  assert (Hc : frame_lengths n1 n
                 (child q (scrubDefragInt32 (frame_buf pgno p a) pc), b)).
  { unfold frame_lengths in *. simpl in *. rewrite child_length.
    apply Hu. rewrite page1_inc. exact H. }
  destruct (_ =? 5); [exact Hc | apply btree_payload_lengths; exact Hc].
Qed.

Lemma btree_cells_lengths (szHdr : Z) (k : nat) (i : Z)
    (p : ScrubDefragState) (a : list byte) :
  frame_lengths n1 n (p, a) ->
  frame_lengths n1 n
    (scan_val (btree_cells env child pgno nPrefix szHdr k i p a)).
Proof.
  revert i p a. induction k as [|k IH]; intros i p a H; simpl; [exact H|].
  pose proof (btree_cell_lengths szHdr i p a H) as Hc.
  destruct (btree_cell env child pgno nPrefix szHdr i p a)
    as [[q b]|ln [q b]]; simpl in Hc; [apply IH; exact Hc | exact Hc].
Qed.

Lemma btree_rightmost_lengths (p : ScrubDefragState) (a : list byte) :
  frame_lengths n1 n (p, a) ->
  frame_lengths n1 n (btree_rightmost child pgno nPrefix p a).
Proof.
  intros H. unfold btree_rightmost.
  destruct (is_interior _); [|exact H].
  pose proof (frame_upd_lengths pgno
    (fun b => scrubDefragWriteInt32 b (nPrefix + 8)
       (iDestPageNo (scrubDefragIncDestPageNo p)))
    n1 n (scrubDefragIncDestPageNo p) a
    (fun b => length_scrubDefragWriteInt32 b _ _)) as Hu.
  destruct (frame_upd pgno _ (scrubDefragIncDestPageNo p) a) as [q b].
  unfold frame_lengths in *. simpl in *. rewrite child_length.
  apply Hu. rewrite page1_inc. exact H.
Qed.

End ChildLengths.

(** A call of the rewriter leaves page 1 in memory with the length it had. *)
Lemma scrubDefragBtree_fuel_page1_length (env : Env) (fuel : nat)
    (p : ScrubDefragState) (pgno iDepth : Z) (bRoot : bool) :
  length (page1 (scrubDefragBtree_fuel env fuel p pgno iDepth bRoot))
  = length (page1 p).
Proof.
  revert p pgno iDepth bRoot.
  induction fuel as [|fuel IH]; intros p pgno iDepth bRoot.
  - rewrite scrubDefragBtree_fuel_zero.
    destruct (negb _); [reflexivity|].
    destruct (_ <? _); [rewrite page1_scrubDefragErr|]; reflexivity.
  - rewrite scrubDefragBtree_fuel_unfold.
    destruct (negb _); [reflexivity|].
    destruct (_ <? _); [rewrite page1_scrubDefragErr; reflexivity|]. cbv zeta.
    assert (Hload : forall q a,
      (if pgno =? 1 then (p, Some (page1 p))
       else scrubDefragRead env p pgno false) = (q, a) ->
      page1 q = page1 p /\ (pgno = 1 -> a = Some (page1 p))).
    { intros q a. destruct (Z.eqb_spec pgno 1).
      - intros E. injection E as <- <-. split; reflexivity.
      - intros E. split; [|contradiction].
        pose proof (proj2 (scrubDefragRead_fields env p pgno false)) as Hr.
        rewrite E in Hr. exact Hr. }
    destruct (if pgno =? 1 then _ else _) as [q [a|]] eqn:El;
      destruct (Hload _ _ eq_refl) as [Hq Ha]; [|congruence].
    pose proof (length_btree_header (szUsable q) pgno a) as Hlen.
    assert (Hframe : forall a',
      length a' = length a ->
      frame_lengths (length (page1 p)) (length a)
        (frame_upd pgno (fun _ => a') q a')).
    { intros a' Ha'. unfold frame_upd, frame_lengths.
      destruct (Z.eqb_spec pgno 1) as [E1|E1]; simpl.
      - specialize (Ha E1). injection Ha as ->. split; assumption.
      - split; congruence. }
    destruct (btree_header (szUsable q) pgno a) as [a'|ln a'];
      simpl in Hlen; specialize (Hframe a' Hlen);
      destruct (frame_upd pgno _ q a') as [q1 b1].
    + pose proof (btree_cells_lengths env _ pgno (btree_nPrefix pgno)
                    (length (page1 p)) (length a)
                    (fun s iChild => IH s iChild (iDepth + 1) false)
                    (btree_szHdr a (btree_nPrefix pgno))
                    (Z.to_nat (scrubDefragInt16 a (btree_nPrefix pgno + 3)))
                    0 q1 b1 Hframe) as Hc.
      destruct (btree_cells env _ pgno _ _ _ 0 q1 b1)
        as [[q2 b2]|ln [q2 b2]]; simpl in Hc.
      * pose proof (btree_rightmost_lengths _ pgno (btree_nPrefix pgno)
                      (length (page1 p)) (length a)
                      (fun s iChild => IH s iChild (iDepth + 1) false)
                      q2 b2 Hc) as Hr.
        destruct (btree_rightmost _ pgno _ q2 b2) as [q3 b3].
        rewrite page1_scrubDefragWrite.
        destruct bRoot; rewrite ?page1_inc; apply Hr.
      * rewrite page1_scrubDefragErr. apply Hc.
    + rewrite page1_scrubDefragErr. apply Hframe.
Qed.

(** The steps of a call for a root page that ends without a recorded
    error, with the page as it was loaded. *)
Lemma scrubDefragBtree_fuel_root_trace (env : Env) (fuel : nat)
    (p : ScrubDefragState) (pgno iDepth : Z) :
  rcErr (scrubDefragBtree_fuel env (S fuel) p pgno iDepth true) = 0 ->
  let child := fun s iChild =>
    scrubDefragBtree_fuel env fuel s iChild (iDepth + 1) false in
  exists a a' q q1 b1 q2 b2 q3 b3,
    let w := frame_buf pgno (scrubDefragIncDestPageNo q3) b3 in
    btree_loads env p pgno a
    /\ (if pgno =? 1 then (p, Some (page1 p))
        else scrubDefragRead env p pgno false) = (q, Some a)
    /\ btree_header (szUsable p) pgno a = Good a'
    /\ frame_upd pgno (fun _ => a') q a' = (q1, b1)
    /\ btree_cells env child pgno (btree_nPrefix pgno)
         (btree_szHdr a (btree_nPrefix pgno))
         (Z.to_nat (scrubDefragInt16 a (btree_nPrefix pgno + 3))) 0 q1 b1
       = Good (q2, b2)
    /\ btree_rightmost child pgno (btree_nPrefix pgno) q2 b2 = (q3, b3)
    /\ scrubDefragBtree_fuel env (S fuel) p pgno iDepth true
       = scrubDefragWrite env (scrubDefragIncDestPageNo q3) (iDestPageNo p) w
    /\ destFile (scrubDefragBtree_fuel env (S fuel) p pgno iDepth true)
       = (iDestPageNo p, w) :: destFile q3
    /\ length w = length a.
Proof.
  intros Hok child.
  assert (H0 : rcErr p = 0).
  { destruct (Z.eq_dec (rcErr p) 0) as [E|E]; [exact E|].
    rewrite scrubDefragBtree_fuel_sticky in Hok by exact E. contradiction. }
  rewrite scrubDefragBtree_fuel_unfold in *.
  rewrite H0 in *. simpl negb in *. cbv iota in *.
  destruct (50 <? iDepth);
    [exfalso; exact (rcErr_scrubDefragErr _ _ Hok)|].
  cbv zeta in Hok |- *. fold child in Hok |- *.
  assert (Hload : exists q a,
    (if pgno =? 1 then (p, Some (page1 p))
     else scrubDefragRead env p pgno false) = (q, Some a)
    /\ btree_loads env p pgno a /\ szUsable q = szUsable p
    /\ page1 q = page1 p).
  { unfold btree_loads. destruct (pgno =? 1).
    - exists p, (page1 p). repeat split; reflexivity.
    - destruct (scrubDefragRead_cases env p pgno false H0)
        as [(q & a & E & Hx & _ & Hu & _ & _ & H1 & _) | (q & E & Hq)].
      + exists q, a. rewrite E. repeat split; assumption.
      + rewrite E in Hok. contradiction. }
  destruct Hload as (q & a & E & Hl & Hu & H1). rewrite E in *.
  rewrite Hu in *.
  pose proof (length_btree_header (szUsable p) pgno a) as Hlen.
  destruct (btree_header (szUsable p) pgno a) as [a'|ln a'] eqn:Eh.
  2:{ destruct (frame_upd pgno _ q a') as [q1 b1].
      exfalso. exact (rcErr_scrubDefragErr _ _ Hok). }
  simpl in Hlen.
  assert (Hframe : frame_lengths (length (page1 p)) (length a)
                     (frame_upd pgno (fun _ => a') q a')).
  { unfold frame_upd, frame_lengths. unfold btree_loads in Hl.
    destruct (pgno =? 1); simpl; split; congruence. }
  destruct (frame_upd pgno _ q a') as [q1 b1] eqn:Ef.
  pose proof (btree_cells_lengths env child pgno (btree_nPrefix pgno)
                _ _
                (fun s iChild => scrubDefragBtree_fuel_page1_length
                                   env fuel s iChild (iDepth + 1) false)
                (btree_szHdr a (btree_nPrefix pgno))
                (Z.to_nat (scrubDefragInt16 a (btree_nPrefix pgno + 3)))
                0 q1 b1 Hframe) as Hc.
  destruct (btree_cells _ _ _ _ _ _ _ q1 b1) as [[q2 b2]|ln [q2 b2]] eqn:Ec.
  2:{ exfalso. exact (rcErr_scrubDefragErr _ _ Hok). }
  simpl in Hc.
  pose proof (btree_rightmost_lengths child pgno (btree_nPrefix pgno)
                _ _
                (fun s iChild => scrubDefragBtree_fuel_page1_length
                                   env fuel s iChild (iDepth + 1) false)
                q2 b2 Hc) as Hr.
  destruct (btree_rightmost _ _ _ q2 b2) as [q3 b3] eqn:Er.
  exists a, a', q, q1, b1, q2, b2, q3, b3. cbv zeta.
  set (w := frame_buf pgno (scrubDefragIncDestPageNo q3) b3) in *.
  assert (H4 : rcErr (scrubDefragIncDestPageNo q3) = 0).
  { destruct (Z.eq_dec (rcErr (scrubDefragIncDestPageNo q3)) 0)
      as [H4|H4]; [exact H4|]. exfalso. apply H4.
    unfold scrubDefragWrite in Hok.
    destruct (Z.eqb_spec (rcErr (scrubDefragIncDestPageNo q3)) 0);
      [contradiction | exact Hok]. }
  destruct (scrubDefragWrite_cases env (scrubDefragIncDestPageNo q3)
              (iDestPageNo p) w H4) as [[Hw _]|Hw]; [|contradiction].
  repeat (split; [assumption || reflexivity|]).
  split.
  - rewrite Hw. simpl. f_equal.
    unfold scrubDefragIncDestPageNo. simpl.
    destruct (u32 (iDestPageNo q3 + 1) =? iLock q3); reflexivity.
  - subst w. unfold frame_lengths, frame_buf in *. simpl in Hr.
    rewrite page1_inc. destruct (pgno =? 1) eqn:E1.
    + rewrite (proj1 Hr). unfold btree_loads in Hl. rewrite E1 in Hl.
      congruence.
    + exact (proj2 Hr).
Qed.

(** A call for a root page that ends without error has advanced the
    allocator once more and then written the page at the number that the
    allocator showed on entry. *)
Lemma root_call_writes_at_entry_number (env : Env) (fuel : nat)
    (p : ScrubDefragState) (pgno iDepth : Z) :
  rcErr (scrubDefragBtree_fuel env (S fuel) p pgno iDepth true) = 0 ->
  exists q w,
    scrubDefragBtree_fuel env (S fuel) p pgno iDepth true
    = scrubDefragWrite env (scrubDefragIncDestPageNo q) (iDestPageNo p) w
    /\ destFile (scrubDefragBtree_fuel env (S fuel) p pgno iDepth true)
       = (iDestPageNo p, w) :: destFile (scrubDefragIncDestPageNo q).
Proof.
  intros Hok.
  assert (H0 : rcErr p = 0).
  { destruct (Z.eq_dec (rcErr p) 0) as [E|E]; [exact E|].
    rewrite scrubDefragBtree_fuel_sticky in Hok by exact E. contradiction. }
  destruct (scrubDefragBtree_fuel_success env fuel p pgno iDepth true H0 Hok)
    as (a & a' & q0 & w & _ & _ & Hres & Hw & _).
  exists q0, w. split; [exact Hres | rewrite Hres, Hw; reflexivity].
Qed.

Lemma fst_relocate_row (env : Env) (s : ScrubDefragState)
    (zSql : list RootUpdate) (r : CatalogRow) :
  fst (relocate_row env s zSql r)
  = scrubDefragBtree_fuel env btree_depth_fuel s (u32 (s32 (row_root r))) 0 true.
Proof. reflexivity. Qed.

(** C1.  In every iteration of the loop over the roots of the catalog, the
    number [newRoot] put into the script is the value of the allocator
    before the call of the rewriter for [oldRoot], and a call that ends
    without error has loaded the page of number [oldRoot], rewritten it in
    its buffer, advanced the allocator once more and then written that
    buffer, which has the length of the page loaded, at [newRoot], as the
    newest entry of the destination.  The same holds for any call with
    [bRoot] set, the one for page 1 included. *)
Theorem root_number_matches_catalog (env : Env) (s : ScrubDefragState)
    (zSql : list RootUpdate) (pre post : list CatalogRow) (r : CatalogRow) :
  let s1 := fst (relocate_rows env s zSql pre) in
  let z1 := snd (relocate_rows env s zSql pre) in
  let s2 := fst (relocate_row env s1 z1 r) in
  let z2 := snd (relocate_row env s1 z1 r) in
  let oldRoot := u32 (s32 (row_root r)) in
  relocate_rows env s zSql (pre ++ r :: post) = relocate_rows env s2 z2 post
  /\ (exists u, z2 = z1 ++ [u] /\ upd_newRoot u = iDestPageNo s1
                /\ update_key u = row_key r)
  /\ s2 = scrubDefragBtree env s1 oldRoot 0 true
  /\ (rcErr s2 = 0 -> root_page_copied env s1 oldRoot s2)
  /\ (forall (p : ScrubDefragState) (pgno : Z),
        rcErr (scrubDefragBtree env p pgno 0 true) = 0 ->
        root_page_copied env p pgno (scrubDefragBtree env p pgno 0 true)).
Proof.
  intros s1 z1 s2 z2 oldRoot.
  assert (Hroot : forall (p : ScrubDefragState) (pgno : Z),
    rcErr (scrubDefragBtree env p pgno 0 true) = 0 ->
    root_page_copied env p pgno (scrubDefragBtree env p pgno 0 true)).
  { intros p pgno Hok. unfold scrubDefragBtree in *.
    exact (scrubDefragBtree_fuel_root_trace env 51 p pgno 0 Hok). }
  split; [|split; [|split; [|split]]].
  - subst s1 z1 s2 z2. rewrite relocate_rows_app.
    generalize (relocate_rows env s zSql pre). intros [t1 y1].
    reflexivity.
  - subst z2. unfold relocate_row. simpl snd. eexists.
    split; [reflexivity|]. split; reflexivity.
  - reflexivity.
  - apply Hroot.
  - exact Hroot.
Qed.

(** ** The statements on the small database *)

(** The copy of the small database: page 1 is written at 1, the root of the
    table at 2 and its two overflow pages at 3 and 4; the script binds the
    table to root page 2 and the run returns 0. *)
Example small_database_run :
  let out := sqlite3_scrub_and_defrag db_env in
  out_rc out = 0
  /\ out_zErr out = None
  /\ out_script out = Some [mkUpdate 2 2 "t" "table"]
  /\ map fst (destFile (out_state out)) = [2; 4; 3; 1]
  /\ nDestPage (out_state out) = 4
  /\ iDestPageNo (out_state out) = 5.
Proof. vm_compute. repeat split; reflexivity. Qed.

Lemma fix_header_frame_witness :
  scrubDefragInt32 (page1 db_state0) 36 = 1
  /\ scrubDefragInt32 (page1 (fix_header db_state0)) 36 = 0.
Proof.
  split; [reflexivity|].
  assert (H : (56 <= length (page1 db_state0))%nat) by (vm_compute; lia).
  pose proof (fix_header_frame db_state0 H) as T. cbv zeta in T.
  exact (proj1 (proj2 (proj2 T))).
Defined.


Lemma payload_overflow_rule_witness :
  payload_plan 512 13 db_page2 400 = PlanOverflow 442 3 961.
Proof.
  assert (H1 : 257 <= szUsable (fix_header db_state0) <= 65536)
    by (vm_compute; split; congruence).
  assert (H2 : peek db_page2 0 = 2 \/ peek db_page2 0 = 10
               \/ peek db_page2 0 = 13) by (right; right; reflexivity).
  assert (H3 : 0 <= 400 < 2 ^ 31) by lia.
  pose proof (payload_overflow_rule db_env 2 0 (fix_header db_state0)
                db_page2 400 H1 H2 H3) as T.
  cbv zeta in T.
  destruct T as (_ & _ & _ & _ & _ & T).
  refine (proj1 (T _ _ _)); vm_compute; try split; congruence.
Defined.

Lemma overflow_tail_zeroed_witness :
  exists pg w rest,
    destFile (scrubDefragOverflow db_env
                (set_iDestPageNo 3 (fix_header db_state0)) 3 961)
    = (pg, w) :: rest
    /\ scrubDefragInt32 w 0 = 0
    /\ forall i, 4 + 453 <= i < 512 -> peek w i = 0.
Proof.
  assert (H0 : rcErr (set_iDestPageNo 3 (fix_header db_state0)) = 0)
    by reflexivity.
  assert (HU : 4 < szUsable (set_iDestPageNo 3 (fix_header db_state0))
               <= 65536) by (vm_compute; split; congruence).
  assert (Hn : 0 <= 961 < 2 ^ 32) by lia.
  assert (Hok : rcErr (scrubDefragOverflow db_env
                         (set_iDestPageNo 3 (fix_header db_state0)) 3 961)
                = 0) by reflexivity.
  destruct (overflow_tail_zeroed db_env _ 3 961 H0 HU Hn Hok)
    as (news & Ed & _ & _ & Hchain).
  destruct (Hchain 453) as (pg & w & rest & En & Hnext & Hz).
  - apply (chain_link db_env 512 3 961 453 db_page3).
    + discriminate.
    + reflexivity.
    + reflexivity.
    + vm_compute. discriminate.
    + apply (chain_last db_env 512 4 453 db_page4).
      * discriminate.
      * reflexivity.
      * vm_compute. split; congruence.
      * reflexivity.
  - exists pg, w, (rest ++ destFile (set_iDestPageNo 3 (fix_header db_state0))).
    rewrite Ed, En. split; [reflexivity|]. split; [exact Hnext | exact Hz].
Defined.

Lemma gap_zeroed_before_write_witness :
  exists w rest,
    destFile (scrubDefragBtree_fuel db_env 52 db_state1 2 0 true)
    = (iDestPageNo db_state1, w) :: rest
    /\ forall k, gap_start 2 db_page2 <= k < cell_start 2 db_page2 ->
                 peek w k = 0.
Proof.
  assert (H0 : rcErr db_state1 = 0) by (vm_compute; reflexivity).
  assert (Hok : rcErr (scrubDefragBtree_fuel db_env 52 db_state1 2 0 true) = 0)
    by (vm_compute; reflexivity).
  destruct (gap_zeroed_before_write db_env 51 db_state1 2 0 true H0 Hok)
    as (a & a' & Hl & _ & _ & _ & _ & He).
  change (xRead db_env 2 = Some a) in Hl.
  change (xRead db_env 2) with (Some db_page2) in Hl.
  injection Hl as <-.
  apply He.
  - vm_compute. split; congruence.
  - left. discriminate.
  - intros j Hj.
    assert (E : scrubDefragInt16 db_page2 (btree_nPrefix 2 + 3) = 1)
      by (vm_compute; reflexivity).
    rewrite E in Hj. assert (j = 0) by lia. subst j.
    vm_compute. congruence.
Defined.

Lemma root_number_matches_catalog_witness :
  iDestPageNo db_state1 = 2
  /\ root_page_copied db_env db_state1 (u32 (s32 (row_root db_row)))
       (fst (relocate_row db_env db_state1 [] db_row)).
Proof.
  split; [vm_compute; reflexivity|].
  pose proof (root_number_matches_catalog db_env db_state1 [] [] [] db_row) as T.
  cbv zeta in T. cbn [relocate_rows fst snd] in T.
  destruct T as (_ & _ & _ & T & _).
  apply T. vm_compute. reflexivity.
Defined.


(** C5 as stated fails for a payload size of [2^32] or more: the cell of
    [wide_page2] declares [P = 2^32 + 1000] bytes, of which 39 are local, and
    the rewriter plans the copy of 961 bytes, not of [P - 39]; the run ends
    without error after copying the two pages that 961 bytes take. *)
Lemma payload_byte_count_truncated :
  let P := snd (scrubDefragVarint wide_page2 400) in
  let nLocal := Thresholds.nLocal 13 512 P in
  P = 2 ^ 32 + 1000
  /\ Thresholds.X 13 512 < P
  /\ nLocal = 39
  /\ payload_plan 512 13 wide_page2 400 = PlanOverflow 445 3 961
  /\ payload_plan 512 13 wide_page2 400
     <> PlanOverflow 445 3 (P - nLocal)
  /\ out_rc (sqlite3_scrub_and_defrag wide_env) = 0
  /\ out_zErr (sqlite3_scrub_and_defrag wide_env) = None
  /\ map fst (destFile (out_state (sqlite3_scrub_and_defrag wide_env)))
     = [2; 4; 3; 1].
Proof.
  cbv zeta.
  assert (HP : snd (scrubDefragVarint wide_page2 400) = 2 ^ 32 + 1000)
    by (vm_compute; reflexivity).
  rewrite HP.
  assert (Hplan : payload_plan 512 13 wide_page2 400 = PlanOverflow 445 3 961)
    by (vm_compute; reflexivity).
  split; [reflexivity|]. split; [vm_compute; reflexivity|].
  split; [vm_compute; reflexivity|]. split; [exact Hplan|].
  split; [rewrite Hplan; vm_compute; discriminate|].
  vm_compute. repeat split; reflexivity.
Qed.

(** C7 as stated fails when the chain of the source is longer than the
    payload requires: the 461 bytes that the cell of [short_page2] leaves
    for its chain fit into page 3, whose next-page field names page 4.  The
    copy ends without error after one page, which is zero from the end of
    the payload on, and whose next-page field is the number 4 that the
    allocator handed out for a page that is never written. *)
Lemma overflow_next_kept_on_long_chain :
  let p := scrubDefragOverflow db_env (set_iDestPageNo 3 (fix_header db_state0))
             3 461 in
  let out := sqlite3_scrub_and_defrag long_chain_env in
  payload_plan 512 13 short_page2 400 = PlanOverflow 442 3 461
  /\ rcErr p = 0
  /\ map (fun e => (fst e, scrubDefragInt32 (snd e) 0)) (destFile p) = [(3, 4)]
  /\ ~ (exists pg w rest,
          destFile p = (pg, w) :: rest /\ scrubDefragInt32 w 0 = 0)
  /\ out_rc out = 0
  /\ out_zErr out = None
  /\ map (fun e => (fst e, scrubDefragInt32 (snd e) 0))
       (firstn 2 (destFile (out_state out)))
     = [(2, scrubDefragInt32 short_page2 0); (3, 4)]
  /\ nDestPage (out_state out) = 4.
Proof.
  cbv zeta.
  assert (Hd : map (fun e => (fst e, scrubDefragInt32 (snd e) 0))
                 (destFile (scrubDefragOverflow db_env
                    (set_iDestPageNo 3 (fix_header db_state0)) 3 461))
               = [(3, 4)]) by (vm_compute; reflexivity).
  split; [vm_compute; reflexivity|]. split; [vm_compute; reflexivity|].
  split; [exact Hd|]. split.
  - intros (pg & w & rest & E & Hnext). rewrite E in Hd. simpl in Hd.
    injection Hd as _ H4 _. rewrite Hnext in H4. discriminate H4.
  - vm_compute. repeat split; reflexivity.
Qed.

(** C4 as stated fails on page 1: the range that ends at
    [nPrefix + cellStart] reaches into the cell content area, which the
    rewriter leaves alone; the byte at offset 400 of page 1, the first byte
    of its cell, is 20 in the page written to the destination. *)
Lemma gap_prose_range_fails :
  destFile (scrubDefragBtree db_env (fix_header db_state0) 1 0 true)
  = [(1, db_page1_written)]
  /\ gap_start 1 db_page1_fixed <= 400 < prose_gap_end 1 db_page1_fixed
  /\ peek db_page1_written 400 = 20
  /\ ~ (forall i,
         gap_start 1 db_page1_fixed <= i < prose_gap_end 1 db_page1_fixed ->
         peek db_page1_written i = 0).
Proof.
  assert (Hin : gap_start 1 db_page1_fixed <= 400
                < prose_gap_end 1 db_page1_fixed)
    by (vm_compute; split; congruence).
  split; [vm_compute; reflexivity|].
  split; [exact Hin|].
  assert (H400 : peek db_page1_written 400 = 20) by (vm_compute; reflexivity).
  split; [exact H400|].
  intros H. specialize (H 400 Hin). rewrite H400 in H. discriminate H.
Qed.

(** ** The error channel *)

(** X21.  With an error recorded, each operation that tests the error code
    on entry returns at once and leaves the state as it is. *)
Lemma error_guards (env : Env) (p : ScrubDefragState) :
  rcErr p <> 0 ->
  scrubDefragAllocPage env p = (p, false)
  /\ (forall pgno hasBuf, scrubDefragRead env p pgno hasBuf = (p, None))
  /\ (forall pgno a, scrubDefragWrite env p pgno a = p)
  /\ (forall rc zSql, scrubDefragPrepare p rc zSql = (p, false))
  /\ (forall zSql zErrText, scrubDefragDbInt env p zSql zErrText = (p, None))
  /\ scrubDefragOpenDest env p = p
  /\ (forall pgno nByte, scrubDefragOverflow env p pgno nByte = p)
  /\ (forall fuel pgno iDepth bRoot,
        scrubDefragBtree_fuel env fuel p pgno iDepth bRoot = p).
Proof.
  intros H.
  assert (E : negb (rcErr p =? 0) = true)
    by (destruct (Z.eqb_spec (rcErr p) 0); [contradiction | reflexivity]).
  unfold scrubDefragAllocPage, scrubDefragRead, scrubDefragWrite,
    scrubDefragPrepare, scrubDefragDbInt, scrubDefragOpenDest,
    scrubDefragOverflow, scrubDefragAllocPage.
  rewrite E. repeat split; try reflexivity.
  intros fuel pgno iDepth bRoot. apply scrubDefragBtree_fuel_sticky. exact H.
Qed.

(** C3 fails on [bad_env].  When the loop reaches root page 2 no error is
    recorded.  The rewriter fails to read child page 9 and records
    [SQLITE_IOERR] with the message of the failed read; the loop over the
    cells goes on, advances the allocator for the second cell, and at the
    third cell replaces the message by that of a corrupt page.  The driver
    then overwrites the error code by the result of [sqlite3_finalize], runs
    the script, and returns 0. *)
Theorem error_lost_on_damaged_root :
  rcErr bad_state1 = 0
  /\ iDestPageNo bad_state1 = 2
  /\ (let first := scrubDefragRead bad_env bad_state1 9 false in
      rcErr (fst first) = SQLITE_IOERR
      /\ zErr (fst first) = Some (ErrReadFailed 9))
  /\ (let s := scrubDefragBtree bad_env bad_state1 2 0 true in
      rcErr s = SQLITE_IOERR
      /\ zErr s = Some (ErrCorruptPage 2 429)
      /\ iDestPageNo s = 4
      /\ destFile s = destFile bad_state1)
  /\ (let out := sqlite3_scrub_and_defrag bad_env in
      out_rc out = 0
      /\ out_zErr out = Some (ErrCorruptPage 2 429)
      /\ out_script out = Some [mkUpdate 2 2 "t" "table"]).
Proof.
  vm_compute. repeat split; reflexivity.
Qed.

(** * Further properties of the code *)

(** ** The 32-bit codec *)

Lemma byte_of_to_Z (b : byte) : byte_of_Z (byte_to_Z b) = b.
Proof.
  unfold byte_of_Z, byte_to_Z.
  pose proof (Byte.to_N_bounded b) as Hb.
  rewrite Z.mod_small by lia. rewrite N2Z.id, Byte.of_to_N. reflexivity.
Qed.

Lemma poke_peek (a : list byte) (i : Z) :
  (Z.to_nat i < length a)%nat -> poke a i (peek a i) = a.
Proof.
  intros H. unfold poke, peek. rewrite byte_of_to_Z.
  apply list_insert_id. apply list_lookup_lookup_total_lt. exact H.
Qed.

(** The four bytes that [scrubDefragWriteInt32] stores are those of the low
    32 bits of the value. *)
Lemma scrubDefragWriteInt32_u32 (a : list byte) (off v : Z) :
  scrubDefragWriteInt32 a off v = scrubDefragWriteInt32 a off (u32 v).
Proof.
  assert (H : forall k, 0 <= k <= 24 ->
    Z.land (Z.shiftr v k) 255 = Z.land (Z.shiftr (u32 v) k) 255).
  { intros k Hk. apply Z.bits_inj'. intros n Hn.
    rewrite !Z.land_spec, !Z.shiftr_spec by lia.
    change 255 with (Z.ones 8).
    destruct (Z.lt_ge_cases n 8) as [Hlt|Hge].
    - unfold u32. rewrite Z.mod_pow2_bits_low by lia. reflexivity.
    - rewrite Z.ones_spec_high by lia. rewrite !andb_false_r. reflexivity. }
  unfold scrubDefragWriteInt32.
  rewrite (H 24), (H 16), (H 8) by lia.
  pose proof (H 0 ltac:(lia)) as H0. rewrite !Z.shiftr_0_r in H0.
  rewrite H0. reflexivity.
Qed.

(** X1.  A 32-bit field written by [scrubDefragWriteInt32] inside the buffer
    reads back, through [scrubDefragInt32], as the low 32 bits of the value
    written; the write keeps the length of the buffer and changes no byte
    outside the four bytes of the field. *)
Theorem int32_write_then_read (a : list byte) (off v : Z) :
  0 <= off -> (Z.to_nat off + 4 <= length a)%nat ->
  scrubDefragInt32 (scrubDefragWriteInt32 a off v) off = u32 v
  /\ length (scrubDefragWriteInt32 a off v) = length a
  /\ forall i, 0 <= i -> i < off \/ off + 4 <= i ->
               peek (scrubDefragWriteInt32 a off v) i = peek a i.
Proof.
  intros Hoff Hlen. split; [|split].
  - rewrite scrubDefragWriteInt32_u32.
    apply scrubDefragInt32_WriteInt32; [exact Hoff | exact Hlen | apply u32_range].
  - apply length_scrubDefragWriteInt32.
  - intros i Hi Hout. apply peek_scrubDefragWriteInt32_out; assumption.
Qed.

Lemma int32_write_then_read_witness :
  scrubDefragInt32 (scrubDefragWriteInt32 db_page3 0 (2 ^ 32 + 7)) 0 = 7.
Proof.
  assert (H0 : 0 <= 0) by lia.
  assert (H1 : (Z.to_nat 0 + 4 <= length db_page3)%nat) by (vm_compute; lia).
  exact (proj1 (int32_write_then_read db_page3 0 (2 ^ 32 + 7) H0 H1)).
Defined.

(** X2.  Storing back the value that [scrubDefragInt32] reads from a field
    inside the buffer leaves the buffer as it was: the big-endian reading
    loses nothing of the four bytes. *)
Theorem int32_read_then_write (a : list byte) (off : Z) :
  0 <= off -> (Z.to_nat off + 4 <= length a)%nat ->
  scrubDefragWriteInt32 a off (scrubDefragInt32 a off) = a.
Proof.
  intros Hoff Hlen. rewrite scrubDefragInt32_spec.
  pose proof (peek_range a off) as H0.
  pose proof (peek_range a (off + 1)) as H1.
  pose proof (peek_range a (off + 2)) as H2.
  pose proof (peek_range a (off + 3)) as H3.
  set (v := peek a off * 2 ^ 24 + peek a (off + 1) * 2 ^ 16
            + peek a (off + 2) * 2 ^ 8 + peek a (off + 3)).
  assert (E0 : Z.land (Z.shiftr v 24) 255 = peek a off).
  { rewrite land_255, Z.shiftr_div_pow2 by lia. subst v.
    change (2 ^ 24) with 16777216. change (2 ^ 16) with 65536.
    change (2 ^ 8) with 256.
    replace (peek a off * 16777216 + peek a (off + 1) * 65536
             + peek a (off + 2) * 256 + peek a (off + 3))
      with ((peek a (off + 1) * 65536 + peek a (off + 2) * 256
             + peek a (off + 3)) + peek a off * 16777216) by lia.
    rewrite Z.div_add by lia. rewrite (Z.div_small (_ + _ + _)) by lia.
    rewrite Z.mod_small; lia. }
  assert (E1 : Z.land (Z.shiftr v 16) 255 = peek a (off + 1)).
  { rewrite land_255, Z.shiftr_div_pow2 by lia. subst v.
    change (2 ^ 24) with 16777216. change (2 ^ 16) with 65536.
    change (2 ^ 8) with 256.
    replace (peek a off * 16777216 + peek a (off + 1) * 65536
             + peek a (off + 2) * 256 + peek a (off + 3))
      with ((peek a (off + 2) * 256 + peek a (off + 3))
            + (peek a off * 256 + peek a (off + 1)) * 65536) by lia.
    rewrite Z.div_add by lia. rewrite (Z.div_small (_ + _)) by lia.
    rewrite Z.add_0_l, Z.add_comm, Z.mod_add by lia.
    apply Z.mod_small. lia. }
  assert (E2 : Z.land (Z.shiftr v 8) 255 = peek a (off + 2)).
  { rewrite land_255, Z.shiftr_div_pow2 by lia. subst v.
    change (2 ^ 24) with 16777216. change (2 ^ 16) with 65536.
    change (2 ^ 8) with 256.
    replace (peek a off * 16777216 + peek a (off + 1) * 65536
             + peek a (off + 2) * 256 + peek a (off + 3))
      with (peek a (off + 3)
            + (peek a off * 65536 + peek a (off + 1) * 256
               + peek a (off + 2)) * 256) by lia.
    rewrite Z.div_add by lia. rewrite (Z.div_small (peek a (off + 3))) by lia.
    rewrite Z.add_0_l.
    replace (peek a off * 65536 + peek a (off + 1) * 256 + peek a (off + 2))
      with (peek a (off + 2) + (peek a off * 256 + peek a (off + 1)) * 256)
      by lia.
    rewrite Z.mod_add by lia. apply Z.mod_small. lia. }
  assert (E3 : Z.land v 255 = peek a (off + 3)).
  { rewrite land_255. subst v.
    change (2 ^ 24) with 16777216. change (2 ^ 16) with 65536.
    change (2 ^ 8) with 256.
    replace (peek a off * 16777216 + peek a (off + 1) * 65536
             + peek a (off + 2) * 256 + peek a (off + 3))
      with (peek a (off + 3)
            + (peek a off * 65536 + peek a (off + 1) * 256
               + peek a (off + 2)) * 256) by lia.
    rewrite Z.mod_add by lia. apply Z.mod_small. lia. }
  unfold scrubDefragWriteInt32. rewrite E0, E1, E2, E3.
  rewrite (poke_peek a off) by lia.
  rewrite (poke_peek a (off + 1)) by lia.
  rewrite (poke_peek a (off + 2)) by lia.
  apply poke_peek. lia.
Qed.

Lemma int32_read_then_write_witness :
  scrubDefragWriteInt32 db_page2 442 3 = db_page2.
Proof.
  assert (H0 : 0 <= 442) by lia.
  assert (H1 : (Z.to_nat 442 + 4 <= length db_page2)%nat) by (vm_compute; lia).
  exact (int32_read_then_write db_page2 442 H0 H1).
Defined.

(** ** The varint decoder *)

Lemma byte_bits (b : byte) :
  (Z.land (byte_to_Z b) 128 =? 0) = (byte_to_Z b <? 128)
  /\ Z.land (byte_to_Z b) 127 = byte_to_Z b mod 128
  /\ Z.land (byte_to_Z b) 255 = byte_to_Z b.
Proof. destruct b; repeat split; reflexivity. Qed.

Lemma peek_bits (z : list byte) (i : Z) :
  (Z.land (peek z i) 128 =? 0) = (peek z i <? 128)
  /\ Z.land (peek z i) 127 = peek z i mod 128
  /\ Z.land (peek z i) 255 = peek z i.
Proof. unfold peek. apply byte_bits. Qed.

Lemma s64_add_l (x y : Z) : s64 (s64 x + y) = s64 (x + y).
Proof.
  unfold s64.
  replace ((x + 2 ^ 63) mod 2 ^ 64 - 2 ^ 63 + y + 2 ^ 63)
    with ((x + 2 ^ 63) mod 2 ^ 64 + y) by lia.
  rewrite Z.add_mod_idemp_l by lia.
  replace (x + 2 ^ 63 + y) with (x + y + 2 ^ 63) by lia. reflexivity.
Qed.

Lemma varint_digits_snoc (k : nat) (z : list byte) (off acc : Z) :
  varint_digits (S k) z off acc
  = varint_digits k z off acc * 128 + peek z (off + Z.of_nat k) mod 128.
Proof.
  revert off acc. induction k as [|k IH]; intros off acc.
  - simpl. rewrite Z.add_0_r. reflexivity.
  - change (varint_digits (S (S k)) z off acc)
      with (varint_digits (S k) z (off + 1) (acc * 128 + peek z off mod 128)).
    rewrite IH. simpl varint_digits.
    replace (off + 1 + Z.of_nat k) with (off + Z.of_nat (S k)) by lia.
    reflexivity.
Qed.

(** What the loop of [scrubDefragVarint] returns from index [i] on, when the
    bytes before [i] all have their continuation bit set and [v] is the
    number that their low seven bits spell. *)
Lemma varint_loop_spec (n : nat) (z : list byte) (off i v : Z) :
  i + Z.of_nat n = 8 -> 0 <= i ->
  v = varint_digits (Z.to_nat i) z off 0 -> 0 <= v < 2 ^ (7 * i) ->
  (forall j, 0 <= j < i -> 128 <= peek z (off + j)) ->
  let cnt := fst (varint_loop n z off i v) in
  let val := snd (varint_loop n z off i v) in
  (cnt <= 8 ->
   i < cnt
   /\ peek z (off + cnt - 1) < 128
   /\ (forall j, 0 <= j < cnt - 1 -> 128 <= peek z (off + j))
   /\ val = varint_digits (Z.to_nat cnt) z off 0
   /\ 0 <= val < 2 ^ (7 * cnt))
  /\ (cnt = 9 ->
      (forall j, 0 <= j < 8 -> 128 <= peek z (off + j))
      /\ val = s64 (varint_digits 8 z off 0 * 256 + peek z (off + 8)))
  /\ (cnt <= 8 \/ cnt = 9).
Proof.
  revert i v. induction n as [|n IH]; intros i v Hsum Hi Hv Hr Hhi; simpl.
  - assert (i = 8) by lia. subst i. split; [lia|]. split; [|right; reflexivity].
    intros _. split; [exact Hhi|].
    rewrite s64_add_l, Z.shiftl_mul_pow2 by lia.
    rewrite (proj2 (proj2 (peek_bits z (off + 8)))). change (2 ^ 8) with 256.
    rewrite Hv. reflexivity.
  - pose proof (peek_range z (off + i)) as Hb.
    assert (Hpow : 2 ^ (7 * (i + 1)) = 128 * 2 ^ (7 * i)).
    { replace (7 * (i + 1)) with (7 + 7 * i) by lia.
      rewrite Z.pow_add_r by lia. reflexivity. }
    assert (Hle : 2 ^ (7 * i) <= 2 ^ 49) by (apply Z.pow_le_mono_r; lia).
    change (2 ^ 49) with 562949953421312 in Hle.
    assert (Hd : 0 <= peek z (off + i) mod 128 < 128)
      by (apply Z.mod_pos_bound; lia).
    assert (Hstep : s64 (s64 (Z.shiftl v 7) + Z.land (peek z (off + i)) 127)
                    = v * 128 + peek z (off + i) mod 128).
    { rewrite s64_add_l, Z.shiftl_mul_pow2 by lia.
      rewrite (proj1 (proj2 (peek_bits z (off + i)))). change (2 ^ 7) with 128.
      apply s64_small. change (2 ^ 63) with 9223372036854775808.
      clear - Hr Hle Hd. generalize dependent (2 ^ (7 * i)).
      generalize dependent (peek z (off + i) mod 128). intros; lia. }
    rewrite Hstep.
    assert (Hv' : v * 128 + peek z (off + i) mod 128
                  = varint_digits (Z.to_nat (i + 1)) z off 0).
    { replace (Z.to_nat (i + 1)) with (S (Z.to_nat i)) by lia.
      rewrite varint_digits_snoc, Z2Nat.id by lia. rewrite <- Hv. reflexivity. }
    rewrite (proj1 (peek_bits z (off + i))).
    destruct (Z.ltb_spec (peek z (off + i)) 128) as [Hlow|Hhigh]; simpl.
    + split; [|split; [intros; exfalso; lia | left; lia]].
      intros _. split; [lia|].
      replace (off + (i + 1) - 1) with (off + i) by lia.
      split; [exact Hlow|].
      split; [intros j Hj; apply Hhi; lia|].
      split; [exact Hv'|]. rewrite Hpow.
      clear - Hr Hle Hd. generalize dependent (2 ^ (7 * i)).
      generalize dependent (peek z (off + i) mod 128). intros; lia.
    + assert (Hhi' : forall j, 0 <= j < i + 1 -> 128 <= peek z (off + j)).
      { intros j Hj. destruct (Z.eq_dec j i) as [->|Hne];
          [exact Hhigh | apply Hhi; lia]. }
      assert (Hr' : 0 <= v * 128 + peek z (off + i) mod 128
                    < 2 ^ (7 * (i + 1))).
      { rewrite Hpow. clear - Hr Hle Hd. generalize dependent (2 ^ (7 * i)).
        generalize dependent (peek z (off + i) mod 128). intros; lia. }
      destruct (IH (i + 1) _ ltac:(lia) ltac:(lia) Hv' Hr' Hhi')
        as (H8 & H9 & Hc).
      split; [|split; [exact H9 | exact Hc]].
      intros Hle8. destruct (H8 Hle8) as (H1 & H2). split; [lia | exact H2].
Qed.

(** X3.  [scrubDefragVarint] returns a count between 1 and 9.  A count [n]
    of at most 8 means that byte [n-1] is the first without continuation
    bit, and the value is then the base-128 number, most significant byte
    first, that the low seven bits of these [n] bytes spell; it lies below
    [2^(7n)].  A count of 9 means that the first eight bytes all have their
    continuation bit set; the value is then their 56 bits followed by all
    eight bits of the ninth byte, read as a signed 64-bit number. *)
Theorem varint_decodes (z : list byte) (off : Z) :
  (fst (scrubDefragVarint z off) <= 8 ->
   1 <= fst (scrubDefragVarint z off)
   /\ peek z (off + fst (scrubDefragVarint z off) - 1) < 128
   /\ (forall j, 0 <= j < fst (scrubDefragVarint z off) - 1 ->
                 128 <= peek z (off + j))
   /\ snd (scrubDefragVarint z off)
      = varint_digits (Z.to_nat (fst (scrubDefragVarint z off))) z off 0
   /\ 0 <= snd (scrubDefragVarint z off)
        < 2 ^ (7 * fst (scrubDefragVarint z off)))
  /\ (fst (scrubDefragVarint z off) = 9 ->
      (forall j, 0 <= j < 8 -> 128 <= peek z (off + j))
      /\ snd (scrubDefragVarint z off)
         = s64 (varint_digits 8 z off 0 * 256 + peek z (off + 8)))
  /\ (fst (scrubDefragVarint z off) <= 8 \/ fst (scrubDefragVarint z off) = 9).
Proof.
  pose proof (varint_loop_spec 8 z off 0 0 eq_refl ltac:(lia) eq_refl
                ltac:(simpl; lia) ltac:(intros; lia)) as H.
  cbv zeta in H. destruct H as (H8 & H9 & Hc).
  split; [|split; [exact H9 | exact Hc]].
  intros Hle. destruct (H8 Hle) as (H1 & H2 & H3 & H4 & H5).
  unfold scrubDefragVarint in *. repeat split; try assumption; lia.
Qed.

Lemma varint_decodes_witness :
  fst (scrubDefragVarint varint_example 0) = 3
  /\ snd (scrubDefragVarint varint_example 0) = 1 * 128 * 128 + 0 * 128 + 127.
Proof.
  split; [reflexivity|].
  assert (H : fst (scrubDefragVarint varint_example 0) <= 8)
    by (vm_compute; discriminate).
  destruct (proj1 (varint_decodes varint_example 0) H) as (_ & _ & _ & E & _).
  rewrite E. reflexivity.
Defined.

(** ** Invariants of the state *)

(** A property of the state that the allocator, the error channel, the page
    input and output and an update of the buffer of page 1 preserve is
    preserved by the overflow copier, by the rewriter and by the loop over
    the roots. *)
Section StateInvariant.

Variable env : Env.
Variable Inv : ScrubDefragState -> Prop.

Hypothesis Inv_inc : forall p, Inv p -> Inv (scrubDefragIncDestPageNo p).
Hypothesis Inv_err : forall p msg, Inv p -> Inv (scrubDefragErr p msg).
Hypothesis Inv_alloc : forall p, Inv p -> Inv (fst (scrubDefragAllocPage env p)).
Hypothesis Inv_read :
  forall p pgno hasBuf, Inv p -> Inv (fst (scrubDefragRead env p pgno hasBuf)).
Hypothesis Inv_write :
  forall p pgno a, Inv p -> Inv (scrubDefragWrite env p pgno a).
Hypothesis Inv_page1 : forall p b, Inv p -> Inv (set_page1 b p).

Lemma frame_upd_inv (pgno : Z) (f : list byte -> list byte)
    (p : ScrubDefragState) (a : list byte) :
  Inv p -> Inv (fst (frame_upd pgno f p a)).
Proof.
  intros H. unfold frame_upd. destruct (pgno =? 1); simpl;
    [apply Inv_page1|]; exact H.
Qed.

Lemma overflow_loop_inv (fuel : nat) (p : ScrubDefragState) (pgno nByte : Z) :
  Inv p -> Inv (overflow_loop env fuel p pgno nByte).
Proof.
  revert p pgno nByte. induction fuel as [|fuel IH]; intros p pgno nByte H;
    simpl; [exact H|].
  destruct (_ && _); [|exact H].
  pose proof (Inv_read p pgno true H) as Hr.
  destruct (scrubDefragRead env p pgno true) as [q [a|]]; simpl in Hr;
    [|exact Hr].
  destruct (overflow_trim (szUsable q) a nByte) as [a' n'].
  destruct (negb _); apply IH, Inv_write; [apply Inv_inc|]; exact Hr.
Qed.

Lemma scrubDefragOverflow_inv (p : ScrubDefragState) (pgno nByte : Z) :
  Inv p -> Inv (scrubDefragOverflow env p pgno nByte).
Proof.
  intros H. unfold scrubDefragOverflow.
  pose proof (Inv_alloc p H) as Ha.
  destruct (scrubDefragAllocPage env p) as [q [|]]; simpl in Ha;
    [apply overflow_loop_inv|]; exact Ha.
Qed.

Lemma btree_payload_inv (pgno nPrefix pc : Z) (p : ScrubDefragState)
    (a : list byte) :
  Inv p -> Inv (fst (scan_val (btree_payload env pgno nPrefix pc p a))).
Proof.
  intros H. unfold btree_payload.
  destruct (payload_plan _ _ _ _) as [| |ptr iChild nByte]; try exact H.
  pose proof (frame_upd_inv pgno
                (fun b => scrubDefragWriteInt32 b ptr
                            (iDestPageNo (scrubDefragIncDestPageNo p)))
                (scrubDefragIncDestPageNo p) a (Inv_inc p H)) as Hf.
  destruct (frame_upd pgno _ (scrubDefragIncDestPageNo p) a) as [q b].
  simpl in *. apply scrubDefragOverflow_inv. exact Hf.
Qed.

Section Child.

Variable child : ScrubDefragState -> Z -> ScrubDefragState.
Hypothesis child_inv : forall q iChild, Inv q -> Inv (child q iChild).

Lemma btree_cell_inv (pgno nPrefix szHdr i : Z) (p : ScrubDefragState)
    (a : list byte) :
  Inv p -> Inv (fst (scan_val (btree_cell env child pgno nPrefix szHdr i p a))).
Proof.
  intros H. unfold btree_cell.
  destruct (_ <=? szHdr); [exact H|].
  destruct (_ <? _); [exact H|].
  destruct (is_interior _); [|apply btree_payload_inv; exact H].
  destruct (_ <? _); [exact H|].
  pose proof (frame_upd_inv pgno
    (fun b => scrubDefragWriteInt32 b
       (scrubDefragInt16 (frame_buf pgno p a) (nPrefix + szHdr + i * 2))
       (iDestPageNo (scrubDefragIncDestPageNo p)))
    (scrubDefragIncDestPageNo p) a (Inv_inc p H)) as Hf.
  destruct (frame_upd pgno _ (scrubDefragIncDestPageNo p) a) as [q b].
  simpl in Hf.
  destruct (_ =? 5); simpl; [|apply btree_payload_inv];
    apply child_inv; exact Hf.
Qed.

Lemma btree_cells_inv (pgno nPrefix szHdr : Z) (n : nat) (i : Z)
    (p : ScrubDefragState) (a : list byte) :
  Inv p ->
  Inv (fst (scan_val (btree_cells env child pgno nPrefix szHdr n i p a))).
Proof.
  revert i p a. induction n as [|n IH]; intros i p a H; simpl; [exact H|].
  pose proof (btree_cell_inv pgno nPrefix szHdr i p a H) as Hc.
  destruct (btree_cell env child pgno nPrefix szHdr i p a) as [[q b]|ln [q b]];
    simpl in Hc |- *; [apply IH|]; exact Hc.
Qed.

Lemma btree_rightmost_inv (pgno nPrefix : Z) (p : ScrubDefragState)
    (a : list byte) :
  Inv p -> Inv (fst (btree_rightmost child pgno nPrefix p a)).
Proof.
  intros H. unfold btree_rightmost. destruct (is_interior _); [|exact H].
  pose proof (frame_upd_inv pgno
    (fun b => scrubDefragWriteInt32 b (nPrefix + 8)
       (iDestPageNo (scrubDefragIncDestPageNo p)))
    (scrubDefragIncDestPageNo p) a (Inv_inc p H)) as Hf.
  destruct (frame_upd pgno _ (scrubDefragIncDestPageNo p) a) as [q b].
  simpl in *. apply child_inv. exact Hf.
Qed.

End Child.

Lemma scrubDefragBtree_fuel_inv (fuel : nat) (p : ScrubDefragState)
    (pgno iDepth : Z) (bRoot : bool) :
  Inv p -> Inv (scrubDefragBtree_fuel env fuel p pgno iDepth bRoot).
Proof.
  revert p pgno iDepth bRoot.
  induction fuel as [|fuel IH]; intros p pgno iDepth bRoot H.
  - rewrite scrubDefragBtree_fuel_zero.
    destruct (negb _); [exact H|].
    destruct (_ <? _); [apply Inv_err|]; exact H.
  - rewrite scrubDefragBtree_fuel_unfold.
    destruct (negb _); [exact H|].
    destruct (_ <? _); [apply Inv_err; exact H|]. cbv zeta.
    assert (Hc : forall q iChild, Inv q ->
      Inv (scrubDefragBtree_fuel env fuel q iChild (iDepth + 1) false))
      by (intros; apply IH; assumption).
    assert (Hload : Inv (fst (if pgno =? 1 then (p, Some (page1 p))
                              else scrubDefragRead env p pgno false))).
    { destruct (pgno =? 1); [exact H | apply Inv_read; exact H]. }
    destruct (if pgno =? 1 then _ else _) as [q [a|]]; simpl in Hload;
      [|exact Hload].
    destruct (btree_header (szUsable q) pgno a) as [a'|ln a'].
    + pose proof (frame_upd_inv pgno (fun _ => a') q a' Hload) as Hu.
      destruct (frame_upd pgno _ q a') as [q1 b1]. simpl in Hu.
      pose proof (btree_cells_inv _ Hc pgno (btree_nPrefix pgno)
                    (btree_szHdr a (btree_nPrefix pgno))
                    (Z.to_nat (scrubDefragInt16 a (btree_nPrefix pgno + 3)))
                    0 q1 b1 Hu) as Hcells.
      destruct (btree_cells env _ pgno _ _ _ 0 q1 b1) as [[q2 b2]|ln [q2 b2]];
        simpl in Hcells.
      * pose proof (btree_rightmost_inv _ Hc pgno (btree_nPrefix pgno)
                      q2 b2 Hcells) as Hr.
        destruct (btree_rightmost _ pgno _ q2 b2) as [q3 b3]. simpl in Hr.
        apply Inv_write. destruct bRoot; [apply Inv_inc|]; exact Hr.
      * apply Inv_err. exact Hcells.
    + pose proof (frame_upd_inv pgno (fun _ => a') q a' Hload) as Hu.
      destruct (frame_upd pgno _ q a') as [q1 b1]. simpl in Hu.
      apply Inv_err. exact Hu.
Qed.

Lemma relocate_rows_inv (rows : list CatalogRow) (s : ScrubDefragState)
    (zSql : list RootUpdate) :
  Inv s -> Inv (fst (relocate_rows env s zSql rows)).
Proof.
  revert s zSql. induction rows as [|r rows IH]; intros s zSql H; simpl;
    [exact H|].
  apply IH. apply scrubDefragBtree_fuel_inv. exact H.
Qed.

End StateInvariant.

(** ** What the copy keeps and what it bounds *)

Ltac split_ifs :=
  repeat match goal with
         | |- context [if ?c then _ else _] => destruct c
         | |- context [match ?x with Some _ => _ | None => _ end] => destruct x
         end.

Ltac unfold_ops :=
  unfold scrubDefragRead, scrubDefragAllocPage, scrubDefragWrite,
    scrubDefragErr, scrubDefragIncDestPageNo.

Lemma geometry_ops (env : Env) (p : ScrubDefragState) :
  geometry (scrubDefragIncDestPageNo p) = geometry p
  /\ (forall msg, geometry (scrubDefragErr p msg) = geometry p)
  /\ geometry (fst (scrubDefragAllocPage env p)) = geometry p
  /\ (forall pgno hasBuf,
        geometry (fst (scrubDefragRead env p pgno hasBuf)) = geometry p)
  /\ (forall pgno a, geometry (scrubDefragWrite env p pgno a) = geometry p)
  /\ (forall b, geometry (set_page1 b p) = geometry p).
Proof.
  repeat split; intros; unfold_ops; simpl; split_ifs; reflexivity.
Qed.

(** X4.  The rewriter, the overflow copier and the loop over the roots
    never change the page size, the usable size, the page counts of source
    and destination, the freelist count or the lock page. *)
Theorem copy_keeps_geometry (env : Env) (p : ScrubDefragState) :
  (forall pgno iDepth bRoot,
     geometry (scrubDefragBtree env p pgno iDepth bRoot) = geometry p)
  /\ (forall pgno nByte,
        geometry (scrubDefragOverflow env p pgno nByte) = geometry p)
  /\ (forall zSql rows,
        geometry (fst (relocate_rows env p zSql rows)) = geometry p).
Proof.
  assert (Hops := geometry_ops env).
  split; [|split]; intros.
  - unfold scrubDefragBtree.
    apply (scrubDefragBtree_fuel_inv env (fun q => geometry q = geometry p));
      try reflexivity; intros q; intros; destruct (Hops q) as (H1 & H2 & H3 & H4 & H5 & H6);
      congruence.
  - apply (scrubDefragOverflow_inv env (fun q => geometry q = geometry p));
      try reflexivity; intros q; intros; destruct (Hops q) as (H1 & H2 & H3 & H4 & H5 & H6);
      congruence.
  - apply (relocate_rows_inv env (fun q => geometry q = geometry p));
      try reflexivity; intros q; intros; destruct (Hops q) as (H1 & H2 & H3 & H4 & H5 & H6);
      congruence.
Qed.

(** ** The phases of a run *)

(** The driver is the composition of its phases. *)
Lemma run_phases (env : Env) :
  sqlite3_scrub_and_defrag env =
  if negb (rcErr (run_opened env) =? 0) then scrub_abort (run_opened env) None
  else
    match scrubDefragRead env (run_locked env) 1 false with
    | (s, None) => scrub_abort s None
    | (s, Some a) =>
        match scrubDefragPrepare
                (scrubDefragBtree env (fix_header (set_page1 a s)) 1 0 true)
                (catalog_prepare_rc env) catalog_sql with
        | (s, false) => scrub_abort s None
        | (s, true) =>
            let '(s, zSql) := relocate_rows env s [] (run_rows env) in
            run_finish env s zSql
        end
    end.
Proof. reflexivity. Qed.

(** A property of the state that the assignments of the opening phase
    preserve holds when both databases are open. *)
Section OpenInvariant.

Variable env : Env.
Variable Inv : ScrubDefragState -> Prop.

Hypothesis Inv_rc : forall p v, Inv p -> Inv (set_rcErr v p).
Hypothesis Inv_err : forall p msg, Inv p -> Inv (scrubDefragErr p msg).
Hypothesis Inv_szPage : forall p v, Inv p -> Inv (set_szPage v p).
Hypothesis Inv_nSrcPage : forall p v, Inv p -> Inv (set_nSrcPage v p).
Hypothesis Inv_nFreePage : forall p v, Inv p -> Inv (set_nFreePage v p).

Lemma scrubDefragPrepare_inv (p : ScrubDefragState) (rc : Z) (zSql : string) :
  Inv p -> Inv (fst (scrubDefragPrepare p rc zSql)).
Proof.
  intros H. unfold scrubDefragPrepare.
  destruct (negb (rcErr p =? 0)); [exact H|].
  destruct (negb _); simpl; [apply Inv_err|]; apply Inv_rc; exact H.
Qed.

Lemma scrubDefragDbInt_inv (p : ScrubDefragState) (zSql zErrText : string) :
  Inv p -> Inv (fst (scrubDefragDbInt env p zSql zErrText)).
Proof.
  intros H. unfold scrubDefragDbInt.
  destruct (negb (rcErr p =? 0)); [exact H|].
  destruct (src_pragma env zSql) as [[rcPrepare row] rcFinalize].
  pose proof (scrubDefragPrepare_inv p rcPrepare zSql H) as Hp.
  destruct (scrubDefragPrepare p rcPrepare zSql) as [q [|]]; simpl in Hp |- *;
    [|exact Hp].
  destruct (negb _); [apply Inv_err|]; apply Inv_rc; exact Hp.
Qed.

Lemma scrubDefragOpenSrc_inv (p : ScrubDefragState) :
  Inv p -> Inv (scrubDefragOpenSrc env p).
Proof.
  intros H. unfold scrubDefragOpenSrc.
  destruct (negb _); [apply Inv_err, Inv_rc; exact H|].
  destruct (negb _); [apply Inv_err, Inv_rc, Inv_rc; exact H|].
  destruct (negb _); [apply Inv_err, Inv_rc, Inv_rc; exact H|].
  pose proof (scrubDefragDbInt_inv
                (set_rcErr (src_begin_rc env) (set_rcErr (src_open_rc env) p))
                "PRAGMA page_size" "unable to determine the page size"
                ltac:(apply Inv_rc, Inv_rc; exact H)) as H1.
  destruct (scrubDefragDbInt env _ "PRAGMA page_size" _) as [p1 v1].
  simpl in H1.
  assert (H1' : Inv (assign v1 set_szPage p1))
    by (destruct v1; simpl; [apply Inv_szPage|]; exact H1).
  destruct (negb _); [exact H1'|].
  pose proof (scrubDefragDbInt_inv (assign v1 set_szPage p1)
                "PRAGMA page_count"
                "unable to determine the size of the source database" H1')
    as H2.
  destruct (scrubDefragDbInt env _ "PRAGMA page_count" _) as [p2 v2].
  simpl in H2.
  assert (H2' : Inv (assign v2 set_nSrcPage p2))
    by (destruct v2; simpl; [apply Inv_nSrcPage|]; exact H2).
  destruct (negb _); [exact H2'|].
  pose proof (scrubDefragDbInt_inv (assign v2 set_nSrcPage p2)
                "PRAGMA freelist_count"
                "unable to determine the free-list size of the source database"
                H2') as H3.
  destruct (scrubDefragDbInt env _ "PRAGMA freelist_count" _) as [p3 v3].
  simpl in H3.
  assert (H3' : Inv (assign v3 set_nFreePage p3))
    by (destruct v3; simpl; [apply Inv_nFreePage|]; exact H3).
  destruct (negb _); [exact H3'|].
  destruct (src_handle env); [exact H3'|].
  apply Inv_rc, Inv_err. exact H3'.
Qed.

Lemma scrubDefragOpenDest_inv (p : ScrubDefragState) :
  Inv p -> Inv (scrubDefragOpenDest env p).
Proof.
  intros H. unfold scrubDefragOpenDest.
  destruct (negb _); [exact H|].
  destruct (negb _); [apply Inv_err, Inv_rc; exact H|].
  destruct (negb _); [apply Inv_rc, Inv_rc; exact H|].
  destruct (negb _); [apply Inv_err, Inv_rc, Inv_rc; exact H|].
  destruct (negb _); [apply Inv_err, Inv_rc, Inv_rc, Inv_rc; exact H|].
  pose proof (scrubDefragPrepare_inv
                (set_rcErr (dest_begin_rc env)
                   (set_rcErr (dest_page_size_rc env)
                      (set_rcErr (dest_open_rc env) p)))
                (dest_count_prepare_rc env) "PRAGMA page_count;"
                ltac:(apply Inv_rc, Inv_rc, Inv_rc; exact H)) as Hp.
  destruct (scrubDefragPrepare _ _ "PRAGMA page_count;") as [q [|]];
    simpl in Hp; [|exact Hp].
  assert (Hq : Inv (match dest_count_row env with
                    | Some n => if 1 <? s32 n
                                then scrubDefragErr q (ErrDestNotEmpty (s32 n))
                                else q
                    | None => scrubDefragErr q
                                (ErrText "cannot measure the size of the destination")
                    end)).
  { destruct (dest_count_row env) as [n|]; [|apply Inv_err; exact Hp].
    destruct (1 <? s32 n); [apply Inv_err|]; exact Hp. }
  destruct (dest_handle env); [exact Hq|].
  apply Inv_rc, Inv_err. exact Hq.
Qed.

Lemma run_finish_inv (s : ScrubDefragState) (zSql : list RootUpdate) :
  Inv s -> Inv (out_state (run_finish env s zSql)).
Proof.
  intros H. unfold run_finish. cbv zeta.
  destruct (negb _); [apply Inv_rc; exact H|].
  destruct (negb _); [apply Inv_rc, Inv_rc; exact H|].
  destruct (negb _); [apply Inv_err, Inv_rc, Inv_rc; exact H|].
  destruct (negb _); [apply Inv_err|]; apply Inv_rc, Inv_rc, Inv_rc; exact H.
Qed.

End OpenInvariant.

(** Nothing is read, written or allocated while the databases are opened,
    and the allocator stays at 1. *)
Lemma run_opened_untouched (env : Env) :
  destFile (run_opened env) = [] /\ nAlloc (run_opened env) = O
  /\ iDestPageNo (run_opened env) = 1 /\ page1 (run_opened env) = [].
Proof.
  unfold run_opened.
  apply (scrubDefragOpenDest_inv env
           (fun q => destFile q = [] /\ nAlloc q = O
                     /\ iDestPageNo q = 1 /\ page1 q = []));
    try (intros p v H || intros p H); try exact H;
    try (unfold scrubDefragErr; simpl; destruct (_ =? _); exact H).
  apply (scrubDefragOpenSrc_inv env
           (fun q => destFile q = [] /\ nAlloc q = O
                     /\ iDestPageNo q = 1 /\ page1 q = []));
    try (intros p v H || intros p H); try exact H;
    try (unfold scrubDefragErr; simpl; destruct (_ =? _); exact H).
  repeat split; reflexivity.
Qed.

(** ** The pages written by a run *)

Lemma within_ops (env : Env) (n : Z) (p : ScrubDefragState) :
  nDestPage p = n /\ written_within n p ->
  (nDestPage (scrubDefragIncDestPageNo p) = n
   /\ written_within n (scrubDefragIncDestPageNo p))
  /\ (forall msg, nDestPage (scrubDefragErr p msg) = n
                  /\ written_within n (scrubDefragErr p msg))
  /\ (nDestPage (fst (scrubDefragAllocPage env p)) = n
      /\ written_within n (fst (scrubDefragAllocPage env p)))
  /\ (forall pgno hasBuf,
        nDestPage (fst (scrubDefragRead env p pgno hasBuf)) = n
        /\ written_within n (fst (scrubDefragRead env p pgno hasBuf)))
  /\ (forall pgno a,
        nDestPage (scrubDefragWrite env p pgno a) = n
        /\ written_within n (scrubDefragWrite env p pgno a))
  /\ (forall b, nDestPage (set_page1 b p) = n
                /\ written_within n (set_page1 b p))
  /\ (forall v, nDestPage (set_rcErr v p) = n
                /\ written_within n (set_rcErr v p)).
Proof.
  intros [Hn Hw]. unfold written_within in *.
  repeat split; intros; unfold_ops; simpl;
    repeat match goal with
           | |- context [?x <? ?y] => destruct (Z.ltb_spec x y)
           | |- context [if ?c then _ else _] => destruct c
           | |- context [match ?x with Some _ => _ | None => _ end] => destruct x
           end; simpl; try assumption.
  constructor; [simpl; lia | assumption].
Qed.

Lemma destFile_scrubDefragRead (env : Env) (p : ScrubDefragState) (pgno : Z)
    (hasBuf : bool) :
  destFile (fst (scrubDefragRead env p pgno hasBuf)) = destFile p.
Proof. unfold_ops; simpl; split_ifs; reflexivity. Qed.

Lemma destFile_fix_header (s : ScrubDefragState) :
  destFile (fix_header s) = destFile s.
Proof. unfold fix_header. simpl. destruct (_ && _); reflexivity. Qed.

Lemma out_state_scrub_abort (s : ScrubDefragState)
    (script : option (list RootUpdate)) :
  out_state (scrub_abort s script) = s.
Proof. reflexivity. Qed.

(** X5.  In every run, whatever the environment answers, each page written
    to the destination has a page number of at most [nDestPage], the page
    count that the run stores in the header of the copy. *)
Theorem run_writes_within_page_count (env : Env) :
  written_within (nDestPage (out_state (sqlite3_scrub_and_defrag env)))
    (out_state (sqlite3_scrub_and_defrag env)).
Proof.
  rewrite run_phases.
  destruct (run_opened_untouched env) as (Hd0 & _).
  destruct (negb _).
  { unfold written_within. rewrite out_state_scrub_abort, Hd0. constructor. }
  pose proof (destFile_scrubDefragRead env (run_locked env) 1 false) as Hd1.
  change (destFile (run_locked env)) with (destFile (run_opened env)) in Hd1.
  rewrite Hd0 in Hd1.
  destruct (scrubDefragRead env (run_locked env) 1 false) as [s [a|]];
    simpl in Hd1.
  2:{ unfold written_within. rewrite out_state_scrub_abort, Hd1. constructor. }
  set (s1 := fix_header (set_page1 a s)).
  set (n := nDestPage s1).
  set (Inv := fun q => nDestPage q = n /\ written_within n q).
  assert (H1 : Inv s1).
  { split; [reflexivity|]. unfold written_within. subst s1.
    rewrite destFile_fix_header. simpl. rewrite Hd1. constructor. }
  assert (Hops : forall q, Inv q ->
    Inv (scrubDefragIncDestPageNo q)
    /\ (forall msg, Inv (scrubDefragErr q msg))
    /\ Inv (fst (scrubDefragAllocPage env q))
    /\ (forall pgno hasBuf, Inv (fst (scrubDefragRead env q pgno hasBuf)))
    /\ (forall pgno b, Inv (scrubDefragWrite env q pgno b))
    /\ (forall b, Inv (set_page1 b q))
    /\ (forall v, Inv (set_rcErr v q)))
    by (intros q Hq; exact (within_ops env n q Hq)).
  assert (H2 : Inv (scrubDefragBtree env s1 1 0 true)).
  { unfold scrubDefragBtree.
    apply (scrubDefragBtree_fuel_inv env Inv); try exact H1;
      intros q; intros; apply Hops; assumption. }
  pose proof (scrubDefragPrepare_inv Inv
                ltac:(intros q v Hq; apply Hops; exact Hq)
                ltac:(intros q m Hq; apply Hops; exact Hq)
                (scrubDefragBtree env s1 1 0 true)
                (catalog_prepare_rc env) catalog_sql H2) as H3.
  destruct (scrubDefragPrepare _ _ catalog_sql) as [s3 [|]]; simpl in H3.
  2:{ rewrite out_state_scrub_abort. destruct H3 as [E H3]. rewrite E.
      exact H3. }
  pose proof (relocate_rows_inv env Inv
                ltac:(intros q Hq; apply Hops; exact Hq)
                ltac:(intros q m Hq; apply Hops; exact Hq)
                ltac:(intros q Hq; apply Hops; exact Hq)
                ltac:(intros q pg hb Hq; apply Hops; exact Hq)
                ltac:(intros q pg b Hq; apply Hops; exact Hq)
                ltac:(intros q b Hq; apply Hops; exact Hq)
                (run_rows env) s3 [] H3) as H4.
  destruct (relocate_rows env s3 [] (run_rows env)) as [s4 zSql].
  simpl in H4.
  pose proof (run_finish_inv env Inv
                ltac:(intros q v Hq; apply Hops; exact Hq)
                ltac:(intros q m Hq; apply Hops; exact Hq)
                s4 zSql H4) as [E H5].
  rewrite E. exact H5.
Qed.

(** The log of the destination only grows. *)
Lemma logged_ops (env : Env) (e : Z * list byte) (p : ScrubDefragState) :
  In e (destFile p) ->
  In e (destFile (scrubDefragIncDestPageNo p))
  /\ (forall msg, In e (destFile (scrubDefragErr p msg)))
  /\ In e (destFile (fst (scrubDefragAllocPage env p)))
  /\ (forall pgno hasBuf,
        In e (destFile (fst (scrubDefragRead env p pgno hasBuf))))
  /\ (forall pgno a, In e (destFile (scrubDefragWrite env p pgno a)))
  /\ (forall b, In e (destFile (set_page1 b p)))
  /\ (forall v, In e (destFile (set_rcErr v p))).
Proof.
  intros H. repeat split; intros; unfold_ops; simpl; split_ifs; simpl;
    try assumption; right; assumption.
Qed.

Ltac logged_op env q H :=
  let T := fresh "T" in
  pose proof (logged_ops env _ q H) as T;
  first [ exact (proj1 T)
        | exact (proj1 (proj2 T) _)
        | exact (proj1 (proj2 (proj2 T)))
        | exact (proj1 (proj2 (proj2 (proj2 T))) _ _)
        | exact (proj1 (proj2 (proj2 (proj2 (proj2 T)))) _ _)
        | exact (proj1 (proj2 (proj2 (proj2 (proj2 (proj2 T))))) _)
        | exact (proj2 (proj2 (proj2 (proj2 (proj2 (proj2 T))))) _) ].

Lemma scrubDefragPrepare_true (p q : ScrubDefragState) (rc : Z) (zSql : string) :
  scrubDefragPrepare p rc zSql = (q, true) ->
  rcErr p = 0 /\ rc = 0 /\ q = set_rcErr rc p.
Proof.
  unfold scrubDefragPrepare.
  destruct (Z.eqb_spec (rcErr p) 0); simpl; [|discriminate].
  destruct (Z.eqb_spec rc 0); simpl; [|discriminate].
  intros E. injection E as <-. repeat split; assumption.
Qed.

(** A call of the rewriter for a root page that ends without error has
    written the page under the number that the allocator showed on entry. *)
Lemma root_call_writes (env : Env) (p : ScrubDefragState) (pgno iDepth : Z) :
  rcErr (scrubDefragBtree env p pgno iDepth true) = 0 ->
  exists w rest,
    destFile (scrubDefragBtree env p pgno iDepth true)
    = (iDestPageNo p, w) :: rest.
Proof.
  unfold scrubDefragBtree, btree_depth_fuel. intros Hok.
  destruct (root_call_writes_at_entry_number env 51 p pgno iDepth Hok)
    as (q & w & _ & Hd).
  eauto.
Qed.



(** X7.  When the catalog-update script is executed, the value that the run
    returns is the result code of that execution and of nothing else: the
    statement finalization, the script allocation and the reopening of the
    destination have all succeeded, and an error code that the copy of the
    pages recorded before is not returned. *)
Theorem run_returns_script_code (env : Env) (zSql : list RootUpdate) :
  out_script (sqlite3_scrub_and_defrag env) = Some zSql ->
  out_rc (sqlite3_scrub_and_defrag env) = script_exec_rc env
  /\ catalog_finalize_rc env = 0
  /\ script_mprintf_ok env = true
  /\ dest_reopen_rc env = 0.
Proof.
  rewrite run_phases.
  destruct (negb _); [discriminate|].
  destruct (scrubDefragRead env (run_locked env) 1 false) as [s [a|]];
    [|discriminate].
  destruct (scrubDefragPrepare _ _ catalog_sql) as [s3 [|]]; [|discriminate].
  destruct (relocate_rows env s3 [] (run_rows env)) as [s4 z4].
  unfold run_finish. cbv zeta. simpl rcErr.
  destruct (Z.eqb_spec (catalog_finalize_rc env) 0); simpl; [|discriminate].
  destruct (script_mprintf_ok env); simpl; [|discriminate].
  destruct (Z.eqb_spec (dest_reopen_rc env) 0); simpl; [|discriminate].
  destruct (Z.eqb_spec (script_exec_rc env) 0) as [E|E]; simpl; intros _.
  - repeat split; assumption || reflexivity.
  - unfold scrubDefragErr. simpl.
    destruct (Z.eqb_spec (script_exec_rc env) 0); [contradiction|].
    repeat split; assumption || reflexivity.
Qed.

Lemma run_returns_script_code_witness :
  rcErr (scrubDefragBtree bad_env bad_state1 2 0 true) = SQLITE_IOERR
  /\ out_rc (sqlite3_scrub_and_defrag bad_env) = 0.
Proof.
  split; [vm_compute; reflexivity|].
  assert (H : out_script (sqlite3_scrub_and_defrag bad_env)
              = Some [mkUpdate 2 2 "t" "table"]) by (vm_compute; reflexivity).
  exact (proj1 (run_returns_script_code bad_env _ H)).
Defined.

(** ** The lock page *)

(** X8.  For each page size that is a power of two from 512 to 65536, the
    lock page that the driver computes starts at byte offset [2^30] of the
    file: its number is [2^30 / szPage + 1]. *)
Theorem lock_page_starts_at_pending_byte (k : Z) :
  9 <= k <= 16 ->
  iLock (alloc_start (2 ^ k)) = 2 ^ (30 - k) + 1
  /\ (iLock (alloc_start (2 ^ k)) - 1) * 2 ^ k = 2 ^ 30.
Proof.
  intros Hk.
  assert (E : k = 9 \/ k = 10 \/ k = 11 \/ k = 12 \/ k = 13 \/ k = 14
              \/ k = 15 \/ k = 16) by lia.
  destruct E as [->|[->|[->|[->|[->|[->|[->| ->]]]]]]];
    split; reflexivity.
Qed.

Lemma lock_page_starts_at_pending_byte_witness :
  iLock (alloc_start 512) = 2097153 /\ iLock (alloc_start 65536) = 16385.
Proof.
  split.
  - exact (proj1 (lock_page_starts_at_pending_byte 9 ltac:(lia))).
  - exact (proj1 (lock_page_starts_at_pending_byte 16 ltac:(lia))).
Defined.

(** ** Reading a page *)

(** X9.  On a state without error, [scrubDefragRead] returns a page exactly
    when it leaves the state without error, and the page is then the one
    that the source file holds under that number.  A failed read records
    [SQLITE_IOERR] with the message of the failed read; a failed allocation
    of the buffer records [SQLITE_NOMEM] and leaves the message alone.  In no
    case is the destination or the allocator of page numbers touched. *)
Theorem read_returns_page_or_error (env : Env) (p : ScrubDefragState)
    (pgno : Z) (hasBuf : bool) :
  rcErr p = 0 ->
  let q := fst (scrubDefragRead env p pgno hasBuf) in
  match snd (scrubDefragRead env p pgno hasBuf) with
  | Some a => xRead env pgno = Some a /\ rcErr q = 0 /\ zErr q = zErr p
  | None =>
      (xRead env pgno = None /\ rcErr q = SQLITE_IOERR
       /\ zErr q = Some (ErrReadFailed pgno))
      \/ (hasBuf = false /\ malloc_ok env (nAlloc p) = false
          /\ rcErr q = SQLITE_NOMEM /\ zErr q = zErr p)
  end
  /\ destFile q = destFile p /\ iDestPageNo q = iDestPageNo p
  /\ page1 q = page1 p.
Proof.
  intros H0 q. subst q. unfold scrubDefragRead, scrubDefragAllocPage.
  rewrite H0. simpl negb. cbv iota.
  destruct hasBuf; simpl.
  - destruct (xRead env pgno) as [a|] eqn:E; simpl.
    + repeat split; assumption || reflexivity.
    + unfold scrubDefragErr. simpl. rewrite H0. simpl.
      split; [left|]; repeat split; reflexivity.
  - destruct (malloc_ok env (nAlloc p)) eqn:Em; simpl.
    + destruct (xRead env pgno) as [a|] eqn:E; simpl.
      * repeat split; assumption || reflexivity.
      * unfold scrubDefragErr. simpl. rewrite H0. simpl.
        split; [left|]; repeat split; reflexivity.
    + split; [right|]; repeat split; reflexivity.
Qed.

Lemma read_returns_page_or_error_witness :
  xRead db_env 9 = None
  /\ rcErr (fst (scrubDefragRead db_env db_state0 9 false)) = SQLITE_IOERR.
Proof.
  split; [reflexivity|].
  pose proof (read_returns_page_or_error db_env db_state0 9 false eq_refl) as T.
  cbv zeta in T. destruct T as [T _].
  change (snd (scrubDefragRead db_env db_state0 9 false)) with (@None (list byte)) in T.
  destruct T as [(_ & T & _)|(_ & T & _)]; [exact T | discriminate T].
Defined.

(** ** Failures before the copy starts *)

(** An error while the databases are opened ends the run at once. *)
Lemma open_failure_steps (env : Env) :
  rcErr (run_opened env) <> 0 ->
  out_rc (sqlite3_scrub_and_defrag env) = rcErr (run_opened env)
  /\ out_zErr (sqlite3_scrub_and_defrag env) = zErr (run_opened env)
  /\ out_script (sqlite3_scrub_and_defrag env) = None
  /\ destFile (out_state (sqlite3_scrub_and_defrag env)) = []
  /\ nAlloc (out_state (sqlite3_scrub_and_defrag env)) = O.
Proof.
  intros H. rewrite run_phases.
  destruct (Z.eqb_spec (rcErr (run_opened env)) 0); [contradiction|].
  simpl negb. cbv iota.
  destruct (run_opened_untouched env) as (Hd & Ha & _).
  repeat split; assumption || reflexivity.
Qed.

(** X10.  When opening the source or the destination fails, the run returns
    the error code recorded at that point, which is not zero, executes no
    script, and has neither requested a page buffer nor written any page. *)
Theorem open_failure_aborts (env : Env) :
  rcErr (run_opened env) <> 0 ->
  out_rc (sqlite3_scrub_and_defrag env) = rcErr (run_opened env)
  /\ out_zErr (sqlite3_scrub_and_defrag env) = zErr (run_opened env)
  /\ out_script (sqlite3_scrub_and_defrag env) = None
  /\ destFile (out_state (sqlite3_scrub_and_defrag env)) = []
  /\ nAlloc (out_state (sqlite3_scrub_and_defrag env)) = O.
Proof. apply open_failure_steps. Qed.

Lemma open_failure_aborts_witness :
  out_rc (sqlite3_scrub_and_defrag closed_src_env) = 14
  /\ out_zErr (sqlite3_scrub_and_defrag closed_src_env)
     = Some (ErrText "cannot open source database").
Proof.
  assert (H : rcErr (run_opened closed_src_env) <> 0)
    by (vm_compute; discriminate).
  destruct (open_failure_aborts closed_src_env H) as (T1 & T2 & _).
  split; [exact T1 | exact T2].
Defined.

(** X11.  A destination that already holds more than one page is refused:
    when everything up to the measurement of the destination succeeds and
    the destination reports [n > 1] pages, the run returns [SQLITE_ERROR],
    writes nothing and executes no script, and the message names the number
    of pages unless the file handle of the destination is missing as
    well. *)
Theorem nonempty_destination_refused (env : Env) (n : Z) :
  rcErr (scrubDefragOpenSrc env (set_iDestPageNo 1 zero_state)) = 0 ->
  dest_open_rc env = 0 -> dest_mprintf_ok env = true ->
  dest_page_size_rc env = 0 -> dest_begin_rc env = 0 ->
  dest_count_prepare_rc env = 0 ->
  dest_count_row env = Some n -> 1 < s32 n ->
  out_rc (sqlite3_scrub_and_defrag env) = SQLITE_ERROR
  /\ out_script (sqlite3_scrub_and_defrag env) = None
  /\ destFile (out_state (sqlite3_scrub_and_defrag env)) = []
  /\ (dest_handle env = true ->
      out_zErr (sqlite3_scrub_and_defrag env) = Some (ErrDestNotEmpty (s32 n))).
Proof.
  intros Hsrc Ho Hm Hp Hb Hc Hrow Hn.
  assert (Hopen : rcErr (run_opened env) = SQLITE_ERROR
                  /\ (dest_handle env = true ->
                      zErr (run_opened env) = Some (ErrDestNotEmpty (s32 n)))).
  { unfold run_opened, scrubDefragOpenDest, scrubDefragPrepare.
    rewrite Hsrc, Ho, Hm, Hp, Hb, Hc, Hrow. simpl.
    rewrite (proj2 (Z.ltb_lt 1 (s32 n)) Hn).
    unfold scrubDefragErr. simpl.
    destruct (dest_handle env); simpl; split; try reflexivity; discriminate. }
  destruct Hopen as [Hrc Hmsg].
  assert (H : rcErr (run_opened env) <> 0) by (rewrite Hrc; discriminate).
  destruct (open_failure_steps env H) as (T1 & T2 & T3 & T4 & _).
  rewrite T1, T2. repeat split; assumption.
Qed.

Lemma nonempty_destination_refused_witness :
  out_rc (sqlite3_scrub_and_defrag used_dest_env) = SQLITE_ERROR
  /\ out_zErr (sqlite3_scrub_and_defrag used_dest_env)
     = Some (ErrDestNotEmpty 3).
Proof.
  assert (H1 : rcErr (scrubDefragOpenSrc used_dest_env
                        (set_iDestPageNo 1 zero_state)) = 0)
    by (vm_compute; reflexivity).
  assert (H8 : 1 < s32 3) by reflexivity.
  destruct (nonempty_destination_refused used_dest_env 3 H1 eq_refl eq_refl
              eq_refl eq_refl eq_refl eq_refl H8) as (T1 & _ & _ & T4).
  split; [exact T1 | exact (T4 eq_refl)].
Defined.

(** ** The stand-alone program *)

(** X12.  The stand-alone program prints its usage and exits with status 1
    unless it is given exactly two arguments.  Otherwise its exit status is
    0 exactly when the run returned a code other than [SQLITE_NOMEM] and
    left no message: a non-zero code without message still gives status 0,
    and a message gives status 1 whatever the code. *)
Theorem main_exit_status (env : Env) (argc : Z) :
  (argc <> 3 -> main env argc = (1, Some ReportUsage))
  /\ (argc = 3 ->
      (fst (main env argc) = 0
       <-> out_rc (sqlite3_scrub_and_defrag env) <> SQLITE_NOMEM
           /\ out_zErr (sqlite3_scrub_and_defrag env) = None)
      /\ (fst (main env argc) = 0 \/ fst (main env argc) = 1)).
Proof.
  unfold main. split.
  - intros H. destruct (Z.eqb_spec argc 3); [contradiction | reflexivity].
  - intros ->. simpl.
    destruct (Z.eqb_spec (out_rc (sqlite3_scrub_and_defrag env)) SQLITE_NOMEM)
      as [E|E]; simpl.
    + split; [|right; reflexivity]. split; [discriminate|].
      intros [H _]. contradiction.
    + destruct (out_zErr (sqlite3_scrub_and_defrag env)) as [m|]; simpl.
      * split; [|right; reflexivity]. split; [discriminate|].
        intros [_ H]. discriminate H.
      * split; [|left; reflexivity]. split; [|reflexivity].
        intros _. split; [exact E | reflexivity].
Qed.

Lemma main_exit_status_witness :
  (out_rc (sqlite3_scrub_and_defrag busy_env) = 5
   /\ fst (main busy_env 3) = 0)
  /\ (out_rc (sqlite3_scrub_and_defrag bad_env) = 0
      /\ fst (main bad_env 3) = 1).
Proof.
  destruct (proj2 (main_exit_status busy_env 3) eq_refl) as [Tbusy _].
  destruct (proj2 (main_exit_status bad_env 3) eq_refl) as [Tbad Hbad].
  split; split.
  - vm_compute. reflexivity.
  - apply Tbusy. split; vm_compute; [discriminate | reflexivity].
  - vm_compute. reflexivity.
  - destruct Hbad as [H|H]; [|exact H].
    apply Tbad in H. destruct H as [_ H]. vm_compute in H. discriminate H.
Defined.

(** X13.  The log callback chooses its label by the low eight bits of the
    code alone, so an extended result code is labelled like its primary
    code: 28 gives WARNING, 27 gives NOTICE and every other value ERROR. *)
Theorem log_label_by_primary_code (iErr k : Z) (zMsg : string) :
  errorLogCallback (iErr + 256 * k) zMsg = errorLogCallback iErr zMsg
  /\ errorLogCallback iErr zMsg
     = (let label :=
          if iErr mod 256 =? 28 then "WARNING"%string
          else if iErr mod 256 =? 27 then "NOTICE"%string
          else "ERROR"%string in
        (label ++ ": " ++ zMsg ++ String (Ascii.ascii_of_nat 10) EmptyString)%string).
Proof.
  unfold errorLogCallback. rewrite !land_255.
  replace (iErr + 256 * k) with (iErr + k * 256) by lia.
  rewrite Z.mod_add by lia. split; reflexivity.
Qed.

(** ** The error channel *)

Lemma error_guards_witness :
  scrubDefragWrite db_env (scrubDefragErr db_state0 (ErrTooDeep 7)) 1 db_page1
  = scrubDefragErr db_state0 (ErrTooDeep 7).
Proof.
  assert (H : rcErr (scrubDefragErr db_state0 (ErrTooDeep 7)) <> 0)
    by (vm_compute; discriminate).
  destruct (error_guards db_env _ H) as (_ & _ & T & _).
  exact (T 1 db_page1).
Defined.

(** ** The copy of an overflow chain *)

Lemma iDestPageNo_inc_ext (p q : ScrubDefragState) :
  iDestPageNo p = iDestPageNo q -> iLock p = iLock q ->
  iDestPageNo (scrubDefragIncDestPageNo p)
  = iDestPageNo (scrubDefragIncDestPageNo q).
Proof.
  intros Hd Hl. unfold scrubDefragIncDestPageNo. simpl. rewrite Hd, Hl.
  destruct (_ =? _); reflexivity.
Qed.

Lemma alloc_run_ext (n : nat) (p q : ScrubDefragState) :
  iDestPageNo p = iDestPageNo q -> iLock p = iLock q ->
  alloc_run n p = alloc_run n q.
Proof.
  revert p q. induction n as [|n IH]; intros p q Hd Hl; simpl; [reflexivity|].
  rewrite Hd. f_equal. apply IH.
  - apply iDestPageNo_inc_ext; assumption.
  - rewrite !iLock_inc. exact Hl.
Qed.

Lemma iDestPageNo_inc_range (p : ScrubDefragState) :
  0 <= iDestPageNo (scrubDefragIncDestPageNo p) < 2 ^ 32.
Proof.
  unfold scrubDefragIncDestPageNo. simpl.
  destruct (_ =? _); simpl; apply u32_range.
Qed.

Lemma overflow_trim_last_frame (U nByte : Z) (a : list byte) :
  4 < U < 2 ^ 32 -> 0 < nByte <= U - 4 ->
  exists a2,
    overflow_trim U a nByte = (a2, 0)
    /\ length a2 = length a
    /\ (forall i, 0 <= i -> i < 4 + nByte \/ U <= i -> peek a2 i = peek a i)
    /\ (forall i, 4 + nByte <= i < U -> peek a2 i = 0).
Proof.
  intros HU Hn. unfold overflow_trim.
  rewrite (u32_small (U - 4)) by lia.
  destruct (Z.leb_spec (U - 4) nByte).
  - exists a. replace (nByte - (U - 4)) with 0 by lia.
    repeat split; intros; lia || reflexivity.
  - rewrite (u32_small (U - 4 - nByte)) by lia.
    rewrite (u32_small (U - _)) by lia.
    eexists. split; [reflexivity|]. split; [apply length_memset|]. split.
    + intros i Hi Hout. apply peek_memset_out; lia.
    + intros i Hi. apply peek_memset_in; lia.
Qed.

Lemma chain_pages_nonempty (env : Env) (U pgno nByte : Z)
    (srcs : list (list byte)) :
  chain_pages env U pgno nByte srcs -> srcs <> [].
Proof. intros H. destruct H; discriminate. Qed.

(** The loop of the overflow copier on a chain that is as long as the
    payload requires: the pages are written under the numbers that the
    allocator hands out from its value on entry, each page but the last has
    its next-page field set to the number of the page after it, and the
    payload bytes are those of the source. *)
Lemma overflow_loop_copy (env : Env) (U pgno nByte : Z)
    (srcs : list (list byte)) :
  4 < U < 2 ^ 32 -> nByte < 2 ^ 32 ->
  chain_pages env U pgno nByte srcs ->
  Forall (fun a => (4 <= length a)%nat) srcs ->
  forall (fuel : nat) (p : ScrubDefragState),
    szUsable p = U -> rcErr p = 0 ->
    (Z.to_nat (nByte / (U - 4)) < fuel)%nat ->
    rcErr (overflow_loop env fuel p pgno nByte) = 0 ->
    exists ws,
      length ws = length srcs
      /\ destFile (overflow_loop env fuel p pgno nByte)
         = rev (combine (alloc_run (length srcs) p) ws) ++ destFile p
      /\ (forall i w, ws !! i = Some w ->
            scrubDefragInt32 w 0
            = default 0 (alloc_run (length srcs) p !! S i))
      /\ (forall i a w, srcs !! i = Some a -> ws !! i = Some w ->
            length w = length a
            /\ forall k, 4 <= k ->
                 k < 4 + (nByte - Z.of_nat i * (U - 4)) \/ U <= k ->
                 peek w k = peek a k).
Proof.
  intros HU HnB Hchain.
  induction Hchain as [pgno nByte a Hpg Hrd Hn Hnext
                      | pgno nByte a rest Hpg Hrd Hn Hnext Hchain IH];
    intros Hlen fuel p HpU H0 Hfuel Hok.
  - destruct fuel as [|fuel]; [lia|]. simpl in Hok |- *.
    rewrite (proj2 (Z.ltb_lt 0 nByte)) in * by lia.
    rewrite (proj2 (Z.eqb_neq pgno 0)) in * by exact Hpg.
    simpl andb in *. cbv iota in *.
    destruct (scrubDefragRead_cases env p pgno true H0)
      as [(q & a0 & E & Hx & Hq & Hu & Hi & Hd & _) | (q & E & Hq)];
      rewrite E in *; [|contradiction].
    rewrite Hrd in Hx. injection Hx as <-.
    rewrite Hu, HpU in *.
    destruct (overflow_trim_last_frame U nByte a HU Hn)
      as (a2 & Et & Hlen2 & Hlive & Hzero).
    rewrite Et in *.
    assert (Hn2 : scrubDefragInt32 a2 0 = 0).
    { rewrite scrubDefragInt32_spec in *.
      rewrite !Hlive by lia. exact Hnext. }
    rewrite Hn2 in *. simpl in Hok |- *.
    rewrite overflow_loop_done in *.
    destruct (scrubDefragWrite_cases env q (iDestPageNo q) a2 Hq)
      as [[Hw _]|Hw]; [|contradiction].
    rewrite Hw. simpl. exists [a2]. split; [reflexivity|].
    split; [rewrite Hi, Hd; reflexivity|]. split.
    + intros [|i] w Hw'; simpl in Hw'; [|discriminate].
      injection Hw' as <-. exact Hn2.
    + intros [|i] b w Hb Hw'; simpl in Hb, Hw'; [|discriminate].
      injection Hb as <-. injection Hw' as <-.
      split; [exact Hlen2|]. intros k Hk Hrange. apply Hlive; lia.
  - destruct fuel as [|fuel]; [lia|]. simpl in Hok |- *.
    rewrite (proj2 (Z.ltb_lt 0 nByte)) in * by lia.
    rewrite (proj2 (Z.eqb_neq pgno 0)) in * by exact Hpg.
    simpl andb in *. cbv iota in *.
    destruct (scrubDefragRead_cases env p pgno true H0)
      as [(q & a0 & E & Hx & Hq & Hu & Hi & Hd & _ & _ & Hl) | (q & E & Hq)];
      rewrite E in *; [|contradiction].
    rewrite Hrd in Hx. injection Hx as <-.
    rewrite Hu, HpU in *.
    rewrite overflow_trim_more in * by lia.
    rewrite (proj2 (Z.eqb_neq _ 0) Hnext) in *. simpl negb in *. cbv iota in *.
    set (q' := scrubDefragIncDestPageNo q) in *.
    set (a' := scrubDefragWriteInt32 a 0 (iDestPageNo q')) in *.
    set (p3 := scrubDefragWrite env q' (iDestPageNo q) a') in *.
    assert (Hq' : rcErr q' = 0).
    { subst q'. unfold scrubDefragIncDestPageNo. simpl.
      destruct (_ =? _); exact Hq. }
    destruct (Z.eq_dec (rcErr p3) 0) as [H3|H3];
      [|rewrite overflow_loop_sticky in Hok by exact H3; contradiction].
    destruct (scrubDefragWrite_cases env q' (iDestPageNo q) a' Hq')
      as [[Hw _]|Hw]; [|contradiction].
    fold p3 in Hw.
    pose proof (Forall_inv Hlen) as Hlen_a. simpl in Hlen_a.
    pose proof (Forall_inv_tail Hlen) as Hlen_rest.
    assert (Hfuel' : (Z.to_nat ((nByte - (U - 4)) / (U - 4)) < fuel)%nat).
    { assert (nByte / (U - 4) = (nByte - (U - 4)) / (U - 4) + 1).
      { replace nByte with ((nByte - (U - 4)) + 1 * (U - 4)) at 1 by lia.
        rewrite Z.div_add by lia. reflexivity. }
      assert (0 <= (nByte - (U - 4)) / (U - 4)) by (apply Z.div_pos; lia).
      lia. }
    destruct (IH ltac:(lia) Hlen_rest fuel p3)
      as (ws & Hws & Hlog & Hlink & Hpay);
      try assumption; try lia.
    { subst p3 q'. rewrite szUsable_scrubDefragWrite, szUsable_inc. lia. }
    assert (Hrun : alloc_run (length rest) p3
                   = alloc_run (length rest) (scrubDefragIncDestPageNo p)).
    { apply alloc_run_ext.
      - rewrite Hw. simpl. subst q'. apply iDestPageNo_inc_ext; assumption.
      - rewrite Hw. simpl. subst q'. rewrite !iLock_inc. exact Hl. }
    rewrite Hrun in Hlog, Hlink.
    exists (a' :: ws). split; [simpl; rewrite Hws; reflexivity|].
    split; [|split].
    + rewrite Hlog, Hw. simpl. rewrite <- app_assoc. simpl.
      assert (Hdq : destFile q' = destFile p).
      { subst q'. unfold scrubDefragIncDestPageNo. simpl.
        destruct (_ =? _); exact Hd. }
      rewrite Hdq, Hi. reflexivity.
    + intros [|i] w Hw'; simpl in Hw' |- *.
      * injection Hw' as <-. subst a'.
        rewrite scrubDefragInt32_WriteInt32;
          [| lia | simpl; lia | subst q'; apply iDestPageNo_inc_range].
        pose proof (chain_pages_nonempty _ _ _ _ _ Hchain) as Hne.
        destruct rest as [|r rest]; [contradiction|]. simpl.
        subst q'. apply iDestPageNo_inc_ext; assumption.
      * apply Hlink. exact Hw'.
    + intros [|i] b w Hb Hw'; simpl in Hb, Hw'.
      * injection Hb as <-. injection Hw' as <-. subst a'.
        split; [apply length_scrubDefragWriteInt32|].
        intros k Hk _. apply peek_scrubDefragWriteInt32_out; lia.
      * destruct (Hpay i b w Hb Hw') as [Hl1 Hl2]. split; [exact Hl1|].
        intros k Hk Hrange. apply Hl2; [exact Hk|]. lia.
Qed.

Lemma scrubDefragOverflow_copy (env : Env) (p : ScrubDefragState)
    (pgno nByte : Z) (srcs : list (list byte)) :
  rcErr p = 0 -> 4 < szUsable p <= 65536 -> nByte < 2 ^ 32 ->
  chain_pages env (szUsable p) pgno nByte srcs ->
  Forall (fun a => (4 <= length a)%nat) srcs ->
  rcErr (scrubDefragOverflow env p pgno nByte) = 0 ->
  exists ws,
    length ws = length srcs
    /\ destFile (scrubDefragOverflow env p pgno nByte)
       = rev (combine (alloc_run (length srcs) p) ws) ++ destFile p
    /\ (forall i w, ws !! i = Some w ->
          scrubDefragInt32 w 0
          = default 0 (alloc_run (length srcs) p !! S i))
    /\ (forall i a w, srcs !! i = Some a -> ws !! i = Some w ->
          length w = length a
          /\ forall k, 4 <= k ->
               k < 4 + (nByte - Z.of_nat i * (szUsable p - 4))
               \/ szUsable p <= k ->
               peek w k = peek a k).
Proof.
  intros H0 HU HnB Hchain Hlen.
  unfold scrubDefragOverflow, scrubDefragAllocPage.
  rewrite H0. simpl negb. cbv iota.
  destruct (malloc_ok env (nAlloc p)); [|simpl; discriminate].
  intros Hok.
  destruct (overflow_loop_copy env (szUsable p) pgno nByte srcs
              ltac:(lia) HnB Hchain Hlen
              (overflow_fuel (set_nAlloc (S (nAlloc p)) p) nByte)
              (set_nAlloc (S (nAlloc p)) p) eq_refl H0)
    as (ws & Hws & Hlog & Hlink & Hpay).
  - unfold overflow_fuel. simpl szUsable.
    rewrite (u32_small (szUsable p - 4)) by lia. lia.
  - exact Hok.
  - assert (Hrun : alloc_run (length srcs) (set_nAlloc (S (nAlloc p)) p)
                   = alloc_run (length srcs) p)
      by (apply alloc_run_ext; reflexivity).
    rewrite Hrun in Hlog, Hlink.
    exists ws. repeat split; try assumption; apply (Hpay i a w); assumption.
Qed.

(** X14.  When the overflow chain of the source is as long as the payload
    requires and the copy ends without error, the copier has written one
    page for each page of the chain, first page first, under the numbers
    that the allocator hands out from its value on entry; in the
    destination the next-page field of each page is the number under which
    the page after it was written, and zero in the last page. *)
Theorem overflow_copy_relinked (env : Env) (p : ScrubDefragState)
    (pgno nByte : Z) (srcs : list (list byte)) :
  rcErr p = 0 -> 4 < szUsable p <= 65536 -> nByte < 2 ^ 32 ->
  chain_pages env (szUsable p) pgno nByte srcs ->
  Forall (fun a => (4 <= length a)%nat) srcs ->
  rcErr (scrubDefragOverflow env p pgno nByte) = 0 ->
  exists ws,
    length ws = length srcs
    /\ destFile (scrubDefragOverflow env p pgno nByte)
       = rev (combine (alloc_run (length srcs) p) ws) ++ destFile p
    /\ (forall i w, ws !! i = Some w ->
          scrubDefragInt32 w 0
          = default 0 (alloc_run (length srcs) p !! S i)).
Proof.
  intros H0 HU HnB Hchain Hlen Hok.
  destruct (scrubDefragOverflow_copy env p pgno nByte srcs
              H0 HU HnB Hchain Hlen Hok) as (ws & H1 & H2 & H3 & _).
  exists ws. repeat split; assumption.
Qed.

(** X15.  Under the same conditions each page written has the length of the
    source page and the same bytes from offset 4 up to the end of the
    payload that the page carries, and the same bytes from the end of the
    usable area on: the copy changes the next-page field and the unused
    tail inside the usable area, and nothing else. *)
Theorem overflow_copy_keeps_payload (env : Env) (p : ScrubDefragState)
    (pgno nByte : Z) (srcs : list (list byte)) :
  rcErr p = 0 -> 4 < szUsable p <= 65536 -> nByte < 2 ^ 32 ->
  chain_pages env (szUsable p) pgno nByte srcs ->
  Forall (fun a => (4 <= length a)%nat) srcs ->
  rcErr (scrubDefragOverflow env p pgno nByte) = 0 ->
  exists ws,
    length ws = length srcs
    /\ destFile (scrubDefragOverflow env p pgno nByte)
       = rev (combine (alloc_run (length srcs) p) ws) ++ destFile p
    /\ (forall i a w, srcs !! i = Some a -> ws !! i = Some w ->
          length w = length a
          /\ forall k, 4 <= k ->
               k < 4 + (nByte - Z.of_nat i * (szUsable p - 4))
               \/ szUsable p <= k ->
               peek w k = peek a k).
Proof.
  intros H0 HU HnB Hchain Hlen Hok.
  destruct (scrubDefragOverflow_copy env p pgno nByte srcs
              H0 HU HnB Hchain Hlen Hok) as (ws & H1 & H2 & _ & H4).
  exists ws. repeat split; try assumption; apply (H4 i a w); assumption.
Qed.

Lemma db_overflow_chain :
  chain_pages db_env 512 3 961 [db_page3; db_page4].
Proof.
  apply (pages_link db_env 512 3 961 db_page3 [db_page4]).
  - discriminate.
  - reflexivity.
  - reflexivity.
  - vm_compute. discriminate.
  - apply (pages_last db_env 512 4 453 db_page4).
    + discriminate.
    + reflexivity.
    + vm_compute. split; congruence.
    + reflexivity.
Qed.

Lemma db_overflow_pages_long :
  Forall (fun a : list byte => (4 <= length a)%nat) [db_page3; db_page4].
Proof.
  apply List.Forall_cons; [vm_compute; lia|].
  apply List.Forall_cons; [vm_compute; lia|]. apply List.Forall_nil.
Qed.

Lemma overflow_copy_relinked_witness :
  alloc_run 2 db_overflow_state = [3; 4]
  /\ exists ws,
       length ws = length [db_page3; db_page4]
       /\ destFile (scrubDefragOverflow db_env db_overflow_state 3 961)
          = rev (combine (alloc_run (length [db_page3; db_page4])
                            db_overflow_state) ws)
            ++ destFile db_overflow_state
       /\ (forall i w, ws !! i = Some w ->
             scrubDefragInt32 w 0
             = default 0 (alloc_run (length [db_page3; db_page4])
                            db_overflow_state !! S i)).
Proof.
  split; [vm_compute; reflexivity|].
  apply (overflow_copy_relinked db_env db_overflow_state 3 961
           [db_page3; db_page4]).
  - reflexivity.
  - vm_compute. split; congruence.
  - reflexivity.
  - exact db_overflow_chain.
  - exact db_overflow_pages_long.
  - vm_compute. reflexivity.
Defined.

Lemma overflow_copy_keeps_payload_witness :
  exists ws,
    length ws = length [db_page3; db_page4]
    /\ destFile (scrubDefragOverflow db_env db_overflow_state 3 961)
       = rev (combine (alloc_run (length [db_page3; db_page4])
                         db_overflow_state) ws)
         ++ destFile db_overflow_state
    /\ (forall i a w, [db_page3; db_page4] !! i = Some a -> ws !! i = Some w ->
          length w = length a
          /\ forall k, 4 <= k ->
               k < 4 + (961 - Z.of_nat i * (szUsable db_overflow_state - 4))
               \/ szUsable db_overflow_state <= k ->
               peek w k = peek a k).
Proof.
  apply (overflow_copy_keeps_payload db_env db_overflow_state 3 961
           [db_page3; db_page4]).
  - reflexivity.
  - vm_compute. split; congruence.
  - reflexivity.
  - exact db_overflow_chain.
  - exact db_overflow_pages_long.
  - vm_compute. reflexivity.
Defined.

(** ** Zeroing the free blocks *)

Lemma freeblock_list_zero (fuel : nat) (U : Z) (a : list byte) :
  freeblock_list fuel U a 0 = [].
Proof. destruct fuel; reflexivity. Qed.

(** The bodies of the blocks that the scan visits are zero afterwards, and
    the scan changes no byte outside them. *)
Lemma freeblock_loop_scrub (fuel : nat) (U : Z) (a : list byte) (pc : Z) :
  0 <= pc ->
  (forall k, in_freeblock_body (freeblock_list fuel U a pc) k ->
             peek (scan_val (freeblock_loop fuel U a pc)) k = 0)
  /\ (forall k, 0 <= k ->
                ~ in_freeblock_body (freeblock_list fuel U a pc) k ->
                peek (scan_val (freeblock_loop fuel U a pc)) k = peek a k).
Proof.
  unfold in_freeblock_body.
  revert a pc. induction fuel as [|fuel IH]; intros a pc Hpc; simpl.
  - split; [intros k H; inversion H | reflexivity].
  - destruct (pc =? 0); [split; [intros k H; inversion H | reflexivity]|].
    destruct (u32 (U - 4) <? pc);
      [split; [intros k H; inversion H | reflexivity]|].
    destruct (U <? u32 (pc + scrubDefragInt16 a (pc + 2)));
      [split; [intros k H; inversion H | reflexivity]|].
    set (n := scrubDefragInt16 a (pc + 2)).
    set (a' := if 4 <? n then memset a (pc + 4) (n - 4) else a).
    assert (Hbody : forall k, pc + 4 <= k < pc + n -> peek a' k = 0).
    { intros k Hk. subst a'. destruct (Z.ltb_spec 4 n); [|lia].
      apply peek_memset_in; lia. }
    assert (Hout : forall k, 0 <= k -> ~ (pc + 4 <= k < pc + n) ->
                             peek a' k = peek a k).
    { intros k Hk Hn. subst a'. destruct (Z.ltb_spec 4 n); [|reflexivity].
      apply peek_memset_out; lia. }
    pose proof (scrubDefragInt16_range a' pc) as Hx.
    destruct ((scrubDefragInt16 a' pc <? u32 (pc + 4))
              && (0 <? scrubDefragInt16 a' pc)); simpl.
    + split.
      * intros k H. apply Exists_cons in H. destruct H as [H|H];
          [apply Hbody; exact H | inversion H].
      * intros k Hk H. apply Hout; [exact Hk|]. intros Hin. apply H.
        apply Exists_cons. left. exact Hin.
    + destruct (IH a' (scrubDefragInt16 a' pc) ltac:(lia)) as [IHz IHf].
      split.
      * intros k H. apply Exists_cons in H. destruct H as [H|H].
        -- simpl in H. apply freeblock_loop_keeps_zero; [lia | lia|].
           apply Hbody. exact H.
        -- apply IHz. exact H.
      * intros k Hk H. rewrite IHf.
        -- apply Hout; [exact Hk|]. intros Hin. apply H.
           apply Exists_cons. left. exact Hin.
        -- exact Hk.
        -- intros Hin. apply H. apply Exists_cons. right. exact Hin.
Qed.

(** The scan of the free blocks reads only bytes from the offset of its
    first block on: two buffers that agree from [lo] on have the same
    blocks when the scan starts at or behind [lo]. *)
Lemma freeblock_list_ext (fuel : nat) (U lo : Z) (a b : list byte) (pc : Z) :
  0 <= lo -> pc = 0 \/ lo <= pc < 65536 ->
  (forall k, lo <= k -> peek a k = peek b k) ->
  freeblock_list fuel U a pc = freeblock_list fuel U b pc.
Proof.
  revert a b pc. induction fuel as [|fuel IH]; intros a b pc Hlo Hpc Hab;
    simpl; [reflexivity|].
  destruct (Z.eqb_spec pc 0) as [|Hnz]; [reflexivity|].
  destruct Hpc as [Hpc|Hpc]; [contradiction|].
  destruct (u32 (U - 4) <? pc); [reflexivity|].
  assert (Hn : scrubDefragInt16 a (pc + 2) = scrubDefragInt16 b (pc + 2))
    by (apply scrubDefragInt16_agree; apply Hab; lia).
  rewrite Hn.
  destruct (U <? u32 (pc + scrubDefragInt16 b (pc + 2))); [reflexivity|].
  set (n := scrubDefragInt16 b (pc + 2)).
  set (a' := if 4 <? n then memset a (pc + 4) (n - 4) else a).
  set (b' := if 4 <? n then memset b (pc + 4) (n - 4) else b).
  assert (Hab' : forall k, lo <= k -> peek a' k = peek b' k).
  { intros k Hk. subst a' b'. destruct (4 <? n); [|apply Hab; exact Hk].
    destruct (Z.lt_ge_cases k (pc + 4)) as [H1|H1];
      [rewrite !peek_memset_out by lia; apply Hab; exact Hk|].
    destruct (Z.lt_ge_cases k (pc + 4 + (n - 4))) as [H2|H2].
    - rewrite !peek_memset_in by lia. reflexivity.
    - rewrite !peek_memset_out by lia. apply Hab. exact Hk. }
  assert (Hx : scrubDefragInt16 a' pc = scrubDefragInt16 b' pc)
    by (apply scrubDefragInt16_agree; apply Hab'; lia).
  rewrite Hx.
  pose proof (scrubDefragInt16_range b' pc) as Hr.
  rewrite (u32_small (pc + 4)) by lia.
  destruct (Z.ltb_spec (scrubDefragInt16 b' pc) (pc + 4));
    destruct (Z.ltb_spec 0 (scrubDefragInt16 b' pc)); simpl;
    try reflexivity; f_equal.
  - replace (scrubDefragInt16 b' pc) with 0 by lia.
    rewrite !freeblock_list_zero. reflexivity.
  - apply IH; try assumption. right. lia.
  - replace (scrubDefragInt16 b' pc) with 0 by lia.
    rewrite !freeblock_list_zero. reflexivity.
Qed.

(** X16.  A header scan that finds no corruption has zeroed the body of
    every free block of the page, that is, the bytes behind the link and
    the size of the block, and it has changed no byte outside these bodies
    and the gap between the cell index and the cell content area. *)
Theorem header_scan_zeroes_free_blocks (U pgno : Z) (a a' : list byte) :
  btree_header U pgno a = Good a' ->
  (forall k, in_freeblock_body (page_freeblocks U pgno a) k -> peek a' k = 0)
  /\ (forall k, 0 <= k ->
         ~ in_freeblock_body (page_freeblocks U pgno a) k ->
         ~ (gap_start pgno a <= k < cell_start pgno a) ->
         peek a' k = peek a k)
  /\ length a' = length a.
Proof.
  intros Hh.
  pose proof (length_btree_header U pgno a) as Hlen. rewrite Hh in Hlen.
  pose proof (btree_header_good _ _ _ _ Hh) as Hgood.
  pose proof (gap_start_range pgno a) as Hg.
  pose proof (scrubDefragInt16_range a (btree_nPrefix pgno + 5)) as Hc.
  fold (cell_start pgno a) in Hc.
  assert (HnP : 0 <= btree_nPrefix pgno)
    by (unfold btree_nPrefix; destruct (pgno =? 1); lia).
  assert (Hlow : btree_nPrefix pgno + 8 <= gap_start pgno a).
  { unfold gap_start, btree_szHdr.
    pose proof (scrubDefragInt16_range a (btree_nPrefix pgno + 3)).
    destruct (_ || _); lia. }
  revert Hh. unfold btree_header, page_freeblocks. fold (cell_start pgno a).
  replace (u32 (btree_szHdr a (btree_nPrefix pgno) + btree_nPrefix pgno
                + scrubDefragInt16 a (btree_nPrefix pgno + 3) * 2))
    with (gap_start pgno a)
    by (symmetry; unfold gap_start in *; rewrite u32_small; lia).
  destruct (Z.ltb_spec U (cell_start pgno a)); [discriminate|].
  destruct (Z.ltb_spec (cell_start pgno a) (gap_start pgno a)); [discriminate|].
  set (a1 := if gap_start pgno a <? cell_start pgno a
             then memset a (gap_start pgno a)
                    (cell_start pgno a - gap_start pgno a)
             else a).
  assert (Ha1 : forall k, 0 <= k ->
                  ~ (gap_start pgno a <= k < cell_start pgno a) ->
                  peek a1 k = peek a k).
  { intros k Hk Hout. subst a1. destruct (_ <? _); [|reflexivity].
    apply peek_memset_out; lia. }
  assert (Hpc : scrubDefragInt16 a1 (btree_nPrefix pgno + 1)
                = scrubDefragInt16 a (btree_nPrefix pgno + 1))
    by (apply scrubDefragInt16_agree; apply Ha1; lia).
  rewrite Hpc.
  set (pc := scrubDefragInt16 a (btree_nPrefix pgno + 1)).
  pose proof (scrubDefragInt16_range a (btree_nPrefix pgno + 1)) as Hpcr.
  fold pc in Hpcr.
  destruct (Z.ltb_spec 0 pc); destruct (Z.ltb_spec pc (cell_start pgno a));
    simpl; try discriminate; intros Hloop.
  - (* the first block lies at or behind the cell content area *)
    assert (Hlist : freeblock_list (freeblock_fuel pc) U a1 pc
                    = freeblock_list (freeblock_fuel pc) U a pc).
    { apply (freeblock_list_ext _ U (cell_start pgno a)); [lia | right; lia|].
      intros k Hk. apply Ha1; lia. }
    destruct (freeblock_loop_scrub (freeblock_fuel pc) U a1 pc ltac:(lia))
      as [Hz Hf].
    rewrite Hloop, Hlist in Hz, Hf. simpl in Hz, Hf.
    split; [exact Hz|]. split; [|exact Hlen].
    intros k Hk Hb Hgap. rewrite Hf by assumption. apply Ha1; assumption.
  - (* no free block *)
    assert (pc = 0) by lia. subst pc.
    match goal with H : _ = 0 |- _ => rewrite H in * end.
    rewrite freeblock_loop_zero in Hloop. injection Hloop as <-.
    rewrite freeblock_list_zero. unfold in_freeblock_body.
    split; [intros k Hin; inversion Hin|]. split; [|exact Hlen].
    intros k Hk _ Hgap. apply Ha1; assumption.
  - assert (pc = 0) by lia. subst pc.
    match goal with H : _ = 0 |- _ => rewrite H in * end.
    rewrite freeblock_loop_zero in Hloop. injection Hloop as <-.
    rewrite freeblock_list_zero. unfold in_freeblock_body.
    split; [intros k Hin; inversion Hin|]. split; [|exact Hlen].
    intros k Hk _ Hgap. apply Ha1; assumption.
Qed.

Lemma header_scan_zeroes_free_blocks_witness :
  page_freeblocks 512 2 fb_page = [(300, 20)]
  /\ peek fb_page 310 = 9
  /\ peek (scan_val (btree_header 512 2 fb_page)) 310 = 0
  /\ peek (scan_val (btree_header 512 2 fb_page)) 400 = 20.
Proof.
  assert (Hh : btree_header 512 2 fb_page
               = Good (scan_val (btree_header 512 2 fb_page)))
    by (vm_compute; reflexivity).
  destruct (header_scan_zeroes_free_blocks 512 2 fb_page _ Hh)
    as (Hz & Hf & _).
  assert (Hl : page_freeblocks 512 2 fb_page = [(300, 20)])
    by (vm_compute; reflexivity).
  split; [exact Hl|]. split; [vm_compute; reflexivity|]. split.
  - apply Hz. rewrite Hl. apply Exists_cons. left. simpl. lia.
  - rewrite Hf.
    + vm_compute. reflexivity.
    + lia.
    + rewrite Hl. intros Hin. apply Exists_cons in Hin.
      destruct Hin as [Hin|Hin]; [simpl in Hin; lia | inversion Hin].
    + vm_compute. intros [H1 H2]. discriminate H2.
Defined.

(** ** The walk of the tree *)

(** The steps of a call that starts and ends without a recorded error,
    with what the load of the page leaves of the state. *)
Lemma scrubDefragBtree_fuel_steps (env : Env) (fuel : nat)
    (p : ScrubDefragState) (pgno iDepth : Z) (bRoot : bool) :
  rcErr p = 0 ->
  rcErr (scrubDefragBtree_fuel env (S fuel) p pgno iDepth bRoot) = 0 ->
  let child := fun q iChild =>
    scrubDefragBtree_fuel env fuel q iChild (iDepth + 1) false in
  exists a a' q q1 b1 q2 b2 q3 b3,
    let q4 := if bRoot then scrubDefragIncDestPageNo q3 else q3 in
    btree_loads env p pgno a
    /\ (rcErr q = 0 /\ szUsable q = szUsable p
        /\ iDestPageNo q = iDestPageNo p /\ destFile q = destFile p
        /\ page1 q = page1 p /\ iLock q = iLock p)
    /\ btree_header (szUsable p) pgno a = Good a'
    /\ frame_upd pgno (fun _ => a') q a' = (q1, b1)
    /\ btree_cells env child pgno (btree_nPrefix pgno)
         (btree_szHdr a (btree_nPrefix pgno))
         (Z.to_nat (scrubDefragInt16 a (btree_nPrefix pgno + 3))) 0 q1 b1
       = Good (q2, b2)
    /\ btree_rightmost child pgno (btree_nPrefix pgno) q2 b2 = (q3, b3)
    /\ rcErr q3 = 0
    /\ iDepth <= 50
    /\ scrubDefragBtree_fuel env (S fuel) p pgno iDepth bRoot
       = set_destFile ((iDestPageNo p, frame_buf pgno q4 b3) :: destFile q4) q4.
Proof.
  intros H0 Hok child. rewrite scrubDefragBtree_fuel_unfold in *.
  rewrite H0 in *. simpl negb in *. cbv iota in *.
  destruct (Z.ltb_spec 50 iDepth);
    [exfalso; exact (rcErr_scrubDefragErr _ _ Hok)|].
  cbv zeta in Hok |- *. fold child in Hok |- *.
  assert (Hload : exists q a,
    (if pgno =? 1 then (p, Some (page1 p))
     else scrubDefragRead env p pgno false) = (q, Some a)
    /\ btree_loads env p pgno a
    /\ (rcErr q = 0 /\ szUsable q = szUsable p
        /\ iDestPageNo q = iDestPageNo p /\ destFile q = destFile p
        /\ page1 q = page1 p /\ iLock q = iLock p)).
  { unfold btree_loads. destruct (pgno =? 1).
    - exists p, (page1 p). repeat split; assumption || reflexivity.
    - destruct (scrubDefragRead_cases env p pgno false H0)
        as [(q & a & E & Hx & Hq & Hu & Hi & Hd & H1 & _ & Hl) | (q & E & Hq)].
      + exists q, a. rewrite E. repeat split; assumption.
      + rewrite E in Hok. contradiction. }
  destruct Hload as (q & a & E & Hl & Hq). rewrite E in *. clear E.
  destruct Hq as (Hq & Hu & Hrest). rewrite Hu in *.
  destruct (btree_header (szUsable p) pgno a) as [a'|ln a'] eqn:Eh.
  2:{ destruct (frame_upd pgno _ q a') as [q1 b1].
      exfalso. exact (rcErr_scrubDefragErr _ _ Hok). }
  destruct (frame_upd pgno _ q a') as [q1 b1] eqn:Ef.
  destruct (btree_cells _ _ _ _ _ _ _ q1 b1) as [[q2 b2]|ln [q2 b2]] eqn:Ec.
  2:{ exfalso. exact (rcErr_scrubDefragErr _ _ Hok). }
  destruct (btree_rightmost _ _ _ q2 b2) as [q3 b3] eqn:Er.
  set (q4 := if bRoot then scrubDefragIncDestPageNo q3 else q3) in *.
  exists a, a', q, q1, b1, q2, b2, q3, b3. cbv zeta. fold q4.
  assert (H4 : rcErr q4 = 0).
  { destruct (Z.eq_dec (rcErr q4) 0) as [H4|H4]; [exact H4|].
    exfalso. apply H4. unfold scrubDefragWrite in Hok.
    destruct (Z.eqb_spec (rcErr q4) 0); [contradiction|]. exact Hok. }
  assert (H3 : rcErr q3 = 0).
  { subst q4. destruct bRoot; [|exact H4].
    unfold scrubDefragIncDestPageNo in H4. simpl in H4.
    destruct (_ =? _); exact H4. }
  destruct (scrubDefragWrite_cases env q4 (iDestPageNo p)
              (frame_buf pgno q4 b3) H4) as [[Hw Hle]|Hw];
    [|contradiction].
  repeat split; try assumption; try reflexivity; apply Hrest.
Qed.

Lemma frame_upd_private (pgno : Z) (f : list byte -> list byte)
    (p : ScrubDefragState) (a : list byte) :
  pgno <> 1 -> frame_upd pgno f p a = (p, f a).
Proof.
  intros H. unfold frame_upd. rewrite (proj2 (Z.eqb_neq pgno 1) H).
  reflexivity.
Qed.

Lemma frame_buf_private (pgno : Z) (p : ScrubDefragState) (a : list byte) :
  pgno <> 1 -> frame_buf pgno p a = a.
Proof.
  intros H. unfold frame_buf. rewrite (proj2 (Z.eqb_neq pgno 1) H).
  reflexivity.
Qed.

Lemma btree_nPrefix_other (pgno : Z) : pgno <> 1 -> btree_nPrefix pgno = 0.
Proof.
  intros H. unfold btree_nPrefix. rewrite (proj2 (Z.eqb_neq pgno 1) H).
  reflexivity.
Qed.

Lemma btree_szHdr_interior (a : list byte) (nPrefix : Z) :
  is_interior (peek a nPrefix) = true -> btree_szHdr a nPrefix = 12.
Proof.
  unfold is_interior, btree_szHdr. rewrite orb_comm.
  intros ->. reflexivity.
Qed.

Lemma scrubDefragInt32_agree (a b : list byte) (off : Z) :
  (forall k, off <= k < off + 4 -> peek a k = peek b k) ->
  scrubDefragInt32 a off = scrubDefragInt32 b off.
Proof.
  intros H. rewrite !scrubDefragInt32_spec.
  rewrite !H by lia. reflexivity.
Qed.

Lemma rcErr_inc (p : ScrubDefragState) :
  rcErr (scrubDefragIncDestPageNo p) = rcErr p.
Proof. unfold scrubDefragIncDestPageNo. simpl. destruct (_ =? _); reflexivity. Qed.

Lemma zErr_inc (p : ScrubDefragState) :
  zErr (scrubDefragIncDestPageNo p) = zErr p.
Proof. unfold scrubDefragIncDestPageNo. simpl. destruct (_ =? _); reflexivity. Qed.

Lemma destFile_inc (p : ScrubDefragState) :
  destFile (scrubDefragIncDestPageNo p) = destFile p.
Proof. unfold scrubDefragIncDestPageNo. simpl. destruct (_ =? _); reflexivity. Qed.

Section SelfReference.

Variable env : Env.
Variables g U : Z.
Variable a : list byte.

Hypothesis g_not_1 : g <> 1.
Hypothesis malloc_always : forall n, malloc_ok env n = true.
Hypothesis page_g : xRead env g = Some a.
Hypothesis kind_interior : is_interior (peek a 0) = true.
Hypothesis no_cells : scrubDefragInt16 a 3 = 0.
Hypothesis no_freeblock : scrubDefragInt16 a 1 = 0.
Hypothesis cell_start_legal : 12 <= scrubDefragInt16 a 5 <= U.
Hypothesis right_child_self : scrubDefragInt32 a 8 = g.

Lemma self_reference_header :
  exists a1, btree_header U g a = Good a1
             /\ forall k, 0 <= k < 12 -> peek a1 k = peek a k.
Proof.
  assert (Hgap : gap_start g a = 12).
  { unfold gap_start. rewrite (btree_nPrefix_other g g_not_1).
    rewrite (btree_szHdr_interior a 0 kind_interior).
    change (0 + 3) with 3. rewrite no_cells. reflexivity. }
  assert (Hframe : forall k, 0 <= k < 12 ->
            peek (scan_val (btree_header U g a)) k = peek a k).
  { intros k Hk. apply btree_header_frame. left. rewrite Hgap. exact Hk. }
  assert (Hgood : exists a1, btree_header U g a = Good a1).
  { unfold btree_header. rewrite (btree_nPrefix_other g g_not_1).
    rewrite (btree_szHdr_interior a 0 kind_interior).
    change (0 + 3) with 3. change (0 + 5) with 5. change (0 + 1) with 1.
    cbv zeta. rewrite no_cells.
    change (u32 (12 + 0 + 0 * 2)) with 12.
    destruct (Z.ltb_spec U (scrubDefragInt16 a 5)); [lia|].
    destruct (Z.ltb_spec (scrubDefragInt16 a 5) 12); [lia|].
    set (a1 := if 12 <? scrubDefragInt16 a 5
               then memset a 12 (scrubDefragInt16 a 5 - 12) else a).
    assert (Hpc : scrubDefragInt16 a1 1 = 0).
    { rewrite <- no_freeblock. apply scrubDefragInt16_agree; subst a1;
        (destruct (_ <? _); [apply peek_memset_out; lia | reflexivity]). }
    rewrite Hpc. change (0 <? 0) with false. simpl andb. cbv iota.
    exists a1. apply freeblock_loop_zero. }
  destruct Hgood as [a1 E]. exists a1. split; [exact E|].
  intros k Hk. specialize (Hframe k Hk). rewrite E in Hframe. exact Hframe.
Qed.

Lemma self_reference_too_deep (fuel : nat) (q : ScrubDefragState)
    (iDepth : Z) (bRoot : bool) :
  rcErr q = 0 -> szUsable q = U ->
  (Z.to_nat (51 - iDepth) <= fuel)%nat ->
  let r := scrubDefragBtree_fuel env fuel q g iDepth bRoot in
  rcErr r = SQLITE_ERROR /\ zErr r = Some (ErrTooDeep g)
  /\ destFile r = destFile q.
Proof.
  revert q iDepth bRoot.
  induction fuel as [|fuel IH]; intros q iDepth bRoot H0 HU Hfuel r; subst r.
  - rewrite scrubDefragBtree_fuel_zero. rewrite H0. simpl negb. cbv iota.
    destruct (Z.ltb_spec 50 iDepth); [|lia].
    unfold scrubDefragErr. simpl. rewrite H0. repeat split; reflexivity.
  - rewrite scrubDefragBtree_fuel_unfold. rewrite H0. simpl negb. cbv iota.
    destruct (Z.ltb_spec 50 iDepth).
    { unfold scrubDefragErr. simpl. rewrite H0. repeat split; reflexivity. }
    cbv zeta. rewrite (proj2 (Z.eqb_neq g 1) g_not_1).
    assert (Hread : scrubDefragRead env q g false
                    = (set_nAlloc (S (nAlloc q)) q, Some a)).
    { unfold scrubDefragRead, scrubDefragAllocPage. rewrite H0. simpl.
      rewrite malloc_always. simpl. rewrite page_g. reflexivity. }
    rewrite Hread. simpl szUsable. rewrite HU.
    destruct self_reference_header as (a1 & Eh & Ha1). rewrite Eh.
    rewrite (frame_upd_private g _ _ _ g_not_1).
    rewrite (btree_nPrefix_other g g_not_1).
    change (0 + 3) with 3. rewrite no_cells.
    change (Z.to_nat 0) with O. simpl btree_cells. cbv iota.
    unfold btree_rightmost.
    rewrite (frame_buf_private g _ _ g_not_1).
    rewrite (Ha1 0) by lia. rewrite kind_interior.
    rewrite (frame_upd_private g _ _ _ g_not_1).
    set (q1 := scrubDefragIncDestPageNo (set_nAlloc (S (nAlloc q)) q)).
    destruct (IH q1 (iDepth + 1) false) as (Hrc & Hmsg & Hlog).
    + subst q1. rewrite rcErr_inc. exact H0.
    + subst q1. rewrite szUsable_inc. exact HU.
    + lia.
    + set (r1 := scrubDefragBtree_fuel env fuel q1
                   (scrubDefragInt32 a1 (0 + 8)) (iDepth + 1) false) in *.
      assert (Hchild : scrubDefragInt32 a1 (0 + 8) = g).
      { rewrite <- right_child_self. apply scrubDefragInt32_agree.
        intros k Hk. apply Ha1. lia. }
      subst r1. rewrite Hchild in *.
      set (r1 := scrubDefragBtree_fuel env fuel q1 g (iDepth + 1) false) in *.
      set (r2 := if bRoot then scrubDefragIncDestPageNo r1 else r1).
      assert (H2 : rcErr r2 = SQLITE_ERROR /\ zErr r2 = Some (ErrTooDeep g)
                   /\ destFile r2 = destFile q).
      { subst r2. destruct bRoot;
          rewrite ?rcErr_inc, ?zErr_inc, ?destFile_inc;
          (split; [exact Hrc | split; [exact Hmsg|]]);
          rewrite Hlog; subst q1; rewrite destFile_inc; reflexivity. }
      unfold scrubDefragWrite.
      destruct (Z.eqb_spec (rcErr r2) 0) as [E|E];
        [rewrite (proj1 H2) in E; discriminate E|].
      simpl. exact H2.
Qed.

End SelfReference.

(** X17.  A page that names itself as its right child is walked 51 levels
    deep and no further: for an interior page without cells and free blocks
    whose right-child pointer is its own number, the rewriter ends with
    [SQLITE_ERROR] and the message that the tree is too deep at that page,
    and it writes nothing. *)
Theorem self_referencing_page_too_deep (env : Env) (p : ScrubDefragState)
    (g : Z) (a : list byte) (bRoot : bool) :
  rcErr p = 0 -> g <> 1 ->
  (forall n, malloc_ok env n = true) ->
  xRead env g = Some a ->
  is_interior (peek a 0) = true ->
  scrubDefragInt16 a 3 = 0 -> scrubDefragInt16 a 1 = 0 ->
  12 <= scrubDefragInt16 a 5 <= szUsable p ->
  scrubDefragInt32 a 8 = g ->
  rcErr (scrubDefragBtree env p g 0 bRoot) = SQLITE_ERROR
  /\ zErr (scrubDefragBtree env p g 0 bRoot) = Some (ErrTooDeep g)
  /\ destFile (scrubDefragBtree env p g 0 bRoot) = destFile p.
Proof.
  intros H0 Hg Hm Hrd Hk Hn Hf Hc Hr.
  unfold scrubDefragBtree.
  apply (self_reference_too_deep env g (szUsable p) a Hg Hm Hrd Hk Hn Hf Hc Hr
           btree_depth_fuel p 0 bRoot H0 eq_refl).
  unfold btree_depth_fuel. simpl. lia.
Qed.

Lemma self_referencing_page_too_deep_witness :
  rcErr (scrubDefragBtree loop_env (fix_header db_state0) 2 0 true)
  = SQLITE_ERROR
  /\ zErr (scrubDefragBtree loop_env (fix_header db_state0) 2 0 true)
     = Some (ErrTooDeep 2)
  /\ destFile (scrubDefragBtree loop_env (fix_header db_state0) 2 0 true)
     = destFile (fix_header db_state0).
Proof.
  apply (self_referencing_page_too_deep loop_env (fix_header db_state0) 2
           loop_page true).
  - reflexivity.
  - discriminate.
  - intros n. reflexivity.
  - reflexivity.
  - reflexivity.
  - reflexivity.
  - reflexivity.
  - vm_compute. split; congruence.
  - reflexivity.
Defined.

(** ** A leaf page without overflow *)

Section LocalCells.

Variable env : Env.
Variable child : ScrubDefragState -> Z -> ScrubDefragState.
Variables pgno nPrefix szHdr : Z.

(** Cells whose payload is local leave the state and the buffer alone. *)
Lemma btree_cells_local (n : nat) (i : Z) (q : ScrubDefragState)
    (b : list byte) (q' : ScrubDefragState) (b' : list byte) :
  0 <= i -> i + Z.of_nat n <= 65536 ->
  is_interior (peek (frame_buf pgno q b) nPrefix) = false ->
  (forall j, i <= j < i + Z.of_nat n ->
     payload_plan (szUsable q) (peek (frame_buf pgno q b) nPrefix)
       (frame_buf pgno q b)
       (scrubDefragInt16 (frame_buf pgno q b) (nPrefix + szHdr + j * 2))
     = PlanLocal) ->
  btree_cells env child pgno nPrefix szHdr n i q b = Good (q', b') ->
  q' = q /\ b' = b.
Proof.
  revert i. induction n as [|n IH]; intros i Hi Hn Hleaf Hplan; simpl.
  - intros E. injection E as <- <-. split; reflexivity.
  - assert (Hcell : btree_cell env child pgno nPrefix szHdr i q b = Good (q, b)
                    \/ exists ln, btree_cell env child pgno nPrefix szHdr i q b
                                  = Corrupt ln (q, b)).
    { unfold btree_cell.
      destruct (_ <=? szHdr); [right; eexists; reflexivity|].
      destruct (_ <? _); [right; eexists; reflexivity|].
      rewrite Hleaf. unfold btree_payload.
      rewrite (Hplan i) by lia. left. reflexivity. }
    destruct Hcell as [E|[ln E]]; rewrite E; [|discriminate].
    rewrite (u32_small (i + 1)) by lia.
    apply IH; try lia; try assumption.
    intros j Hj. apply Hplan. lia.
Qed.

End LocalCells.

Lemma frame_upd_state (pgno : Z) (f : list byte -> list byte)
    (p : ScrubDefragState) (a : list byte) :
  rcErr (fst (frame_upd pgno f p a)) = rcErr p
  /\ iDestPageNo (fst (frame_upd pgno f p a)) = iDestPageNo p
  /\ iLock (fst (frame_upd pgno f p a)) = iLock p
  /\ destFile (fst (frame_upd pgno f p a)) = destFile p.
Proof. unfold frame_upd. destruct (pgno =? 1); repeat split; reflexivity. Qed.

Lemma btree_loads_unique (env : Env) (p : ScrubDefragState) (pgno : Z)
    (a b : list byte) :
  btree_loads env p pgno a -> btree_loads env p pgno b -> a = b.
Proof. unfold btree_loads. destruct (pgno =? 1); congruence. Qed.

Lemma rcErr_entry (env : Env) (fuel : nat) (p : ScrubDefragState)
    (pgno iDepth : Z) (bRoot : bool) :
  rcErr (scrubDefragBtree_fuel env fuel p pgno iDepth bRoot) = 0 -> rcErr p = 0.
Proof.
  intros Hok. destruct (Z.eq_dec (rcErr p) 0) as [E|E]; [exact E|].
  rewrite scrubDefragBtree_fuel_sticky in Hok by exact E. contradiction.
Qed.

(** X18.  A page that is not an interior page and whose cells all keep
    their payload on the page is written exactly as the header scan leaves
    it: a call that ends without error writes that buffer, and nothing
    else, under the number that the allocator showed on entry, and it
    advances the allocator only if the page is a root. *)
Theorem local_leaf_written_as_scrubbed (env : Env) (fuel : nat)
    (p : ScrubDefragState) (pgno iDepth : Z) (bRoot : bool)
    (a a' : list byte) :
  rcErr (scrubDefragBtree_fuel env (S fuel) p pgno iDepth bRoot) = 0 ->
  btree_loads env p pgno a ->
  btree_header (szUsable p) pgno a = Good a' ->
  is_interior (peek a (btree_nPrefix pgno)) = false ->
  (forall j, 0 <= j < scrubDefragInt16 a (btree_nPrefix pgno + 3) ->
     payload_plan (szUsable p) (peek a (btree_nPrefix pgno)) a'
       (scrubDefragInt16 a
          (btree_nPrefix pgno + btree_szHdr a (btree_nPrefix pgno) + j * 2))
     = PlanLocal) ->
  destFile (scrubDefragBtree_fuel env (S fuel) p pgno iDepth bRoot)
  = (iDestPageNo p, a') :: destFile p
  /\ iDestPageNo (scrubDefragBtree_fuel env (S fuel) p pgno iDepth bRoot)
     = (if bRoot then iDestPageNo (scrubDefragIncDestPageNo p)
        else iDestPageNo p).
Proof.
  intros Hok Hl Hh Hleaf Hplan.
  pose proof (rcErr_entry _ _ _ _ _ _ Hok) as H0.
  destruct (scrubDefragBtree_fuel_steps env fuel p pgno iDepth bRoot H0 Hok)
    as (a0 & a0' & q & q1 & b1 & q2 & b2 & q3 & b3
        & Hl0 & (Hq & Hu & Hi & Hd & Hp1 & Hlk) & Hh0 & Ef & Ec & Er
        & _ & _ & Hres).
  rewrite (btree_loads_unique _ _ _ _ _ Hl0 Hl) in *. clear Hl0.
  rewrite Hh in Hh0. injection Hh0 as <-.
  pose proof (gap_start_range pgno a) as Hg.
  assert (HnP : 0 <= btree_nPrefix pgno)
    by (unfold btree_nPrefix; destruct (pgno =? 1); lia).
  pose proof (scrubDefragInt16_range a (btree_nPrefix pgno + 3)) as HnCell.
  assert (Hsz : 8 <= btree_szHdr a (btree_nPrefix pgno))
    by (unfold btree_szHdr; destruct (_ || _); lia).
  assert (Hframe : forall k, 0 <= k < gap_start pgno a -> peek a' k = peek a k).
  { intros k Hk. pose proof (btree_header_frame (szUsable p) pgno a k
                               ltac:(left; exact Hk)) as Hf.
    rewrite Hh in Hf. exact Hf. }
  assert (Hgs : gap_start pgno a
                = btree_nPrefix pgno + btree_szHdr a (btree_nPrefix pgno)
                  + 2 * scrubDefragInt16 a (btree_nPrefix pgno + 3))
    by reflexivity.
  pose proof (frame_buf_upd pgno (fun _ => a') q a') as Hb1.
  pose proof (szUsable_frame_upd pgno (fun _ => a') q a') as Hu1.
  pose proof (frame_upd_state pgno (fun _ => a') q a') as Hs1.
  rewrite Ef in Hb1, Hu1, Hs1. simpl in Hb1, Hu1, Hs1.
  destruct Hs1 as (_ & Hi1 & Hlk1 & Hd1).
  assert (Hc3 : is_interior (peek (frame_buf pgno q1 b1) (btree_nPrefix pgno))
                = false)
    by (rewrite Hb1, Hframe by lia; exact Hleaf).
  assert (Hc4 : forall j,
    0 <= j < 0 + Z.of_nat (Z.to_nat (scrubDefragInt16 a (btree_nPrefix pgno + 3))) ->
    payload_plan (szUsable q1) (peek (frame_buf pgno q1 b1) (btree_nPrefix pgno))
      (frame_buf pgno q1 b1)
      (scrubDefragInt16 (frame_buf pgno q1 b1)
         (btree_nPrefix pgno + btree_szHdr a (btree_nPrefix pgno) + j * 2))
    = PlanLocal).
  { intros j Hj. rewrite Z2Nat.id in Hj by lia.
    rewrite Hb1, Hu1, Hu, Hframe by lia.
    rewrite (scrubDefragInt16_agree a' a) by (apply Hframe; lia).
    apply Hplan. lia. }
  destruct (btree_cells_local env
              (fun q iChild =>
                 scrubDefragBtree_fuel env fuel q iChild (iDepth + 1) false)
              pgno (btree_nPrefix pgno) (btree_szHdr a (btree_nPrefix pgno))
              (Z.to_nat (scrubDefragInt16 a (btree_nPrefix pgno + 3))) 0
              q1 b1 q2 b2
              ltac:(lia) ltac:(rewrite Z2Nat.id by lia; lia) Hc3 Hc4 Ec)
    as [-> ->].
  unfold btree_rightmost in Er. rewrite Hc3 in Er.
  injection Er as <- <-.
  rewrite Hres. simpl destFile. simpl iDestPageNo.
  assert (Hq4 : page1 (if bRoot then scrubDefragIncDestPageNo q1 else q1)
                = page1 q1) by (destruct bRoot; [apply page1_inc | reflexivity]).
  rewrite (frame_buf_state pgno q1 _ b1 Hq4), Hb1.
  destruct bRoot.
  - rewrite destFile_inc, Hd1, Hd. split; [reflexivity|].
    apply iDestPageNo_inc_ext; congruence.
  - rewrite Hd1, Hd. split; [reflexivity | congruence].
Qed.

Lemma local_leaf_written_as_scrubbed_witness :
  destFile (scrubDefragBtree_fuel db_env 52 (fix_header db_state0) 1 0 true)
  = (iDestPageNo (fix_header db_state0),
     scan_val (btree_header (szUsable (fix_header db_state0)) 1 db_page1_fixed))
    :: destFile (fix_header db_state0).
Proof.
  apply (local_leaf_written_as_scrubbed db_env 51 (fix_header db_state0)
           1 0 true db_page1_fixed).
  - vm_compute. reflexivity.
  - reflexivity.
  - vm_compute. reflexivity.
  - vm_compute. reflexivity.
  - intros j Hj.
    assert (E : scrubDefragInt16 db_page1_fixed (btree_nPrefix 1 + 3) = 1)
      by (vm_compute; reflexivity).
    rewrite E in Hj. assert (j = 0) by lia. subst j.
    vm_compute. reflexivity.
Defined.

(** ** Child pointers in the copy *)

Lemma error_state_kept (env : Env) (p : ScrubDefragState) :
  rcErr p <> 0 ->
  fst (scrubDefragAllocPage env p) = p
  /\ (forall pgno hasBuf, fst (scrubDefragRead env p pgno hasBuf) = p)
  /\ (forall pgno a, scrubDefragWrite env p pgno a = p).
Proof.
  intros H.
  assert (E : negb (rcErr p =? 0) = true)
    by (destruct (Z.eqb_spec (rcErr p) 0); [contradiction | reflexivity]).
  unfold scrubDefragAllocPage, scrubDefragRead, scrubDefragWrite.
  rewrite E. repeat split; reflexivity.
Qed.

Lemma rc_ops (env : Env) (p : ScrubDefragState) :
  rcErr p <> 0 ->
  rcErr (scrubDefragIncDestPageNo p) <> 0
  /\ (forall msg, rcErr (scrubDefragErr p msg) <> 0)
  /\ rcErr (fst (scrubDefragAllocPage env p)) <> 0
  /\ (forall pgno hasBuf, rcErr (fst (scrubDefragRead env p pgno hasBuf)) <> 0)
  /\ (forall pgno a, rcErr (scrubDefragWrite env p pgno a) <> 0)
  /\ (forall b, rcErr (set_page1 b p) <> 0).
Proof.
  intros H.
  destruct (error_state_kept env p H) as (Ea & Er & Ew).
  repeat split; intros.
  - rewrite rcErr_inc. exact H.
  - apply rcErr_scrubDefragErr.
  - rewrite Ea. exact H.
  - rewrite Er. exact H.
  - rewrite Ew. exact H.
  - exact H.
Qed.

(** An error recorded during the walk of the cells is still recorded when
    the walk ends. *)
Lemma btree_cells_rc (env : Env) (fuel : nat) (iDepth pgno nPrefix szHdr : Z)
    (n : nat) (i : Z) (q : ScrubDefragState) (b : list byte) :
  rcErr q <> 0 ->
  rcErr (fst (scan_val
    (btree_cells env
       (fun q iChild => scrubDefragBtree_fuel env fuel q iChild (iDepth + 1) false)
       pgno nPrefix szHdr n i q b))) <> 0.
Proof.
  apply (btree_cells_inv env (fun s => rcErr s <> 0));
    try (intros s; intros; apply (rc_ops env s); assumption).
  intros s iChild Hs. rewrite scrubDefragBtree_fuel_sticky by exact Hs.
  exact Hs.
Qed.

Lemma btree_rightmost_rc (env : Env) (fuel : nat) (iDepth pgno nPrefix : Z)
    (q : ScrubDefragState) (b : list byte) :
  rcErr q <> 0 ->
  rcErr (fst (btree_rightmost
    (fun q iChild => scrubDefragBtree_fuel env fuel q iChild (iDepth + 1) false)
    pgno nPrefix q b)) <> 0.
Proof.
  intros H. unfold btree_rightmost. destruct (is_interior _); [|exact H].
  pose proof (frame_upd_state pgno
    (fun b0 => scrubDefragWriteInt32 b0 (nPrefix + 8)
       (iDestPageNo (scrubDefragIncDestPageNo q)))
    (scrubDefragIncDestPageNo q) b) as (Hrc & _).
  destruct (frame_upd pgno _ (scrubDefragIncDestPageNo q) b) as [q1 b1].
  simpl in *. rewrite rcErr_inc in Hrc.
  rewrite scrubDefragBtree_fuel_sticky by congruence. congruence.
Qed.

Lemma logged_btree (env : Env) (e : Z * list byte) (fuel : nat)
    (q : ScrubDefragState) (pgno iDepth : Z) (bRoot : bool) :
  In e (destFile q) ->
  In e (destFile (scrubDefragBtree_fuel env fuel q pgno iDepth bRoot)).
Proof.
  apply (scrubDefragBtree_fuel_inv env (fun s => In e (destFile s)));
    intros s; intros; logged_op env s H.
Qed.

(** A call for a child that ends without error has written the page of the
    child under the number that the allocator showed on entry, provided the
    fuel is enough for the depth. *)
Lemma child_call_writes (env : Env) (fuel : nat) (q : ScrubDefragState)
    (pgno iDepth : Z) :
  (Z.to_nat (51 - iDepth) <= fuel)%nat ->
  rcErr (scrubDefragBtree_fuel env fuel q pgno iDepth false) = 0 ->
  exists w rest,
    destFile (scrubDefragBtree_fuel env fuel q pgno iDepth false)
    = (iDestPageNo q, w) :: rest.
Proof.
  intros Hfuel Hok. pose proof (rcErr_entry _ _ _ _ _ _ Hok) as H0.
  destruct fuel as [|fuel].
  - exfalso. rewrite scrubDefragBtree_fuel_zero in Hok.
    rewrite H0 in Hok. simpl negb in Hok. cbv iota in Hok.
    destruct (Z.ltb_spec 50 iDepth); [|lia].
    exact (rcErr_scrubDefragErr _ _ Hok).
  - destruct (scrubDefragBtree_fuel_success env fuel q pgno iDepth false H0 Hok)
      as (a & a' & q0 & w & _ & _ & Hres & Hw & _).
    cbv zeta in Hres, Hw. rewrite Hres, Hw. simpl. eauto.
Qed.


(** In a buffer of its own, the walk of the cells changes no byte up to
    offset [szHdr] and keeps the length of the buffer. *)
Section PrivateCells.

Variable env : Env.
Variable child : ScrubDefragState -> Z -> ScrubDefragState.
Variables pgno szHdr U : Z.

Hypothesis pgno_not_1 : pgno <> 1.
Hypothesis U_legal : 257 <= U <= 65536.
Hypothesis child_szUsable :
  forall q iChild, szUsable (child q iChild) = szUsable q.




End PrivateCells.


(** The walk of the cells of an interior table page held in a buffer of its
    own, when the cell pointers point behind the cell index, at least four
    bytes apart, and leave room for a child pointer. *)
Section InteriorTable.

Variable env : Env.
Variable fuel : nat.
Variables iDepth pgno nCell : Z.
Variable a0 : list byte.

Local Abbreviation child :=
  (fun q iChild => scrubDefragBtree_fuel env fuel q iChild (iDepth + 1) false).
Local Abbreviation pc j := (scrubDefragInt16 a0 (12 + j * 2)).

Hypothesis pgno_not_1 : pgno <> 1.
Hypothesis fuel_ok : (Z.to_nat (50 - iDepth) <= fuel)%nat.
Hypothesis kind5 : peek a0 0 = 5.
Hypothesis nCell_range : 0 <= nCell < 65536.
Hypothesis ptr_low : forall j, 0 <= j < nCell -> 12 + 2 * nCell <= pc j.
Hypothesis ptr_apart :
  forall j j', 0 <= j < nCell -> 0 <= j' < nCell -> j <> j' ->
               pc j + 4 <= pc j' \/ pc j' + 4 <= pc j.
Hypothesis ptr_fit :
  forall j, 0 <= j < nCell -> pc j + 4 <= Z.of_nat (length a0).

Lemma interior_table_cell (i : Z) (q : ScrubDefragState) (b : list byte)
    (q1 : ScrubDefragState) (b1 : list byte) :
  0 <= i < nCell ->
  (forall k, 0 <= k < 12 + 2 * nCell -> peek b k = peek a0 k) ->
  btree_cell env child pgno 0 12 i q b = Good (q1, b1) ->
  q1 = scrubDefragBtree_fuel env fuel (scrubDefragIncDestPageNo q)
         (scrubDefragInt32 b (pc i)) (iDepth + 1) false
  /\ b1 = scrubDefragWriteInt32 b (pc i)
            (iDestPageNo (scrubDefragIncDestPageNo q)).
Proof.
  intros Hi Hagree. unfold btree_cell.
  rewrite (frame_buf_private pgno _ _ pgno_not_1).
  replace (0 + 12 + i * 2) with (12 + i * 2) by lia.
  rewrite (scrubDefragInt16_agree b a0 (12 + i * 2))
    by (apply Hagree; lia).
  pose proof (ptr_low i Hi) as Hlow.
  destruct (_ <=? 12); [discriminate|].
  destruct (_ <? pc i); [discriminate|].
  rewrite (Hagree 0) by lia. rewrite kind5.
  change (is_interior 5) with true. cbv iota.
  destruct (_ <? _); [discriminate|].
  rewrite (frame_upd_private pgno _ _ _ pgno_not_1).
  rewrite (frame_buf_private pgno _ _ pgno_not_1).
  rewrite peek_scrubDefragWriteInt32_out by lia.
  rewrite (Hagree 0) by lia. rewrite kind5.
  change (5 =? 5) with true. cbv iota.
  intros E. injection E as <- <-. split; reflexivity.
Qed.

Lemma interior_table_cells (n : nat) (i : Z) (q : ScrubDefragState)
    (b : list byte) (q' : ScrubDefragState) (b' : list byte) :
  0 <= i -> i + Z.of_nat n = nCell ->
  length b = length a0 ->
  (forall k, 0 <= k < 12 + 2 * nCell -> peek b k = peek a0 k) ->
  btree_cells env child pgno 0 12 n i q b = Good (q', b') ->
  rcErr q' = 0 ->
  length b' = length b
  /\ (forall k, 0 <= k ->
        (forall j, i <= j < nCell -> ~ (pc j <= k < pc j + 4)) ->
        peek b' k = peek b k)
  /\ (forall j, i <= j < nCell ->
        exists c, In (scrubDefragInt32 b' (pc j), c) (destFile q'))
  /\ (forall e, In e (destFile q) -> In e (destFile q')).
Proof.
  revert i q b. induction n as [|n IH]; intros i q b Hi Hn Hlen Hagree;
    simpl.
  - intros E _. injection E as <- <-.
    split; [reflexivity|]. split; [reflexivity|].
    split; [intros j Hj; lia | intros e He; exact He].
  - destruct (btree_cell env child pgno 0 12 i q b)
      as [[q1 b1]|ln qb] eqn:Ecell; [|discriminate].
    apply (interior_table_cell i q b q1 b1 ltac:(lia) Hagree) in Ecell.
    destruct Ecell as [Eq1 Eb1].
    rewrite (u32_small (i + 1)) by lia.
    intros Ecells Hok.
    pose proof (ptr_low i ltac:(lia)) as Hlow.
    assert (Hlen1 : length b1 = length b)
      by (rewrite Eb1; apply length_scrubDefragWriteInt32).
    assert (Hagree1 : forall k, 0 <= k < 12 + 2 * nCell ->
                                peek b1 k = peek a0 k).
    { intros k Hk. rewrite Eb1, peek_scrubDefragWriteInt32_out by lia.
      apply Hagree. exact Hk. }
    destruct (IH (i + 1) q1 b1 ltac:(lia) ltac:(lia) ltac:(congruence)
                Hagree1 Ecells Hok) as (IHlen & IHframe & IHin & IHlog).
    assert (H1 : rcErr q1 = 0).
    { destruct (Z.eq_dec (rcErr q1) 0) as [E|E]; [exact E|]. exfalso.
      pose proof (btree_cells_rc env fuel iDepth pgno 0 12 n (i + 1) q1 b1 E)
        as Hrc.
      rewrite Ecells in Hrc. simpl in Hrc. contradiction. }
    rewrite Eq1 in H1.
    assert (Hc : (Z.to_nat (51 - (iDepth + 1)) <= fuel)%nat) by lia.
    destruct (child_call_writes env fuel _ _ _ Hc H1) as (c & rest & Hlog).
    rewrite <- Eq1 in Hlog.
    split; [congruence|]. split; [|split].
    + intros k Hk Hout. rewrite IHframe.
      * rewrite Eb1. apply peek_scrubDefragWriteInt32_out; [lia | lia|].
        specialize (Hout i ltac:(lia)). lia.
      * exact Hk.
      * intros j Hj. apply Hout. lia.
    + intros j Hj. destruct (Z.eq_dec j i) as [->|Hne].
      * exists c. apply IHlog.
        assert (Hptr : scrubDefragInt32 b' (pc i)
                       = iDestPageNo (scrubDefragIncDestPageNo q)).
        { rewrite (scrubDefragInt32_agree b' b1 (pc i)).
          - rewrite Eb1. apply scrubDefragInt32_WriteInt32.
            + lia.
            + pose proof (ptr_fit i ltac:(lia)). lia.
            + apply iDestPageNo_inc_range.
          - intros k Hk. apply IHframe; [lia|].
            intros j Hj' Hin.
            destruct (ptr_apart i j ltac:(lia) ltac:(lia) ltac:(lia)); lia. }
        rewrite Hptr, Hlog. left. reflexivity.
      * apply IHin. lia.
    + intros e He. apply IHlog. rewrite Eq1. apply logged_btree.
      rewrite destFile_inc. exact He.
Qed.

End InteriorTable.

(** X20.  In the copy of an interior table page (kind 0x05) other than
    page 1 whose cell pointers point into the cell content area, at least
    four bytes apart and with room for a child pointer, no child pointer
    dangles: a call that ends without error leaves the cell index as it was,
    and each left-child pointer and the right-child pointer of the page
    written name a page that was written before it. *)
Theorem interior_table_children_relinked (env : Env) (fuel : nat)
    (p : ScrubDefragState) (pgno iDepth : Z) (bRoot : bool) (a : list byte) :
  rcErr (scrubDefragBtree_fuel env (S fuel) p pgno iDepth bRoot) = 0 ->
  (Z.to_nat (50 - iDepth) <= fuel)%nat ->
  pgno <> 1 -> xRead env pgno = Some a -> peek a 0 = 5 ->
  (12 <= length a)%nat ->
  (forall j, 0 <= j < scrubDefragInt16 a 3 ->
     cell_start pgno a <= scrubDefragInt16 a (12 + j * 2)
     /\ scrubDefragInt16 a (12 + j * 2) + 4 <= Z.of_nat (length a)) ->
  (forall j j', 0 <= j < scrubDefragInt16 a 3 ->
     0 <= j' < scrubDefragInt16 a 3 -> j <> j' ->
     scrubDefragInt16 a (12 + j * 2) + 4 <= scrubDefragInt16 a (12 + j' * 2)
     \/ scrubDefragInt16 a (12 + j' * 2) + 4
        <= scrubDefragInt16 a (12 + j * 2)) ->
  exists w rest,
    destFile (scrubDefragBtree_fuel env (S fuel) p pgno iDepth bRoot)
    = (iDestPageNo p, w) :: rest
    /\ (forall j, 0 <= j < scrubDefragInt16 a 3 ->
          scrubDefragInt16 w (12 + j * 2) = scrubDefragInt16 a (12 + j * 2)
          /\ exists c,
               In (scrubDefragInt32 w (scrubDefragInt16 a (12 + j * 2)), c)
                  rest)
    /\ exists c, In (scrubDefragInt32 w 8, c) rest.
Proof.
  intros Hok Hfuel Hpg Hrd Hkind Hlen Hptr Hapart.
  pose proof (rcErr_entry _ _ _ _ _ _ Hok) as H0.
  destruct (scrubDefragBtree_fuel_steps env fuel p pgno iDepth bRoot H0 Hok)
    as (a0 & a' & q & q1 & b1 & q2 & b2 & q3 & b3
        & Hl0 & (Hq & Hu & Hi & Hd & Hp1 & Hlk) & Hh & Ef & Ec & Er
        & H3 & Hdepth & Hres).
  assert (a0 = a).
  { unfold btree_loads in Hl0. rewrite (proj2 (Z.eqb_neq pgno 1) Hpg) in Hl0.
    congruence. }
  subst a0.
  assert (Hint : is_interior (peek a 0) = true) by (rewrite Hkind; reflexivity).
  pose proof (btree_header_good _ _ _ _ Hh) as Hgood.
  assert (Hgap : gap_start pgno a = 12 + 2 * scrubDefragInt16 a 3).
  { unfold gap_start. rewrite (btree_nPrefix_other pgno Hpg).
    rewrite (btree_szHdr_interior a 0 Hint). reflexivity. }
  rewrite (btree_nPrefix_other pgno Hpg) in *.
  rewrite (btree_szHdr_interior a 0 Hint) in *.
  change (0 + 3) with 3 in *.
  rewrite (frame_upd_private pgno _ _ _ Hpg) in Ef. injection Ef as <- <-.
  pose proof (scrubDefragInt16_range a 3) as HnCell.
  set (nCell := scrubDefragInt16 a 3) in *.
  pose proof (length_btree_header (szUsable p) pgno a) as Hlen'.
  rewrite Hh in Hlen'. simpl in Hlen'.
  assert (Hframe : forall k, 0 <= k < 12 + 2 * nCell -> peek a' k = peek a k).
  { intros k Hk.
    pose proof (btree_header_frame (szUsable p) pgno a k) as Hf.
    rewrite Hh in Hf. apply Hf. left. rewrite Hgap. exact Hk. }
  assert (Hpc : forall j, 0 <= j < nCell ->
            scrubDefragInt16 a' (12 + j * 2) = scrubDefragInt16 a (12 + j * 2))
    by (intros j Hj; apply scrubDefragInt16_agree; apply Hframe; lia).
  assert (Hk5 : peek a' 0 = 5) by (rewrite Hframe by lia; exact Hkind).
  assert (Hlow' : forall j, 0 <= j < nCell ->
            12 + 2 * nCell <= scrubDefragInt16 a' (12 + j * 2)).
  { intros j Hj. rewrite (Hpc j Hj). destruct (Hptr j Hj) as [H1 _]. lia. }
  assert (Hapart' : forall j j', 0 <= j < nCell -> 0 <= j' < nCell -> j <> j' ->
            scrubDefragInt16 a' (12 + j * 2) + 4
            <= scrubDefragInt16 a' (12 + j' * 2)
            \/ scrubDefragInt16 a' (12 + j' * 2) + 4
               <= scrubDefragInt16 a' (12 + j * 2)).
  { intros j j' Hj Hj' Hne. rewrite (Hpc j Hj), (Hpc j' Hj').
    apply Hapart; assumption. }
  assert (Hfit' : forall j, 0 <= j < nCell ->
            scrubDefragInt16 a' (12 + j * 2) + 4 <= Z.of_nat (length a')).
  { intros j Hj. rewrite (Hpc j Hj), Hlen'. apply Hptr. exact Hj. }
  destruct (interior_table_cells env fuel iDepth pgno nCell a' Hpg Hfuel Hk5
              HnCell Hlow' Hapart' Hfit'
              (Z.to_nat nCell) 0 q a' q2 b2
              ltac:(lia) ltac:(lia) eq_refl ltac:(intros; reflexivity) Ec)
    as (Hlen2 & Hf2 & Hin2 & Hlog2).
  { destruct (Z.eq_dec (rcErr q2) 0) as [E|E]; [exact E|]. exfalso.
    pose proof (btree_rightmost_rc env fuel iDepth pgno 0 q2 b2 E) as Hrc.
    rewrite Er in Hrc. simpl in Hrc. contradiction. }
  assert (Hout : forall k, 0 <= k < 12 ->
                   forall j, 0 <= j < nCell ->
                     ~ (scrubDefragInt16 a' (12 + j * 2) <= k
                        < scrubDefragInt16 a' (12 + j * 2) + 4)).
  { intros k Hk j Hj. specialize (Hlow' j Hj). lia. }
  unfold btree_rightmost in Er.
  rewrite (frame_buf_private pgno _ _ Hpg) in Er.
  rewrite (Hf2 0 ltac:(lia) (Hout 0 ltac:(lia))) in Er.
  rewrite Hk5 in Er. change (is_interior 5) with true in Er. cbv iota in Er.
  rewrite (frame_upd_private pgno _ _ _ Hpg) in Er.
  injection Er as Eq3 Eb3.
  rewrite <- Eq3 in H3.
  assert (Hc : (Z.to_nat (51 - (iDepth + 1)) <= fuel)%nat) by lia.
  destruct (child_call_writes env fuel _ _ _ Hc H3) as (c & rest & Hlog).
  rewrite Eq3 in Hlog.
  assert (Hd4 : destFile (if bRoot then scrubDefragIncDestPageNo q3 else q3)
                = destFile q3)
    by (destruct bRoot; [apply destFile_inc | reflexivity]).
  exists b3, (destFile q3). split; [|split].
  - rewrite Hres. simpl destFile.
    rewrite (frame_buf_private pgno _ _ Hpg), Hd4. reflexivity.
  - intros j Hj. rewrite <- Eb3.
    pose proof (Hlow' j Hj) as Hl. rewrite (Hpc j Hj) in Hl.
    split.
    + rewrite <- (Hpc j Hj).
      apply scrubDefragInt16_agree;
        (rewrite peek_scrubDefragWriteInt32_out by lia;
         apply Hf2; [lia|]; intros j' Hj'; specialize (Hlow' j' Hj'); lia).
    + destruct (Hin2 j ltac:(lia)) as [cj Hcj].
      exists cj. rewrite scrubDefragInt32_out by lia.
      rewrite <- (Hpc j Hj). rewrite <- Eq3. apply logged_btree.
      rewrite destFile_inc. exact Hcj.
  - exists c. rewrite Hlog. left. f_equal. rewrite <- Eb3.
    change (0 + 8) with 8. symmetry.
    apply scrubDefragInt32_WriteInt32; [lia | | apply iDestPageNo_inc_range].
    rewrite Hlen2, Hlen'. simpl. lia.
Qed.


Lemma interior_table_children_relinked_witness :
  exists w rest,
    destFile (scrubDefragBtree_fuel tree_env 52 db_state1 2 0 true)
    = (iDestPageNo db_state1, w) :: rest
    /\ (forall j, 0 <= j < scrubDefragInt16 tree_page2 3 ->
          scrubDefragInt16 w (12 + j * 2)
          = scrubDefragInt16 tree_page2 (12 + j * 2)
          /\ exists c,
               In (scrubDefragInt32 w
                     (scrubDefragInt16 tree_page2 (12 + j * 2)), c) rest)
    /\ exists c, In (scrubDefragInt32 w 8, c) rest.
Proof.
  assert (E : scrubDefragInt16 tree_page2 3 = 1) by (vm_compute; reflexivity).
  apply (interior_table_children_relinked tree_env 51 db_state1 2 0 true
           tree_page2).
  - vm_compute. reflexivity.
  - simpl. lia.
  - discriminate.
  - reflexivity.
  - reflexivity.
  - vm_compute. lia.
  - intros j Hj. rewrite E in Hj. assert (j = 0) by lia. subst j.
    vm_compute. split; intros H; discriminate H.
  - intros j j' Hj Hj' Hne. rewrite E in Hj, Hj'. exfalso. lia.
Defined.

(** ** Writing a page *)

(** X22.  On a state without error, [scrubDefragWrite] either appends the
    page to the destination under a number of at most [nDestPage] and
    records nothing, or it leaves the destination as it was: a page number
    beyond [nDestPage] records [SQLITE_CORRUPT] with the message of an
    internal logic error and the file is not called, and a failed write
    records [SQLITE_IOERR] with the message of the failed write. *)
Theorem write_logs_page_or_error (env : Env) (p : ScrubDefragState)
    (pgno : Z) (a : list byte) :
  rcErr p = 0 ->
  let q := scrubDefragWrite env p pgno a in
  (pgno <= nDestPage p /\ xWrite env pgno a = SQLITE_OK
   /\ q = set_destFile ((pgno, a) :: destFile p) p)
  \/ (nDestPage p < pgno /\ rcErr q = SQLITE_CORRUPT
      /\ zErr q = Some ErrInternalLogic /\ destFile q = destFile p)
  \/ (pgno <= nDestPage p /\ xWrite env pgno a <> SQLITE_OK
      /\ rcErr q = SQLITE_IOERR /\ zErr q = Some (ErrWriteFailed pgno)
      /\ destFile q = destFile p).
Proof.
  intros H0 q. subst q. unfold scrubDefragWrite. rewrite H0. simpl negb.
  cbv iota.
  destruct (Z.ltb_spec (nDestPage p) pgno).
  - right. left. unfold scrubDefragErr. simpl. rewrite H0.
    repeat split; assumption || reflexivity.
  - destruct (Z.eqb_spec (xWrite env pgno a) SQLITE_OK).
    + left. repeat split; assumption || reflexivity.
    + right. right. unfold scrubDefragErr. simpl. rewrite H0.
      repeat split; assumption || reflexivity.
Qed.

Lemma write_logs_page_or_error_witness :
  rcErr (scrubDefragWrite db_env (fix_header db_state0) 5 db_page1)
  = SQLITE_CORRUPT.
Proof.
  pose proof (write_logs_page_or_error db_env (fix_header db_state0) 5
                db_page1 eq_refl) as T.
  cbv zeta in T.
  destruct T as [(T & _)|[(_ & T & _)|(T & _)]];
    [vm_compute in T; exfalso; apply T; reflexivity | exact T
     | vm_compute in T; exfalso; apply T; reflexivity].
Defined.

(** ** The loop over the roots after an error *)

(** X23.  Once an error is recorded, the loop over the roots reads and
    writes nothing more and leaves the state as it is, but it still appends
    one statement to the script for each remaining row, each with the value
    at which the allocator stopped as its new root. *)
Theorem roots_loop_after_error (env : Env) (s : ScrubDefragState)
    (zSql : list RootUpdate) (rows : list CatalogRow) :
  rcErr s <> 0 ->
  fst (relocate_rows env s zSql rows) = s
  /\ snd (relocate_rows env s zSql rows)
     = zSql ++ map (fun r => mkUpdate (iDestPageNo s) (s32 (row_root r))
                               (row_name r) (row_type r)) rows.
Proof.
  intros H. revert zSql. induction rows as [|r rows IH]; intros zSql.
  - simpl. rewrite app_nil_r. split; reflexivity.
  - assert (E : relocate_rows env s zSql (r :: rows)
                = relocate_rows env s
                    (zSql ++ [mkUpdate (iDestPageNo s) (s32 (row_root r))
                                (row_name r) (row_type r)]) rows).
    { simpl. unfold scrubDefragBtree.
      rewrite scrubDefragBtree_fuel_sticky by exact H. reflexivity. }
    rewrite E. destruct (IH (zSql ++ [mkUpdate (iDestPageNo s)
                                        (s32 (row_root r))
                                        (row_name r) (row_type r)]))
      as [H1 H2].
    split; [exact H1|]. rewrite H2, <- app_assoc. reflexivity.
Qed.

Lemma roots_loop_after_error_witness :
  fst (relocate_rows db_env (scrubDefragErr db_state0 (ErrTooDeep 7)) []
         db_catalog)
  = scrubDefragErr db_state0 (ErrTooDeep 7).
Proof.
  assert (H : rcErr (scrubDefragErr db_state0 (ErrTooDeep 7)) <> 0)
    by (vm_compute; discriminate).
  exact (proj1 (roots_loop_after_error db_env _ [] db_catalog H)).
Defined.

(** ** A corrupt page header *)

Lemma freeblock_loop_lines (fuel : nat) (U : Z) (a a' : list byte)
    (pc ln : Z) :
  freeblock_loop fuel U a pc = Corrupt ln a' ->
  ln = 415 \/ ln = 417 \/ ln = 420.
Proof.
  revert a pc. induction fuel as [|fuel IH]; intros a pc; simpl;
    [discriminate|].
  destruct (pc =? 0); [discriminate|].
  destruct (_ <? pc); [intros E; injection E as <- _; auto|].
  destruct (_ <? _); [intros E; injection E as <- _; auto|].
  destruct (_ && _); [intros E; injection E as <- _; auto|].
  apply IH.
Qed.

(** X24.  When the header scan of a page finds corruption, the call records
    [SQLITE_ERROR] with the message that names the page and the number of
    the source line of the failed test, one of 406, 408, 413, 415, 417 and
    420, and it writes nothing and keeps the allocator where it was.  Line
    406 means that the cell content area starts behind the usable area, and
    line 408 that it starts before the end of the cell index. *)
Theorem corrupt_header_reported (env : Env) (fuel : nat)
    (p : ScrubDefragState) (pgno iDepth : Z) (bRoot : bool)
    (a a' : list byte) (ln : Z) :
  rcErr p = 0 -> iDepth <= 50 ->
  btree_loads env p pgno a ->
  (pgno <> 1 -> malloc_ok env (nAlloc p) = true) ->
  btree_header (szUsable p) pgno a = Corrupt ln a' ->
  let r := scrubDefragBtree_fuel env (S fuel) p pgno iDepth bRoot in
  rcErr r = SQLITE_ERROR
  /\ zErr r = Some (ErrCorruptPage pgno ln)
  /\ destFile r = destFile p /\ iDestPageNo r = iDestPageNo p
  /\ (ln = 406 \/ ln = 408 \/ ln = 413 \/ ln = 415 \/ ln = 417 \/ ln = 420)
  /\ (ln = 406 <-> szUsable p < cell_start pgno a)
  /\ (ln = 408 <-> cell_start pgno a <= szUsable p
                   /\ cell_start pgno a < gap_start pgno a).
Proof.
  intros H0 Hdepth Hl Hm Hh r. subst r.
  rewrite scrubDefragBtree_fuel_unfold. rewrite H0. simpl negb. cbv iota.
  destruct (Z.ltb_spec 50 iDepth); [lia|]. cbv zeta.
  assert (Hload : exists q,
    (if pgno =? 1 then (p, Some (page1 p))
     else scrubDefragRead env p pgno false) = (q, Some a)
    /\ rcErr q = 0 /\ szUsable q = szUsable p /\ destFile q = destFile p
    /\ iDestPageNo q = iDestPageNo p).
  { unfold btree_loads in Hl. destruct (Z.eqb_spec pgno 1) as [E|E].
    - exists p. rewrite Hl. repeat split; assumption || reflexivity.
    - unfold scrubDefragRead, scrubDefragAllocPage. rewrite H0. simpl.
      rewrite (Hm E). simpl. rewrite Hl.
      eexists. split; [reflexivity|]. repeat split; assumption. }
  destruct Hload as (q & E & Hq & Hu & Hd & Hi). rewrite E, Hu, Hh.
  pose proof (frame_upd_state pgno (fun _ => a') q a') as (Hrc1 & Hi1 & _ & Hd1).
  destruct (frame_upd pgno _ q a') as [q1 b1]. simpl in Hrc1, Hi1, Hd1.
  unfold scrubDefragErr. simpl. rewrite Hrc1, Hq. simpl.
  split; [reflexivity|]. split; [reflexivity|].
  split; [congruence|]. split; [congruence|].
  clear - Hh. pose proof (gap_start_range pgno a) as Hg.
  revert Hh. unfold btree_header. fold (cell_start pgno a).
  replace (u32 (btree_szHdr a (btree_nPrefix pgno) + btree_nPrefix pgno
                + scrubDefragInt16 a (btree_nPrefix pgno + 3) * 2))
    with (gap_start pgno a)
    by (symmetry; unfold gap_start in *; rewrite u32_small; lia).
  destruct (Z.ltb_spec (szUsable p) (cell_start pgno a)).
  { intros E. injection E as <- _.
    split; [auto|]. split; split; intros; try reflexivity; try lia. }
  destruct (Z.ltb_spec (cell_start pgno a) (gap_start pgno a)).
  { intros E. injection E as <- _.
    split; [auto|]. split; split; intros; try reflexivity; try lia. }
  destruct (_ && _).
  { intros E. injection E as <- _.
    split; [auto 6|]. split; split; intros; try lia. }
  intros E. apply freeblock_loop_lines in E.
  split; [|split; split; intros; lia].
  destruct E as [->|[->| ->]]; auto 8.
Qed.

Lemma corrupt_header_reported_witness :
  zErr (scrubDefragBtree_fuel corrupt_env 52 db_state1 2 0 true)
  = Some (ErrCorruptPage 2 406)
  /\ destFile (scrubDefragBtree_fuel corrupt_env 52 db_state1 2 0 true)
     = destFile db_state1.
Proof.
  assert (H0 : rcErr db_state1 = 0) by (vm_compute; reflexivity).
  assert (Hd : 0 <= 50) by lia.
  assert (Hl : btree_loads corrupt_env db_state1 2 corrupt_leaf) by reflexivity.
  assert (Hm : 2 <> 1 -> malloc_ok corrupt_env (nAlloc db_state1) = true)
    by (intros _; reflexivity).
  assert (Hh : btree_header (szUsable db_state1) 2 corrupt_leaf
               = Corrupt 406 corrupt_leaf) by (vm_compute; reflexivity).
  pose proof (corrupt_header_reported corrupt_env 51 db_state1 2 0 true
                corrupt_leaf corrupt_leaf 406 H0 Hd Hl Hm Hh) as T.
  cbv zeta in T. destruct T as (_ & T2 & T3 & _).
  split; [exact T2 | exact T3].
Defined.

(** ** A run that leaves no message *)

(** When every request of a page buffer succeeds, a recorded error comes
    with a message, and a message once stored stays stored. *)
Lemma message_ops (env : Env) (p : ScrubDefragState) :
  (forall n, malloc_ok env n = true) ->
  ((zErr p = None -> rcErr p = 0) ->
   (zErr (scrubDefragIncDestPageNo p) = None ->
    rcErr (scrubDefragIncDestPageNo p) = 0)
   /\ (forall msg, zErr (scrubDefragErr p msg) = None ->
                   rcErr (scrubDefragErr p msg) = 0)
   /\ (zErr (fst (scrubDefragAllocPage env p)) = None ->
       rcErr (fst (scrubDefragAllocPage env p)) = 0)
   /\ (forall pgno hasBuf,
         zErr (fst (scrubDefragRead env p pgno hasBuf)) = None ->
         rcErr (fst (scrubDefragRead env p pgno hasBuf)) = 0)
   /\ (forall pgno a, zErr (scrubDefragWrite env p pgno a) = None ->
                      rcErr (scrubDefragWrite env p pgno a) = 0)
   /\ (forall b, zErr (set_page1 b p) = None -> rcErr (set_page1 b p) = 0))
  /\ (zErr p <> None ->
      zErr (scrubDefragIncDestPageNo p) <> None
      /\ (forall msg, zErr (scrubDefragErr p msg) <> None)
      /\ zErr (fst (scrubDefragAllocPage env p)) <> None
      /\ (forall pgno hasBuf,
            zErr (fst (scrubDefragRead env p pgno hasBuf)) <> None)
      /\ (forall pgno a, zErr (scrubDefragWrite env p pgno a) <> None)
      /\ (forall b, zErr (set_page1 b p) <> None)
      /\ (forall v, zErr (set_rcErr v p) <> None)).
Proof.
  intros Hm. split; intros H.
  - repeat split; intros; unfold_ops; unfold scrubDefragRead,
      scrubDefragAllocPage, scrubDefragWrite, scrubDefragErr,
      scrubDefragIncDestPageNo in *; simpl in *; rewrite ?Hm in *;
      simpl in *;
      repeat match goal with
             | |- context [?x =? ?y] => destruct (Z.eqb_spec x y)
             | H1 : context [?x =? ?y] |- _ => destruct (Z.eqb_spec x y)
             | |- context [?x <? ?y] => destruct (Z.ltb_spec x y)
             | H1 : context [?x <? ?y] |- _ => destruct (Z.ltb_spec x y)
             | |- context [if ?c then _ else _] => destruct c
             | H1 : context [if ?c then _ else _] |- _ => destruct c
             | |- context [match ?x with Some _ => _ | None => _ end] =>
                 destruct x
             | H1 : context [match ?x with Some _ => _ | None => _ end] |- _ =>
                 destruct x
             end; simpl in *; try discriminate; try congruence; auto.
  - repeat split; intros; unfold_ops; simpl; split_ifs; simpl;
      try discriminate; assumption.
Qed.

Lemma out_zErr_run_finish (env : Env) (s : ScrubDefragState)
    (zSql : list RootUpdate) :
  out_zErr (run_finish env s zSql) = zErr (out_state (run_finish env s zSql))
  /\ destFile (out_state (run_finish env s zSql)) = destFile s
  /\ (forall z, out_script (run_finish env s zSql) = Some z -> z = zSql).
Proof.
  unfold run_finish, scrubDefragErr. cbv zeta.
  repeat match goal with
         | |- context [if ?c then _ else _] => destruct c
         end; simpl; repeat split; intros; congruence.
Qed.

Section CleanRun.

Variable env : Env.
Hypothesis malloc_always : forall n, malloc_ok env n = true.

Lemma relocate_rows_clean (rows : list CatalogRow) (s : ScrubDefragState)
    (zSql : list RootUpdate) :
  (zErr s = None -> rcErr s = 0) ->
  zErr (fst (relocate_rows env s zSql rows)) = None ->
  forall u, In u (snd (relocate_rows env s zSql rows)) ->
    In u zSql
    \/ exists w, In (upd_newRoot u, w)
                    (destFile (fst (relocate_rows env s zSql rows))).
Proof.
  revert s zSql. induction rows as [|r rows IH]; intros s zSql HJ Hclean u Hu.
  - left. exact Hu.
  - assert (E : relocate_rows env s zSql (r :: rows)
                = relocate_rows env
                    (scrubDefragBtree env s (u32 (s32 (row_root r))) 0 true)
                    (zSql ++ [mkUpdate (iDestPageNo s) (s32 (row_root r))
                                (row_name r) (row_type r)]) rows)
      by reflexivity.
    rewrite E in *.
    set (s1 := scrubDefragBtree env s (u32 (s32 (row_root r))) 0 true) in *.
    set (u1 := mkUpdate (iDestPageNo s) (s32 (row_root r))
                 (row_name r) (row_type r)) in *.
    assert (HJ1 : zErr s1 = None -> rcErr s1 = 0).
    { subst s1. unfold scrubDefragBtree.
      apply (scrubDefragBtree_fuel_inv env
               (fun q => zErr q = None -> rcErr q = 0));
        try exact HJ; intros q; intros;
        destruct (message_ops env q malloc_always) as [Hops _];
        apply Hops; assumption. }
    assert (Hc1 : zErr s1 = None).
    { destruct (zErr s1) as [m|] eqn:Em; [|reflexivity]. exfalso.
      assert (Hk : zErr (fst (relocate_rows env s1 (zSql ++ [u1]) rows))
                   <> None).
      { apply (relocate_rows_inv env (fun q => zErr q <> None));
          try (rewrite Em; discriminate); intros q; intros;
          destruct (message_ops env q malloc_always) as [_ Hops];
          apply Hops; assumption. }
      contradiction. }
    destruct (IH s1 (zSql ++ [u1]) HJ1 Hclean u Hu) as [Hin|Hw];
      [|right; exact Hw].
    apply in_app_or in Hin. destruct Hin as [Hin|[<-|[]]];
      [left; exact Hin|].
    right.
    destruct (root_call_writes env s _ 0 (HJ1 Hc1)) as (w & rest & Hlog).
    exists w. simpl upd_newRoot.
    apply (relocate_rows_inv env (fun q => In (iDestPageNo s, w) (destFile q)));
      try (intros q0; intros; logged_op env q0 H).
    unfold s1. rewrite Hlog. left. reflexivity.
Qed.

End CleanRun.

Lemma finish_clean (env : Env) (s3 : ScrubDefragState)
    (zSql : list RootUpdate) (o : Outcome) :
  (forall n, malloc_ok env n = true) ->
  (zErr s3 = None -> rcErr s3 = 0) ->
  o = (let '(s, z) := relocate_rows env s3 [] (run_rows env) in
       run_finish env s z) ->
  out_script o = Some zSql ->
  out_zErr o = None ->
  forall u, In u zSql ->
    exists w, In (upd_newRoot u, w) (destFile (out_state o)).
Proof.
  intros Hm H3 ->.
  pose proof (relocate_rows_clean env Hm (run_rows env) s3 [] H3) as Hclean.
  destruct (relocate_rows env s3 [] (run_rows env)) as [s4 z4].
  cbn [fst snd] in Hclean.
  destruct (out_zErr_run_finish env s4 z4) as (Hz & Hd & Hs).
  intros Hscript Hnone u Hu.
  rewrite (Hs zSql Hscript) in Hu. rewrite Hd.
  assert (H4 : zErr s4 = None).
  { destruct (zErr s4) as [m|] eqn:Em; [|reflexivity]. exfalso.
    rewrite Hz in Hnone.
    assert (Hk : zErr (out_state (run_finish env s4 z4)) <> None).
    { apply (run_finish_inv env (fun q => zErr q <> None));
        try (rewrite Em; discriminate); intros q; intros;
        destruct (message_ops env q Hm) as [_ Hops]; apply Hops; assumption. }
    contradiction. }
  destruct (Hclean H4 u Hu) as [[]|Hw].
  exact Hw.
Qed.

Lemma rcErr_set_rcErr (v : Z) (p : ScrubDefragState) :
  rcErr (set_rcErr v p) = v.
Proof. reflexivity. Qed.

(** X25.  A run that executes the script and leaves no message has written
    every root: when no request of a page buffer fails, the script is
    executed and no message is stored, each statement of the script names
    as its new root a page number under which a page was written to the
    destination. *)
Theorem clean_run_wrote_every_root (env : Env) (zSql : list RootUpdate) :
  (forall n, malloc_ok env n = true) ->
  out_script (sqlite3_scrub_and_defrag env) = Some zSql ->
  out_zErr (sqlite3_scrub_and_defrag env) = None ->
  forall u, In u zSql ->
    exists w, In (upd_newRoot u, w)
                 (destFile (out_state (sqlite3_scrub_and_defrag env))).
Proof.
  intros Hm. rewrite run_phases.
  destruct (negb _); [discriminate|].
  destruct (scrubDefragRead env (run_locked env) 1 false) as [s [a|]];
    [|discriminate].
  destruct (scrubDefragPrepare _ _ catalog_sql) as [s3 [|]] eqn:Ep;
    [|discriminate].
  apply scrubDefragPrepare_true in Ep. destruct Ep as (Hok & Hrc & Eq).
  apply (finish_clean env s3 zSql _ Hm); [|reflexivity].
  intros _. rewrite Eq. rewrite rcErr_set_rcErr. exact Hrc.
Qed.

Lemma clean_run_wrote_every_root_witness :
  exists w, In (upd_newRoot (mkUpdate 2 2 "t" "table"), w)
               (destFile (out_state (sqlite3_scrub_and_defrag db_env))).
Proof.
  assert (Hm : forall n, malloc_ok db_env n = true) by (intros n; reflexivity).
  assert (Hs : out_script (sqlite3_scrub_and_defrag db_env)
               = Some [mkUpdate 2 2 "t" "table"]) by (vm_compute; reflexivity).
  assert (Hz : out_zErr (sqlite3_scrub_and_defrag db_env) = None)
    by (vm_compute; reflexivity).
  exact (clean_run_wrote_every_root db_env _ Hm Hs Hz
           (mkUpdate 2 2 "t" "table") (or_introl eq_refl)).
Defined.
